(** * BigModel / DataPipe / pipeline.py

    A shallow embedding of the WSI tiling pipeline ([generate_tiles],
    [process_one_slide], [main], [prepare_single_slide_dataset] and
    [TileEncodingDataset.__getitem__]) together with the properties of
    the design document that are about it.

    Conventions.
    - Python exceptions are values of [exn]; a call that may raise has a
      result in [result].
    - Code with effects (files, logging, calls of collaborators) runs in
      the monad [M]: a [world] goes in, a [result] and the [world] reached
      come out.  An exception keeps the effects performed before it.
    - numpy [float64] values are [spec_float]s at precision 53; integer
      arrays hold [Z]; a boolean array is a [list bool].
    - Functions of [WSI_tools] and [Segmentation_and_filtering_tools]
      are not part of the sources at hand: they are fields of the class
      [Collaborators]. *)

From Stdlib Require Import ZArith NArith QArith Qabs Qround List String Ascii Lia SpecFloat Sorted.
From stdpp Require Import base option list gmap strings.

Local Open Scope string_scope.
Local Open Scope Z_scope.

(* ===================================================================== *)
(** * Exceptions and results                                              *)
(* ===================================================================== *)

Inductive exn : Type :=
| KeyError (key : string)
| IndexError
| ValueError (what : string)
| TypeError (what : string)
| AssertionError (msg : string)
| FileExistsError (path : list string)
| FileNotFoundError (path : list string)
| NotADirectoryError (path : list string)
| EmptyDataError
| Failure (what : string).

Inductive result (A : Type) : Type :=
| Ok (a : A)
| Raise (e : exn).
Arguments Ok {A} a.
Arguments Raise {A} e.

Definition rbind {A B} (r : result A) (k : A -> result B) : result B :=
  match r with
  | Ok a => k a
  | Raise e => Raise e
  end.

Definition is_ok {A} (r : result A) : bool :=
  match r with Ok _ => true | Raise _ => false end.

(* ===================================================================== *)
(** * Python built-ins on [str]                                           *)
(* ===================================================================== *)

Module Py.

(** [s + c] for a one-character [c]. *)
Definition snoc (s : string) (c : ascii) : string := s +:+ String c "".

(** [os.path.basename(p)]: what follows the last ['/'] of [p]. *)
Fixpoint basename_go (cur : string) (p : string) : string :=
  match p with
  | "" => cur
  | String c p' =>
      if Ascii.eqb c "/" then basename_go "" p' else basename_go (snoc cur c) p'
  end.
Definition basename (p : string) : string := basename_go "" p.

(** [s.split(sep)] for a non-empty [sep]: the pieces of [s] between the
    occurrences of [sep], scanned from the left.  [skip] counts the
    characters of a matched separator that are still to be passed. *)
Fixpoint split_go (sep : string) (skip : nat) (cur : string) (s : string)
  : list string :=
  match s with
  | "" => [cur]
  | String c s' =>
      match skip with
      | S k => split_go sep k cur s'
      | O =>
          if String.prefix sep s
          then cur :: split_go sep (String.length sep - 1) "" s'
          else split_go sep 0 (snoc cur c) s'
      end
  end.
Definition split (s sep : string) : result (list string) :=
  match sep with
  | "" => Raise (ValueError "empty separator")
  | _ => Ok (split_go sep 0 "" s)
  end.

(** [s.replace(old, new)] for a non-empty [old]. *)
Fixpoint replace_go (old new : string) (skip : nat) (s : string) : string :=
  match s with
  | "" => ""
  | String c s' =>
      match skip with
      | S k => replace_go old new k s'
      | O =>
          if String.prefix old s
          then new +:+ replace_go old new (String.length old - 1) s'
          else String c (replace_go old new 0 s')
      end
  end.
Definition replace (s old new : string) : string := replace_go old new 0 s.

(** White space as [int()] strips it (code points below 256). *)
Definition is_space (c : ascii) : bool :=
  let n := N_of_ascii c in
  (((9 <=? n) && (n <=? 13)) || ((28 <=? n) && (n <=? 32))
   || (n =? 133) || (n =? 160))%N.

Fixpoint lstrip (s : string) : string :=
  match s with
  | "" => ""
  | String c s' => if is_space c then lstrip s' else s
  end.

Fixpoint rstrip (s : string) : string :=
  match s with
  | "" => ""
  | String c s' =>
      match rstrip s' with
      | "" => if is_space c then "" else String c ""
      | r => String c r
      end
  end.

Definition strip (s : string) : string := rstrip (lstrip s).

Definition digit_val (c : ascii) : option Z :=
  let n := N_of_ascii c in
  if ((48 <=? n) && (n <=? 57))%N then Some (Z.of_N n - 48) else None.

(** The digits of an integer literal; one ['_'] may stand between two
    digits.  [after_digit] tells whether the last character was a digit. *)
Fixpoint int_digits (acc : Z) (after_digit : bool) (s : string) : option Z :=
  match s with
  | "" => if after_digit then Some acc else None
  | String c s' =>
      if Ascii.eqb c "_"
      then (if after_digit then int_digits acc false s' else None)
      else match digit_val c with
           | Some d => int_digits (10 * acc + d) true s'
           | None => None
           end
  end.

(** [int(s)] in base 10. *)
Definition int (s : string) : result Z :=
  let body :=
    match strip s with
    | String "-" r => option_map Z.opp (int_digits 0 false r)
    | String "+" r => int_digits 0 false r
    | r => int_digits 0 false r
    end in
  match body with
  | Some z => Ok z
  | None => Raise (ValueError "invalid literal for int() with base 10")
  end.

(** [l[i]] on a list, negative indices counting from the end. *)
Definition index {A} (l : list A) (i : Z) : result A :=
  let n := Z.of_nat (length l) in
  let j := if i <? 0 then i + n else i in
  if (0 <=? j) && (j <? n)
  then match l !! Z.to_nat j with Some a => Ok a | None => Raise IndexError end
  else Raise IndexError.

(** The decimal numeral of a natural number, most significant digit
    first: [str(n)]. *)
Fixpoint digits_go (fuel : nat) (n : N) : list N :=
  match fuel with
  | O => []
  | S f => if (n <? 10)%N then [n] else digits_go f (n / 10)%N ++ [(n mod 10)%N]
  end.
Definition digits (n : N) : list N := digits_go (S (N.to_nat (N.log2 n))) n.

Definition digit_char (d : N) : ascii := ascii_of_N (48 + d).

Fixpoint numeral (ds : list N) : string :=
  match ds with
  | [] => ""
  | d :: ds' => String (digit_char d) (numeral ds')
  end.

(** [format(n, '0{w}d')]: [str(n)] padded with zeros to [w] characters;
    [w = 0] gives [str(n)]. *)
Definition format_0d (w : nat) (n : N) : string :=
  let ds := digits n in
  numeral (repeat 0%N (w - length ds) ++ ds).

Definition str (n : N) : string := format_0d 0 n.

End Py.

#[global] Instance result_ret : MRet result := fun A a => Ok a.
#[global] Instance result_bind : MBind result := fun A B k r => rbind r k.
#[global] Instance result_fmap : FMap result := fun A B f r => rbind r (fun a => Ok (f a)).

(* ===================================================================== *)
(** * Numbers as numpy and torch hold them                                *)
(* ===================================================================== *)

(** A [float64]: IEEE 754 binary64 (53 bits of precision). *)
Abbreviation float := spec_float.

Definition prec64 : Z := 53.
Definition emax64 : Z := 1024.

Definition float_mul (a b : float) : float := SFmul prec64 emax64 a b.
Definition float_add (a b : float) : float := SFadd prec64 emax64 a b.

(** An [int64] read as a [float64] (round to nearest, ties to even). *)
Definition float_of_int (z : Z) : float := binary_normalize prec64 emax64 z 0 false.

(** The dyadic [m * 2^e], for writing float literals. *)
Definition float_lit (m e : Z) : float := binary_normalize prec64 emax64 m e false.

Definition int64_min : Z := - 2 ^ 63.
Definition int64_max : Z := 2 ^ 63 - 1.
Definition in_int64 (z : Z) : bool := (int64_min <=? z) && (z <=? int64_max).

(** The rational a float stands for (0 for what is not finite). *)
Definition SF2Q (f : float) : Q :=
  match f with
  | S754_finite s m e =>
      let z := cond_Zopp s (Zpos m) in
      if 0 <=? e then inject_Z (z * 2 ^ e) else z # Z.to_pos (2 ^ (- e))
  | _ => 0%Q
  end.

Definition is_finite (f : float) : bool :=
  match f with
  | S754_zero _ | S754_finite _ _ _ => true
  | _ => false
  end.

(** [a.astype(int)] on one [float64]: the C cast to [int64], which drops
    the fractional part.  NaN, the infinities and what does not fit give
    the smallest [int64] (the x86-64 conversion). *)
Definition astype_int (f : float) : Z :=
  match f with
  | S754_zero _ => 0
  | S754_finite s m e =>
      let t := cond_Zopp s (Z.shiftl (Zpos m) e) in
      if in_int64 t then t else int64_min
  | _ => int64_min
  end.

(** Dropping the fractional part of a rational, that is rounding it
    toward zero.  Used only to state properties. *)
Definition Qtruncate (q : Q) : Z :=
  if Qle_bool 0 q then Qfloor q else Qceiling q.

(** [np.rint]: the nearest integer, ties to the even one.  Used only to
    state properties, the pipeline does not call it. *)
Definition round_half_even (q : Q) : Z :=
  let fl := Qfloor q in
  match Qcompare (q - inject_Z fl) (1 # 2) with
  | Lt => fl
  | Gt => fl + 1
  | Eq => if Z.even fl then fl else fl + 1
  end.

(** The real value of the [float32] that [t.float()] gives for the
    [int64] [n]: [n] rounded to 24 significant bits, ties to even.  It is
    an integer again. *)
Definition float32_of_int (n : Z) : Z :=
  let a := Z.abs n in
  let e := Z.log2 a - 23 in
  if e <=? 0 then n
  else
    let q := a / 2 ^ e in
    let r := a mod 2 ^ e in
    let half := 2 ^ (e - 1) in
    let q' := if (half <? r) || ((r =? half) && Z.odd q) then q + 1 else q in
    Z.sgn n * (q' * 2 ^ e).

(** [torch.from_numpy(np.array(l))] for a list of Python ints: an
    [int64] tensor when every entry fits.  Beyond that numpy picks
    another dtype (uint64, float64 or object, by version) which
    [from_numpy] turns down; the model stops with [TypeError]. *)
Definition from_numpy_ints (l : list Z) : result (list Z) :=
  if forallb in_int64 l then Ok l
  else Raise (TypeError "can't convert np.ndarray of this dtype").

(* ===================================================================== *)
(** * TileEncodingDataset                                                 *)
(* ===================================================================== *)

(** PIL and torch, as far as [__getitem__] uses them. *)
Class ImageIO := {
  picture : Type;
  tensor : Type;
  (** [open(img_path, "rb")] then [Image.open(f).convert("RGB")] *)
  image_open_rgb : string -> result picture;
  (** [torch.from_numpy(np.array(img))] *)
  picture_to_tensor : picture -> tensor;
}.

Record TileEncodingDataset `{ImageIO} := {
  transform : option (picture -> result picture);
  image_paths : list string;
}.

(** The dictionary [__getitem__] returns; ['coords'] is given by the
    values of its two [float32] entries. *)
Record encoded_tile `{ImageIO} := {
  item_img : tensor;
  item_coords : Z * Z;
}.

Definition TileEncodingDataset_len `{ImageIO} (self : TileEncodingDataset) : nat :=
  length (image_paths self).

(** The coordinates read back from a file name: lines 414-417. *)
Definition parse_coords (img_path : string) : result (Z * Z) :=
  let img_name := Py.basename img_path in
  pieces ← Py.split img_name ".png";
  stem ← Py.index pieces 0;
  xy ← Py.split stem "_";
  match xy with
  | [x; y] =>
      x ← Py.int (Py.replace x "x" "");
      y ← Py.int (Py.replace y "y" "");
      Ok (x, y)
  | _ => Raise (ValueError "wrong number of values to unpack (expected 2)")
  end.

(** The picture, opened and then transformed when there is a
    transform: lines 419-422. *)
Definition load_picture `{ImageIO} (self : TileEncodingDataset) (img_path : string)
  : result picture :=
  img ← image_open_rgb img_path;
  match transform self with
  | Some t => t img
  | None => Ok img
  end.

Definition TileEncodingDataset_getitem `{ImageIO}
    (self : TileEncodingDataset) (idx : Z) : result encoded_tile :=
  img_path ← Py.index (image_paths self) idx;
  '(x, y) ← parse_coords img_path;
  img ← load_picture self img_path;
  xy ← from_numpy_ints [x; y];
  match xy with
  | [x; y] =>
      Ok {| item_img := picture_to_tensor img;
            item_coords := (float32_of_int x, float32_of_int y) |}
  | _ => Raise (ValueError "shape")
  end.

(* ===================================================================== *)
(** * Paths and the file system                                           *)
(* ===================================================================== *)

(** A [pathlib.Path], as the list of its components from the root. *)
Abbreviation path := (list string).

(** [Path(s)] *)
Definition Path (s : string) : path :=
  filter (fun c => c <> "") (Py.split_go "/" 0 "" s).

(** [p / q] *)
Definition path_join (p q : path) : path := p ++ q.
Infix "</>" := path_join (at level 50, left associativity).

(** [p.parent] *)
Definition parent (p : path) : path := removelast p.

(** [p.name] *)
Definition name (p : path) : string := List.last p "".

Record filesystem := {
  dirs : gset path;            (* the directories, the root apart *)
  files : gmap path string;    (* the regular files and what they hold *)
}.

Definition is_dir (fs : filesystem) (p : path) : bool :=
  bool_decide (p = []) || bool_decide (p ∈ dirs fs).
Definition is_file (fs : filesystem) (p : path) : bool :=
  bool_decide (is_Some (files fs !! p)).
Definition path_exists (fs : filesystem) (p : path) : bool :=
  is_dir fs p || is_file fs p.

(** [os.mkdir(p)] *)
Definition os_mkdir (p : path) (fs : filesystem) : result filesystem :=
  if path_exists fs p then Raise (FileExistsError p)
  else if is_dir fs (parent p) then
    Ok {| dirs := {[ p ]} ∪ dirs fs; files := files fs |}
  else if is_file fs (parent p) then Raise (NotADirectoryError p)
  else Raise (FileNotFoundError p).

(** [p.mkdir(parents=.., exist_ok=..)], as pathlib writes it: try
    [os.mkdir]; on [FileNotFoundError] make the parent first (when
    [parents]); on any other [OSError] give in unless [exist_ok] and [p]
    is a directory.  [fuel] bounds the way up to the root. *)
Fixpoint mkdir_go (fuel : nat) (parents exist_ok : bool) (p : path)
    (fs : filesystem) : result filesystem :=
  match os_mkdir p fs with
  | Ok fs' => Ok fs'
  | Raise (FileNotFoundError q) =>
      match fuel with
      | S f =>
          if parents && negb (bool_decide (p = []))
          then fs1 ← mkdir_go f true true (parent p) fs;
               mkdir_go f false exist_ok p fs1
          else Raise (FileNotFoundError q)
      | O => Raise (FileNotFoundError q)
      end
  | Raise e => if exist_ok && is_dir fs p then Ok fs else Raise e
  end.

Definition mkdir_fs (parents exist_ok : bool) (p : path) (fs : filesystem)
  : result filesystem :=
  mkdir_go (S (length p)) parents exist_ok p fs.

(** Storing [content] at [p], as [open(p, 'w')] followed by writes and
    [close()] does, and as a collaborator does that saves a file. *)
Definition write_fs (p : path) (content : string) (fs : filesystem)
  : result filesystem :=
  if is_dir fs p then Raise (Failure "IsADirectoryError")
  else if is_dir fs (parent p) then
    Ok {| dirs := dirs fs; files := <[ p := content ]> (files fs) |}
  else if is_file fs (parent p) then Raise (NotADirectoryError p)
  else Raise (FileNotFoundError p).

Definition read_fs (p : path) (fs : filesystem) : result string :=
  match files fs !! p with
  | Some c => Ok c
  | None => Raise (FileNotFoundError p)
  end.

(** [shutil.rmtree(p)] *)
Definition rmtree_fs (p : path) (fs : filesystem) : result filesystem :=
  if is_dir fs p then
    Ok {| dirs := filter (fun q => ¬ p `prefix_of` q) (dirs fs);
          files := filter (fun kv => ¬ p `prefix_of` kv.1) (files fs) |}
  else if is_file fs p then Raise (NotADirectoryError p)
  else Raise (FileNotFoundError p).

(* ===================================================================== *)
(** * The world and the monad of effects                                  *)
(* ===================================================================== *)

(** What the [logging] and [warnings] calls of pipeline.py say. *)
Inductive log_msg : Type :=
| Msg_image_tiles_shape (n_tiles : nat)
| Msg_tiled (n_tiles : nat)
| Msg_discarded (n_discarded total : nat)
| Msg_discarded_after_empty (n_discarded total : nat)
| Msg_before_filtering (min_y max_y min_x max_x : Z)
| Msg_no_tiles_selected
| Msg_after_filtering (min_y max_y min_x max_x : Z)
| Msg_slide_dir (p : path)
| Msg_skipping (p : path)
| Msg_loading (slide_id : string) (file : path)
| Msg_saving_thumbnail (p : path)
| Msg_tiling (slide_id : string)
| Msg_tiles_found (n_tiles : nat)
| Msg_saving_tiles (slide_id : string)
| Msg_tile_error (tile_id : string) (e : exn)
| Msg_incomplete (slide_id : string) (n_failed_tiles : nat)
| Msg_finished (slide_id : string)
| Msg_creating_dataset (level tile_size : Z) (output_dir : path)
| Msg_thumbnail_dir (p : path)
| Msg_merging.

Inductive log_record : Type :=
| Info (m : log_msg)
| Warn (m : log_msg).

(** The calls that leave pipeline.py. *)
Inductive call : Type :=
| Call_load (slide_id : string)
| Call_save_thumbnail (out : path)
| Call_savefig (out : path)
| Call_tile_array_2d
| Call_save_image (out : path)
| Call_visualize (out : path)
| Call_merge (output_dir : path).

Record world := {
  fs : filesystem;
  log : list log_record;      (* oldest first *)
  calls : list call;          (* oldest first *)
}.

Definition M (A : Type) : Type := world -> result A * world.

#[global] Instance M_ret : MRet M := fun A a w => (Ok a, w).
#[global] Instance M_bind : MBind M := fun A B k m w =>
  match m w with
  | (Ok a, w') => k a w'
  | (Raise e, w') => (Raise e, w')
  end.

Definition raise {A} (e : exn) : M A := fun w => (Raise e, w).

(** A pure call that may raise. *)
Definition lift {A} (r : result A) : M A := fun w => (r, w).

(** [try: body] with [except Exception as e]: what [body] raised is
    handed over as a value, its effects stay. *)
Definition try_block {A} (body : M A) : M (result A) := fun w =>
  let '(r, w') := body w in (Ok r, w').

Definition logging (r : log_record) : M unit := fun w =>
  (Ok tt, {| fs := fs w; log := log w ++ [r]; calls := calls w |}).

Definition called (c : call) : M unit := fun w =>
  (Ok tt, {| fs := fs w; log := log w; calls := calls w ++ [c] |}).

(** Reading the file system. *)
Definition with_fs {A} (f : filesystem -> A) : M A := fun w => (Ok (f (fs w)), w).

(** A call that reads the file system and may raise. *)
Definition reading {A} (f : filesystem -> result A) : M A := fun w => (f (fs w), w).

(** An operation on the file system that may raise. *)
Definition on_fs (f : filesystem -> result filesystem) : M unit := fun w =>
  match f (fs w) with
  | Ok fs' => (Ok tt, {| fs := fs'; log := log w; calls := calls w |})
  | Raise e => (Raise e, w)
  end.

Definition mkdir (parents exist_ok : bool) (p : path) : M unit :=
  on_fs (mkdir_fs parents exist_ok p).

(** A collaborator that renders a file: [render] reads the file system
    and gives the bytes, which are stored at [out] and nowhere else. *)
Definition saving (c : call) (render : filesystem -> result string) (out : path)
  : M unit :=
  called c;;
  content ← reading render;
  on_fs (write_fs out content).

(* ===================================================================== *)
(** * numpy on one-dimensional arrays                                     *)
(* ===================================================================== *)

(** [~m] *)
Definition np_not (m : list bool) : list bool := map negb m.

(** [a & b], with numpy's broadcasting of an array of length one. *)
Definition np_and (a b : list bool) : result (list bool) :=
  if (length a =? length b)%nat then Ok (zip_with andb a b)
  else match a, b with
       | [x], _ => Ok (map (andb x) b)
       | _, [y] => Ok (map (fun x => x && y) a)
       | _, _ => Raise (ValueError "operands could not be broadcast together")
       end.

(** [m.sum()] *)
Definition np_sum (m : list bool) : nat := length (List.filter (fun b => b) m).

Fixpoint mask_go {A} (mask : list bool) (a : list A) : list A :=
  match mask, a with
  | b :: mask', x :: a' => if b then x :: mask_go mask' a' else mask_go mask' a'
  | _, _ => []
  end.

(** [a[mask]]: the rows of [a] where [mask] is true; the lengths must
    agree. *)
Definition bool_index {A} (a : list A) (mask : list bool) : result (list A) :=
  if (length mask =? length a)%nat then Ok (mask_go mask a)
  else Raise IndexError.

(** [a.min()] and [a.max()], which raise on an empty array. *)
Definition np_min (a : list Z) : result Z :=
  match a with
  | [] => Raise (ValueError "zero-size array to reduction operation minimum which has no identity")
  | x :: a' => Ok (foldr Z.min x a')
  end.
Definition np_max (a : list Z) : result Z :=
  match a with
  | [] => Raise (ValueError "zero-size array to reduction operation maximum which has no identity")
  | x :: a' => Ok (foldr Z.max x a')
  end.

(* ===================================================================== *)
(** * Samples and collaborators                                           *)
(* ===================================================================== *)

(** The values of a sample dictionary: a string, or the metadata
    mapping (keys in insertion order, values as [str] renders them). *)
Inductive pyvalue : Type :=
| PStr (s : string)
| PDict (kv : list (string * string)).

(** A slide descriptor, a Python [dict]. *)
Abbreviation sample := (gmap string pyvalue).

(** [d[k]], expected to be a string. *)
Definition getitem_str (d : sample) (k : string) : result string :=
  match d !! k with
  | Some (PStr s) => Ok s
  | Some (PDict _) => Raise (TypeError "expected str, bytes or os.PathLike object")
  | None => Raise (KeyError k)
  end.

(** [d[k]], expected to be a mapping. *)
Definition getitem_dict (d : sample) (k : string) : result (list (string * string)) :=
  match d !! k with
  | Some (PDict kv) => Ok kv
  | Some (PStr _) => Raise (TypeError "string indices must be integers")
  | None => Raise (KeyError k)
  end.

(** Modelled from the spec: the type of what the WSI loading
    collaborator [Load_a_WSI_with_valid_regions] returns, which is
    declared in [WSI_tools]: the ROI pixel array plus [origin] (int pair),
    [scale] (float) and [foreground_threshold] (float). *)
Record loaded_sample (image : Type) := {
  wsi_image : image;
  wsi_foreground_threshold : float;
  wsi_scale : float;
  wsi_origin : Z * Z;
}.
Arguments wsi_image {image} _.
Arguments wsi_foreground_threshold {image} _.
Arguments wsi_scale {image} _.
Arguments wsi_origin {image} _.

(** What pipeline.py imports from [WSI_tools] and
    [Segmentation_and_filtering_tools], and its calls of matplotlib.
    A collaborator that saves a picture is given by the bytes it renders
    (see [saving]); one that only formats is a total function. *)
Class Collaborators := {
  image : Type;        (* an RGB array, (C, H, W) *)
  tile : Type;         (* one tile, (C, H, W) *)
  fg_mask : Type;      (* the foreground masks of a tile sequence *)
  tile_info : Type;    (* the dictionary of one tile *)

  is_already_processed : filesystem -> path -> bool;
  (** [Load_a_WSI_with_valid_regions(WSIReader(..), level, margin,
      foreground_threshold)(sample)] *)
  load_wsi : Z -> Z -> option float -> sample -> filesystem
             -> result (loaded_sample image);
  save_thumbnail : path -> filesystem -> result string;
  (** [plt.figure(); plt.imshow(img.transpose(1, 2, 0)); plt.savefig(..);
      plt.close()] *)
  savefig_roi : image -> result string;

  tile_array_2d : image -> Z -> Z -> list tile * list (Z * Z);
  segment_foreground : list tile -> float -> fg_mask * float;
  ROI_occupancy_filtering : fg_mask -> float -> list bool * list float;
  check_empty_tiles : list tile -> list bool;

  get_tile_info_dict : loaded_sample image -> float -> Z * Z -> path
                       -> result tile_info;
  (** [tile_info["image"]] *)
  tile_info_image : tile_info -> result path;
  save_image : tile -> result string;
  get_tile_descriptor : Z * Z -> string;
  get_tile_id : string -> Z * Z -> string;
  format_csv_row : tile_info -> list string -> list string -> string;
  visualize_tile_locations : loaded_sample image -> list tile_info -> Z
                             -> Z * Z -> result string;
  merge_dataset_csv_files : path -> filesystem -> result string;
}.

(* ===================================================================== *)
(** * generate_tiles                                                      *)
(* ===================================================================== *)

(** The tuple [generate_tiles] returns. *)
Record tiles_result `{Collaborators} := {
  image_tiles : list tile;
  tile_locations : list (Z * Z);     (* (y, x), ROI-local *)
  occupancies : list float;
  n_discarded : nat;
}.

(** [min] and [max] of both columns of a location array, as the two
    logging calls on the locations evaluate them. *)
Definition locations_extent (locs : list (Z * Z)) : result (Z * Z * Z * Z) :=
  min_y ← np_min (locs.*1);
  max_y ← np_max (locs.*1);
  min_x ← np_min (locs.*2);
  max_x ← np_max (locs.*2);
  Ok (min_y, max_y, min_x, max_x).

Definition generate_tiles `{Collaborators} (slide_image : image) (tile_size : Z)
    (foreground_threshold occupancy_threshold : float) : M tiles_result :=
  (* STEP 1 *)
  called Call_tile_array_2d;;
  let '(image_tiles, tile_locations) := tile_array_2d slide_image tile_size 255 in
  logging (Info (Msg_image_tiles_shape (length image_tiles)));;
  logging (Info (Msg_tiled (length image_tiles)));;
  (* STEP 2 *)
  let '(foreground_mask, _) := segment_foreground image_tiles foreground_threshold in
  let '(selected, occupancies) :=
    ROI_occupancy_filtering foreground_mask occupancy_threshold in
  let n_discarded := np_sum (np_not selected) in
  logging (Info (Msg_discarded n_discarded (length selected)));;
  (* STEP 3 *)
  let empty_tile_bool_mask := check_empty_tiles image_tiles in
  selected ← lift (np_and selected (np_not empty_tile_bool_mask));
  let n_discarded := np_sum (np_not selected) in
  logging (Info (Msg_discarded_after_empty n_discarded (length selected)));;
  '(min_y, max_y, min_x, max_x) ← lift (locations_extent tile_locations);
  logging (Info (Msg_before_filtering min_y max_y min_x max_x));;
  image_tiles ← lift (bool_index image_tiles selected);
  tile_locations ← lift (bool_index tile_locations selected);
  occupancies ← lift (bool_index occupancies selected);
  match tile_locations with
  | [] => logging (Warn Msg_no_tiles_selected)
  | _ =>
      '(min_y, max_y, min_x, max_x) ← lift (locations_extent tile_locations);
      logging (Info (Msg_after_filtering min_y max_y min_x max_x))
  end;;
  mret {| image_tiles := image_tiles; tile_locations := tile_locations;
          occupancies := occupancies; n_discarded := n_discarded |}.

(* ===================================================================== *)
(** * process_one_slide                                                   *)
(* ===================================================================== *)

(** ['\n'] *)
Definition nl : string := String "010"%char "".

(** [sep.join(l)] *)
Definition join (sep : string) (l : list string) : string := String.concat sep l.

Definition keys_to_save : list string :=
  ["slide_id"; "tile_id"; "image"; "label"; "tile_y"; "tile_x"; "occupancy"].

(** [(scale * rel_tile_locations + origin).astype(int)]: the [int64]
    locations become [float64], [origin] is broadcast over the rows. *)
Definition level0_value (scale : float) (origin rel : Z) : float :=
  float_add (float_mul scale (float_of_int rel)) (float_of_int origin).

Definition level0_coordinate (scale : float) (origin rel : Z) : Z :=
  astype_int (level0_value scale origin rel).

Definition level0_locations (scale : float) (origin : Z * Z)
    (rel_tile_locations : list (Z * Z)) : list (Z * Z) :=
  map (fun yx => (level0_coordinate scale origin.1 yx.1,
                  level0_coordinate scale origin.2 yx.2)) rel_tile_locations.

(** The local variables the save loop updates.  The two CSV files are
    open for writing during the loop: what has been written to them is
    kept here and reaches the file system when they are closed. *)
Record csv_logs `{Collaborators} := {
  n_failed_tiles : nat;
  failed_tiles_file : string;
  dataset_csv_file : string;
  tile_info_list : list tile_info;
}.

Section SaveLoop.
Context `{Collaborators}.
Variables (loaded_WSI_sample : loaded_sample image)
          (occupancies : list float)
          (tile_locations : list (Z * Z))
          (image_tiles : list tile)
          (slide_id : string)
          (rel_slide_dir output_dir : path)
          (metadata_keys : list string).

(** The body of [try:], lines 233-234. *)
Definition save_tile_try (i : nat) : M tile_info :=
  occupancy ← lift (Py.index occupancies (Z.of_nat i));
  location ← lift (Py.index tile_locations (Z.of_nat i));
  tile_info ← lift (get_tile_info_dict loaded_WSI_sample occupancy location
                                        rel_slide_dir);
  tile ← lift (Py.index image_tiles (Z.of_nat i));
  image ← lift (tile_info_image tile_info);
  saving (Call_save_image (output_dir </> image))
         (fun _ => save_image tile) (output_dir </> image);;
  mret tile_info.

(** One turn of the loop, lines 231-248. *)
Definition save_tile (st : csv_logs) (i : nat) : M csv_logs :=
  r ← try_block (save_tile_try i);
  match r with
  | Raise e =>
      let n_failed_tiles := S (n_failed_tiles st) in
      location ← lift (Py.index tile_locations (Z.of_nat i));
      let descriptor := get_tile_descriptor location in
      let failed_tiles_file := failed_tiles_file st +:+ descriptor +:+ nl in
      logging (Warn (Msg_tile_error (get_tile_id slide_id location) e));;
      mret {| n_failed_tiles := n_failed_tiles;
              failed_tiles_file := failed_tiles_file;
              dataset_csv_file := dataset_csv_file st;
              tile_info_list := tile_info_list st |}
  | Ok tile_info =>
      let dataset_row := format_csv_row tile_info keys_to_save metadata_keys in
      mret {| n_failed_tiles := n_failed_tiles st;
              failed_tiles_file := failed_tiles_file st;
              dataset_csv_file := dataset_csv_file st +:+ dataset_row +:+ nl;
              tile_info_list := (tile_info_list st ++ [tile_info])%list |}
  end.

(** [for i in range(n_tiles)], over the indices still to come. *)
Fixpoint save_tiles (range : list nat) (st : csv_logs) : M csv_logs :=
  match range with
  | [] => mret st
  | i :: range' => st' ← save_tile st i; save_tiles range' st'
  end.
End SaveLoop.

(** The local variables of [process_one_slide] once the slide is
    loaded. *)
Record slide_locals `{Collaborators} := {
  slide_id : string;
  rel_slide_dir : path;
  output_tiles_dir : path;
  metadata_keys : list string;
  dataset_csv_path : path;
  failed_tiles_csv_path : path;
  logs : csv_logs;
  slide_image_path : path;
  loaded_WSI_sample : loaded_sample image;
}.

(** STEP 0, lines 139-146: the directories and the name of the slide's
    own directory. *)
Definition set_up_slide_dir (sample : sample) (output_dir thumbnail_dir : path)
  : M (string * path) :=
  mkdir true true output_dir;;
  mkdir true true thumbnail_dir;;
  slide_id ← lift (getitem_str sample "slide_id");
  let rel_slide_dir := Path slide_id in
  let output_tiles_dir := output_dir </> rel_slide_dir in
  logging (Info (Msg_slide_dir output_tiles_dir));;
  mret (slide_id, output_tiles_dir).

(** Lines 152-194: the two CSV files are opened and get their headers,
    then (STEP 1) the slide is loaded. *)
Definition prepare_slide `{Collaborators} (sample : sample) (level margin : Z)
    (foreground_threshold : option float) (slide_id : string)
    (output_tiles_dir : path) : M slide_locals :=
  mkdir true true output_tiles_dir;;
  slide_metadata ← lift (getitem_dict sample "metadata");
  let metadata_keys := map (fun kv => "slide_" +:+ kv.1) slide_metadata in
  let csv_columns := (keys_to_save ++ metadata_keys)%list in
  let dataset_csv_path := output_tiles_dir </> ["dataset.csv"] in
  on_fs (write_fs dataset_csv_path "");;
  let failed_tiles_csv_path := output_tiles_dir </> ["failed_tiles.csv"] in
  on_fs (write_fs failed_tiles_csv_path "");;
  let logs :=
    {| dataset_csv_file := join "," csv_columns +:+ nl;
       n_failed_tiles := 0;
       failed_tiles_file := "tile_id" +:+ nl;
       tile_info_list := [] |} in
  (* STEP 1 *)
  slide_image_path ← lift (Path <$> getitem_str sample "image");
  logging (Info (Msg_loading slide_id slide_image_path));;
  called (Call_load slide_id);;
  loaded_WSI_sample ← reading (load_wsi level margin foreground_threshold sample);
  mret {| slide_id := slide_id; rel_slide_dir := Path slide_id;
          output_tiles_dir := output_tiles_dir; metadata_keys := metadata_keys;
          dataset_csv_path := dataset_csv_path;
          failed_tiles_csv_path := failed_tiles_csv_path; logs := logs;
          slide_image_path := slide_image_path;
          loaded_WSI_sample := loaded_WSI_sample |}.

(** Lines 196-206: the thumbnail of the slide and the one of the ROI. *)
Definition save_thumbnails `{Collaborators} (l : slide_locals) (thumbnail_dir : path)
  : M unit :=
  let original_png :=
    thumbnail_dir </> [name (slide_image_path l) +:+ "_original.png"] in
  saving (Call_save_thumbnail original_png) (save_thumbnail (slide_image_path l))
         original_png;;
  let slide_image := wsi_image (loaded_WSI_sample l) in
  let roi_png := thumbnail_dir </> [name (slide_image_path l) +:+ "_roi.png"] in
  saving (Call_savefig roi_png) (fun _ => savefig_roi slide_image) roi_png;;
  logging (Info (Msg_saving_thumbnail roi_png)).

(** Lines 249-270: the CSV files are closed, the overlay is drawn. *)
Definition finish_slide `{Collaborators} (l : slide_locals) (st : csv_logs)
    (tile_size : Z) (thumbnail_dir : path) : M path :=
  on_fs (write_fs (dataset_csv_path l) (dataset_csv_file st));;
  on_fs (write_fs (failed_tiles_csv_path l) (failed_tiles_file st));;
  (* STEP 4 *)
  let roi_tiles_png :=
    thumbnail_dir </> [name (slide_image_path l) +:+ "_roi_tiles.png"] in
  saving (Call_visualize roi_tiles_png)
         (fun _ => visualize_tile_locations (loaded_WSI_sample l) (tile_info_list st)
                     tile_size (wsi_origin (loaded_WSI_sample l)))
         roi_tiles_png;;
  (if (0 <? n_failed_tiles st)%nat
   then logging (Warn (Msg_incomplete (slide_id l) (n_failed_tiles st)))
   else mret tt);;
  logging (Info (Msg_finished (slide_id l)));;
  mret (output_tiles_dir l).

(** Lines 196-270: what [process_one_slide] does with a loaded slide. *)
Definition process_loaded_slide `{Collaborators} (l : slide_locals)
    (tile_size : Z) (occupancy_threshold : float)
    (output_dir thumbnail_dir : path) : M path :=
  save_thumbnails l thumbnail_dir;;
  (* STEP 2 *)
  logging (Info (Msg_tiling (slide_id l)));;
  tiles ← generate_tiles (wsi_image (loaded_WSI_sample l)) tile_size
            (wsi_foreground_threshold (loaded_WSI_sample l)) occupancy_threshold;
  let rel_tile_locations := tile_locations tiles in
  let level0 :=
    level0_locations (wsi_scale (loaded_WSI_sample l))
                     (wsi_origin (loaded_WSI_sample l)) rel_tile_locations in
  let n_tiles := length (image_tiles tiles) in
  logging (Info (Msg_tiles_found n_tiles));;
  (* STEP 3 *)
  logging (Info (Msg_saving_tiles (slide_id l)));;
  st ← save_tiles (loaded_WSI_sample l) (occupancies tiles) level0
         (image_tiles tiles) (slide_id l) (rel_slide_dir l) output_dir
         (metadata_keys l) (seq 0 n_tiles) (logs l);
  finish_slide l st tile_size thumbnail_dir.

(** [process_one_slide], put together from its steps.  [tile_progress]
    only switches the progress bar and [image_key] keeps its default:
    neither is a parameter here. *)
Definition process_one_slide `{Collaborators} (sample : sample)
    (level margin tile_size : Z) (foreground_threshold : option float)
    (occupancy_threshold : float) (output_dir thumbnail_dir : path) : M path :=
  '(slide_id, output_tiles_dir) ← set_up_slide_dir sample output_dir thumbnail_dir;
  already ← with_fs (fun fs => is_already_processed fs output_tiles_dir);
  if already : bool then
    logging (Info (Msg_skipping output_tiles_dir));;
    mret output_tiles_dir
  else
    l ← prepare_slide sample level margin foreground_threshold slide_id
          output_tiles_dir;
    process_loaded_slide l tile_size occupancy_threshold output_dir thumbnail_dir.

(* ===================================================================== *)
(** * main                                                                *)
(* ===================================================================== *)

(** [l[:n]] *)
Definition slice_to {A} (l : list A) (n : option Z) : list A :=
  match n with
  | None => l
  | Some n =>
      if n <? 0 then take (Z.to_nat (Z.of_nat (length l) + n)) l
      else take (Z.to_nat n) l
  end.

(** Lines 302-304. *)
Fixpoint check_slide_files (dataset : list sample) : M unit :=
  match dataset with
  | [] => mret tt
  | sample :: dataset' =>
      image_path ← lift (Path <$> getitem_str sample "image_path");
      there ← with_fs (fun fs => path_exists fs image_path);
      if there : bool then check_slide_files dataset'
      else raise (AssertionError "image_path doesn't exist")
  end.

(** [list(map(func, dataset))] *)
Fixpoint map_M {A B} (func : A -> M B) (l : list A) : M (list B) :=
  match l with
  | [] => mret []
  | a :: l' => b ← func a; bs ← map_M func l'; mret (b :: bs)
  end.

(** [main] with [parallel=False]: the slides are processed one after the
    other, in the order of the dataset. *)
Definition main `{Collaborators} (slides_dataset : list sample)
    (root_output_dir : path) (level tile_size margin : Z)
    (foreground_threshold : option float) (occupancy_threshold : float)
    (overwrite : bool) (n_slides : option Z) : M unit :=
  let dataset := slice_to slides_dataset n_slides in
  check_slide_files dataset;;
  let output_dir := root_output_dir in
  logging (Info (Msg_creating_dataset level tile_size output_dir));;
  there ← with_fs (fun fs => path_exists fs output_dir);
  (if overwrite && there then on_fs (rmtree_fs output_dir) else mret tt);;
  mkdir true (negb overwrite) output_dir;;
  let thumbnail_dir := output_dir </> ["thumbnails"] in
  mkdir false true thumbnail_dir;;
  logging (Info (Msg_thumbnail_dir thumbnail_dir));;
  map_M (fun sample => process_one_slide sample level margin tile_size
                         foreground_threshold occupancy_threshold
                         output_dir thumbnail_dir) dataset;;
  logging (Info Msg_merging);;
  saving (Call_merge output_dir) (merge_dataset_csv_files output_dir)
         (output_dir </> ["dataset.csv"]).

(* ===================================================================== *)
(** * prepare_single_slide_dataset                                        *)
(* ===================================================================== *)

(** [len(pd.read_csv(p))]: the first line that is not blank is the
    header, every further one is a record; blank lines are skipped.  The
    records are not split into fields, the caller only counts them. *)
Definition csv_records (content : string) : result (list string) :=
  match filter (fun l => l <> "") (Py.split_go nl 0 "" content) with
  | [] => Raise EmptyDataError
  | header :: records => Ok records
  end.

Definition read_csv_len (p : path) : M nat :=
  content ← reading (read_fs p);
  records ← lift (csv_records content);
  mret (length records).

(** The [float64] of the literal [0.1]. *)
Definition float_0_1 : float := S754_finite false 7205759403792794 (-56).

(** The two [print] calls write to the terminal only and are left out. *)
Definition prepare_single_slide_dataset `{Collaborators}
    (slide_file save_dir : string) (level tile_size : Z) : M unit :=
  let slide_id := Py.basename slide_file in
  let slide_sample : sample :=
    {[ "image" := PStr slide_file; "slide_id" := PStr slide_id;
       "metadata" := PDict [] ]} in
  let save_dir := Path save_dir in
  slide_dir ← process_one_slide slide_sample level 0 tile_size None float_0_1
                (save_dir </> ["output"]) (save_dir </> ["thumbnails"]);
  let dataset_csv_path := slide_dir </> ["dataset.csv"] in
  dataset_len ← read_csv_len dataset_csv_path;
  (if (0 <? dataset_len)%nat then mret tt else raise (AssertionError ""));;
  let failed_csv_path := slide_dir </> ["failed_tiles.csv"] in
  failed_len ← read_csv_len failed_csv_path;
  (if (failed_len =? 0)%nat then mret tt else raise (AssertionError "")).

(* ===================================================================== *)
(** * A small world to run the pipeline in                                *)
(* ===================================================================== *)

(** Collaborators simple enough to compute with.  A slide is given by
    its tiles; a tile knows where it lies, whether the foreground filter
    keeps it, whether it is empty, and whether saving it breaks. *)
Module Demo.

Record demo_tile := {
  dt_location : Z * Z;
  dt_selected : bool;
  dt_empty : bool;
  dt_broken : bool;
}.

Definition descriptor (location : Z * Z) : string :=
  Py.format_0d 5 (Z.to_N location.1) +:+ "x_" +:+
  Py.format_0d 5 (Z.to_N location.2) +:+ "y".

Definition has_records (fs : filesystem) (p : path) : bool :=
  match files fs !! p with
  | Some content =>
      match csv_records content with
      | Ok (_ :: _) => true
      | _ => false
      end
  | None => false
  end.

Definition load (slide : list demo_tile) (scale : float) (origin : Z * Z)
    (s : sample) (fs : filesystem) : result (loaded_sample (list demo_tile)) :=
  file ← getitem_str s "image";
  if is_file fs (Path file)
  then Ok {| wsi_image := slide; wsi_foreground_threshold := float_of_int 200;
             wsi_scale := scale; wsi_origin := origin |}
  else Raise (FileNotFoundError (Path file)).

Definition collaborators (slide : list demo_tile) (scale : float)
    (origin : Z * Z) (savefig_ok : bool) : Collaborators := {|
  image := list demo_tile;
  tile := demo_tile;
  fg_mask := list demo_tile;
  tile_info := path * (Z * Z);
  is_already_processed fs p := has_records fs (p </> ["dataset.csv"]);
  load_wsi level margin threshold := load slide scale origin;
  save_thumbnail p fs :=
    if is_file fs p then Ok "thumbnail" else Raise (FileNotFoundError p);
  savefig_roi img :=
    if savefig_ok then Ok "roi" else Raise (Failure "savefig");
  tile_array_2d img tile_size fill := (img, map dt_location img);
  segment_foreground tiles threshold := (tiles, threshold);
  ROI_occupancy_filtering mask threshold :=
    (map dt_selected mask,
     map (fun t => float_of_int (if dt_selected t then 1 else 0)) mask);
  check_empty_tiles tiles := map dt_empty tiles;
  get_tile_info_dict loaded occupancy location rel_slide_dir :=
    Ok (rel_slide_dir </> [descriptor location +:+ ".png"], location);
  tile_info_image info := Ok info.1;
  save_image t := if dt_broken t then Raise (Failure "broken tile") else Ok "png";
  get_tile_descriptor := descriptor;
  get_tile_id slide_id location := slide_id +:+ "." +:+ descriptor location;
  format_csv_row info keys metadata_keys := name info.1;
  visualize_tile_locations loaded infos tile_size origin := Ok "overlay";
  merge_dataset_csv_files out fs := Ok "merged";
|}.

Definition tile_at (y x : Z) (selected empty broken : bool) : demo_tile :=
  {| dt_location := (y, x); dt_selected := selected; dt_empty := empty;
     dt_broken := broken |}.

(** Four tiles: one kept and saved, one kept and broken, one below the
    occupancy threshold, one empty. *)
Definition slide4 : list demo_tile :=
  [ tile_at 0 0 true false false; tile_at 0 256 true false true;
    tile_at 256 0 false false false; tile_at 256 256 true true false ].

Definition disk (slides : list string) : filesystem :=
  {| dirs := {[ ["data"] ]};
     files := list_to_map (map (fun s => (["data"; s], "svs")) slides) |}.

Definition world0 (slides : list string) : world :=
  {| fs := disk slides; log := []; calls := [] |}.

Definition slide_sample (file : string) : sample :=
  {[ "image" := PStr ("data/" +:+ file); "slide_id" := PStr file;
     "metadata" := PDict [] ]}.

(** A sample that also has the entry ["image_path"]. *)
Definition slide_sample2 (file image_path : string) : sample :=
  {[ "image" := PStr ("data/" +:+ file);
     "image_path" := PStr ("data/" +:+ image_path);
     "slide_id" := PStr file; "metadata" := PDict [] ]}.

(** The state of the save loop of [slide4] when it starts: two tiles
    are left, the second one breaks. *)
Definition loaded : loaded_sample (list demo_tile) :=
  {| wsi_image := slide4; wsi_foreground_threshold := float_of_int 200;
     wsi_scale := float_of_int 2; wsi_origin := (0, 0) |}.
Definition tiles2 : list demo_tile :=
  [ tile_at 0 0 true false false; tile_at 0 256 true false true ].
Definition locations2 : list (Z * Z) := [ (0, 0); (0, 512) ].
Definition occupancies2 : list float := [ float_of_int 1; float_of_int 1 ].
Definition logs0 : @csv_logs (collaborators slide4 (float_of_int 2) (0, 0) true) :=
  {| n_failed_tiles := 0; failed_tiles_file := "tile_id" +:+ nl;
     dataset_csv_file := "slide_id,tile_id,image,label,tile_y,tile_x,occupancy" +:+ nl;
     tile_info_list := [] |}.
Definition world_out : world :=
  {| fs := {| dirs := {[ ["out"]; ["out"; "a.svs"] ]}; files := ∅ |};
     log := []; calls := [] |}.

(** The local variables of [process_one_slide] for the slide [a.svs]
    once it is loaded. *)
Definition locals (slide : list demo_tile) (scale : float) (origin : Z * Z)
    (savefig_ok : bool) : @slide_locals (collaborators slide scale origin savefig_ok) :=
  let C := collaborators slide scale origin savefig_ok in
  @Build_slide_locals C "a.svs" ["a.svs"] ["out"; "a.svs"] []
    ["out"; "a.svs"; "dataset.csv"] ["out"; "a.svs"; "failed_tiles.csv"]
    (@Build_csv_logs C 0 ("tile_id" +:+ nl)
       ("slide_id,tile_id,image,label,tile_y,tile_x,occupancy" +:+ nl) [])
    ["data"; "a.svs"]
    {| wsi_image := slide; wsi_foreground_threshold := float_of_int 200;
       wsi_scale := scale; wsi_origin := origin |}.

(** A slide none of whose tiles is kept. *)
Definition slide_blank : list demo_tile :=
  [ tile_at 0 0 false false false; tile_at 0 256 true true false ].

(** The disk after the slide [a.svs] has been processed. *)
Definition world_done : world :=
  {| fs := {| dirs := {[ ["data"]; ["out"]; ["out"; "a.svs"]; ["out"; "thumbnails"] ]};
              files := {[ ["data"; "a.svs"] := "svs";
                          ["out"; "a.svs"; "dataset.csv"] :=
                            "slide_id,tile_id,image,label,tile_y,tile_x,occupancy"
                            +:+ nl +:+ "00000x_00000y.png" +:+ nl;
                          ["out"; "a.svs"; "failed_tiles.csv"] := "tile_id" +:+ nl;
                          ["out"; "a.svs"; "00000x_00000y.png"] := "png" ]} |};
     log := []; calls := [] |}.

(** Every path opens as the same picture. *)
Definition image_io : ImageIO := {|
  picture := unit;
  tensor := unit;
  image_open_rgb p := Ok tt;
  picture_to_tensor img := tt;
|}.

Definition encoding_dataset (paths : list string) : @TileEncodingDataset image_io :=
  {| transform := None; image_paths := paths |}.

End Demo.

(* ===================================================================== *)
(** * Notions the properties are stated with                              *)
(* ===================================================================== *)

(** [lacks c s]: the character [c] does not occur in [s]. *)
Fixpoint lacks (c : ascii) (s : string) : bool :=
  match s with
  | "" => true
  | String a s' => negb (Ascii.eqb a c) && lacks c s'
  end.

(** The value of a digit sequence read from the left. *)
Definition numeral_value (acc : Z) (ds : list N) : Z :=
  fold_left (fun a d => 10 * a + Z.of_N d) ds acc.

Definition all_digits (ds : list N) : Prop := Forall (fun d => (d < 10)%N) ds.

(** [np.nonzero(mask)]: the indices where [mask] is true, in increasing
    order; [i] is the index of the head of [mask]. *)
Fixpoint nonzero_from (i : nat) (mask : list bool) : list nat :=
  match mask with
  | [] => []
  | b :: mask' => if b then i :: nonzero_from (S i) mask' else nonzero_from (S i) mask'
  end.
Definition nonzero (mask : list bool) : list nat := nonzero_from 0 mask.

(** The entries of [a] at the indices [keep]. *)
Definition entries_at {A} (a : list A) (keep : list nat) : list (option A) :=
  (fun k => a !! k) <$> keep.

Section Outcomes.
Context `{Collaborators}.

(** The lines the save loop writes to dataset.csv for the outcomes of
    its turns: one row for each tile that was saved. *)
Fixpoint dataset_lines (metadata_keys : list string)
    (outcomes : list (result tile_info)) : string :=
  match outcomes with
  | [] => ""
  | Ok tile_info :: rest =>
      format_csv_row tile_info keys_to_save metadata_keys +:+ nl
      +:+ dataset_lines metadata_keys rest
  | Raise _ :: rest => dataset_lines metadata_keys rest
  end.

(** The lines it writes to failed_tiles.csv: one descriptor for each
    tile whose turn raised; [i] is the index of the first outcome. *)
Fixpoint failed_lines (tile_locations : list (Z * Z)) (i : nat)
    (outcomes : list (result tile_info)) : string :=
  match outcomes with
  | [] => ""
  | Ok _ :: rest => failed_lines tile_locations (S i) rest
  | Raise _ :: rest =>
      match tile_locations !! i with
      | Some location => get_tile_descriptor location +:+ nl
      | None => ""
      end +:+ failed_lines tile_locations (S i) rest
  end.

Definition saved (outcomes : list (result tile_info)) : list tile_info :=
  omap (fun o => match o with Ok info => Some info | Raise _ => None end) outcomes.

Definition n_raised (outcomes : list (result tile_info)) : nat :=
  length (List.filter (fun o => negb (is_ok o)) outcomes).
End Outcomes.

(** The calls that tile a slide or persist its tiles. *)
Definition tiles_or_persists (c : call) : bool :=
  match c with
  | Call_tile_array_2d | Call_save_image _ | Call_visualize _ => true
  | _ => false
  end.

(** [len(pd.read_csv(p))] as a function of the file system. *)
Definition csv_len (fs : filesystem) (p : path) : result nat :=
  content ← read_fs p fs;
  records ← csv_records content;
  Ok (length records).

(** [format(z, '0{w}d')] for any integer: a negative one has its sign
    first and is padded behind it. *)
Definition format_int (w : nat) (z : Z) : string :=
  if z <? 0 then String "-" (Py.format_0d (w - 1) (Z.to_N (- z)))
  else Py.format_0d w (Z.to_N z).

(** How often the character [c] occurs in [s]. *)
Fixpoint count_char (c : ascii) (s : string) : nat :=
  match s with
  | "" => 0
  | String a s' => (if Ascii.eqb a c then 1 else 0) + count_char c s'
  end.

(** The files outside [allowed] are the same in [fs'] as in [fs]: there
    or not, and with the same content. *)
Definition same_outside (allowed : path -> Prop) (fs fs' : filesystem) : Prop :=
  forall p, ~ allowed p -> files fs' !! p = files fs !! p.

(** What is a directory in [fs] is one in [fs'], what is a file in [fs]
    is one in [fs']. *)
Definition nothing_removed (fs fs' : filesystem) : Prop :=
  forall p, (is_dir fs p = true -> is_dir fs' p = true)
            /\ (is_file fs p = true -> is_file fs' p = true).

(** [s] names a relative path with no [..] in it: pathlib's
    [d / Path(s)] then lies under [d].  (For an absolute [s] pathlib
    gives [s] itself, which [</>] does not model.) *)
Definition stays_below (s : string) : bool :=
  negb (String.prefix "/" s)
  && forallb (fun c => negb (String.eqb c "..")) (Py.split_go "/" 0 "" s).

(** The slide id of a sample, when it has one, stays below. *)
Definition slide_id_stays_below (s : sample) : bool :=
  match getitem_str s "slide_id" with
  | Ok sid => stays_below sid
  | Raise _ => true
  end.

(** A call that saves a tile image. *)
Definition saves_tile (c : call) : bool :=
  match c with Call_save_image _ => true | _ => false end.

(** [process_one_slide], run from [w] on a slide it does not skip, gets
    to its save loop: [l] holds its local variables once the slide is
    loaded, [tiles] is what [generate_tiles] has returned, and [w_loop]
    is the world in which the loop starts. *)
Definition reaches_save_loop `{Collaborators} (sample : sample)
    (level margin tile_size : Z) (foreground_threshold : option float)
    (occupancy_threshold : float) (output_dir thumbnail_dir : path) (w : world)
    (l : slide_locals) (tiles : tiles_result) (w_loop : world) : Prop :=
  exists (sid : string) (dir : path) (w1 w2 w3 w4 : world),
    set_up_slide_dir sample output_dir thumbnail_dir w = (Ok (sid, dir), w1)
    /\ is_already_processed (fs w1) dir = false
    /\ prepare_slide sample level margin foreground_threshold sid dir w1 = (Ok l, w2)
    /\ save_thumbnails l thumbnail_dir w2 = (Ok tt, w3)
    /\ generate_tiles (wsi_image (loaded_WSI_sample l)) tile_size
         (wsi_foreground_threshold (loaded_WSI_sample l)) occupancy_threshold
         {| fs := fs w3; log := log w3 ++ [Info (Msg_tiling (slide_id l))];
            calls := calls w3 |} = (Ok tiles, w4)
    /\ w_loop
       = {| fs := fs w4;
            log := (log w4 ++ [Info (Msg_tiles_found (length (image_tiles tiles)))])
                   ++ [Info (Msg_saving_tiles (slide_id l))];
            calls := calls w4 |}.

(* ===================================================================== *)
(** * Properties                                                          *)
(* ===================================================================== *)

(** ** Binding a result that is there *)

Lemma result_bind_ok {A B} (a : A) (k : A -> result B) : (Ok a ≫= k) = k a.
Proof. reflexivity. Qed.

(** ** Strings *)

Section StringFacts.

Lemma str_app_cons (c : ascii) (s t : string) :
  String c s +:+ t = String c (s +:+ t).
Proof. reflexivity. Qed.

Lemma str_app_nil_r (s : string) : s +:+ "" = s.
Proof. induction s as [|c s IH]; [done|]. by rewrite str_app_cons, IH. Qed.

Lemma str_app_assoc (s t u : string) : (s +:+ t) +:+ u = s +:+ (t +:+ u).
Proof. induction s as [|c s IH]; [done|]. by rewrite !str_app_cons, IH. Qed.

Lemma snoc_app (cur : string) (c : ascii) (s : string) :
  Py.snoc cur c +:+ s = cur +:+ String c s.
Proof. unfold Py.snoc. by rewrite str_app_assoc. Qed.

Lemma lacks_single c a : lacks c (String a "") = negb (Ascii.eqb a c).
Proof. unfold lacks. apply andb_true_r. Qed.

Lemma lacks_app c s t : lacks c (s +:+ t) = lacks c s && lacks c t.
Proof.
  induction s as [|a s IH]; [done|].
  rewrite str_app_cons. simpl. rewrite IH. by rewrite andb_assoc.
Qed.

Lemma prefix_other c0 sep c s :
  Ascii.eqb c c0 = false -> String.prefix (String c0 sep) (String c s) = false.
Proof.
  intros Hc. simpl. destruct (ascii_dec c0 c) as [->|]; [|done].
  by rewrite Ascii.eqb_refl in Hc.
Qed.

(** Scanning over characters that cannot start the separator. *)
Lemma split_go_lacks c0 sep cur a rest :
  lacks c0 a = true ->
  Py.split_go (String c0 sep) 0 cur (a +:+ rest)
  = Py.split_go (String c0 sep) 0 (cur +:+ a) rest.
Proof.
  revert cur. induction a as [|c a IH]; intros cur Ha.
  - by rewrite str_app_nil_r.
  - simpl in Ha. apply andb_prop in Ha as [Hc Ha].
    apply negb_true_iff in Hc.
    rewrite str_app_cons.
    change (Py.split_go (String c0 sep) 0 cur (String c (a +:+ rest)))
      with (if String.prefix (String c0 sep) (String c (a +:+ rest))
            then cur :: Py.split_go (String c0 sep)
                          (String.length (String c0 sep) - 1) "" (a +:+ rest)
            else Py.split_go (String c0 sep) 0 (Py.snoc cur c) (a +:+ rest)).
    rewrite prefix_other by done.
    rewrite IH by done. by rewrite snoc_app.
Qed.

(** At an occurrence of the separator. *)
Lemma split_go_sep c0 cur rest :
  Py.split_go (String c0 "") 0 cur (String c0 rest)
  = cur :: Py.split_go (String c0 "") 0 "" rest.
Proof. simpl. destruct (ascii_dec c0 c0); [|done]. by destruct rest. Qed.

Lemma replace_go_lacks c0 new a rest :
  lacks c0 a = true ->
  Py.replace_go (String c0 "") new 0 (a +:+ rest)
  = a +:+ Py.replace_go (String c0 "") new 0 rest.
Proof.
  induction a as [|c a IH]; intros Ha; [done|].
  simpl in Ha. apply andb_prop in Ha as [Hc Ha].
  apply negb_true_iff in Hc.
  rewrite !str_app_cons.
  change (Py.replace_go (String c0 "") new 0 (String c (a +:+ rest)))
    with (if String.prefix (String c0 "") (String c (a +:+ rest))
          then new +:+ Py.replace_go (String c0 "") new
                         (String.length (String c0 "") - 1) (a +:+ rest)
          else String c (Py.replace_go (String c0 "") new 0 (a +:+ rest))).
  rewrite prefix_other by done. by rewrite IH.
Qed.

Lemma basename_go_lacks cur a :
  lacks "/" a = true -> Py.basename_go cur a = cur +:+ a.
Proof.
  revert cur. induction a as [|c a IH]; intros cur Ha.
  - by rewrite str_app_nil_r.
  - simpl in Ha. apply andb_prop in Ha as [Hc Ha].
    apply negb_true_iff in Hc. simpl. rewrite Hc, IH by done.
    by rewrite snoc_app.
Qed.

Lemma basename_go_join cur dir a :
  lacks "/" a = true -> Py.basename_go cur (dir +:+ String "/" a) = a.
Proof.
  intros Ha. revert cur. induction dir as [|c dir IH]; intros cur.
  - change ("" +:+ String "/" a) with (String "/" a). simpl.
    by rewrite basename_go_lacks.
  - rewrite str_app_cons. simpl. destruct (Ascii.eqb c "/"); apply IH.
Qed.

(** The base name of [dir/a] is [a] when [a] has no ['/']. *)
Lemma basename_join dir a :
  lacks "/" a = true -> Py.basename (dir +:+ "/" +:+ a) = a.
Proof. intros Ha. by apply basename_go_join. Qed.

End StringFacts.

(** ** Decimal numerals *)

Section Numerals.

Ltac each_digit d Hd :=
  let Hcases := fresh "Hcases" in
  assert (Hcases : (d = 0 \/ d = 1 \/ d = 2 \/ d = 3 \/ d = 4 \/ d = 5
                    \/ d = 6 \/ d = 7 \/ d = 8 \/ d = 9)%N) by lia;
  clear Hd;
  repeat (destruct Hcases as [->|Hcases]; [reflexivity|]);
  subst; reflexivity.

Lemma digit_val_char d : (d < 10)%N -> Py.digit_val (Py.digit_char d) = Some (Z.of_N d).
Proof. intros Hd. each_digit d Hd. Qed.

Lemma digit_not_space d : (d < 10)%N -> Py.is_space (Py.digit_char d) = false.
Proof. intros Hd. each_digit d Hd. Qed.

Lemma digit_val_eqb c c' v :
  Py.digit_val c = Some v -> Py.digit_val c' = None -> Ascii.eqb c c' = false.
Proof.
  intros Hc Hc'. destruct (Ascii.eqb c c') eqn:E; [|done].
  apply Ascii.eqb_eq in E as ->. congruence.
Qed.

(** A numeral has none of the characters that are not digits. *)
Lemma numeral_lacks c ds :
  all_digits ds -> Py.digit_val c = None -> lacks c (Py.numeral ds) = true.
Proof.
  intros Hds Hc. induction Hds as [|d ds Hd _ IH]; [done|].
  simpl. rewrite IH, andb_true_r. apply negb_true_iff.
  eapply digit_val_eqb; [by apply digit_val_char|done].
Qed.

Lemma lstrip_numeral ds : all_digits ds -> Py.lstrip (Py.numeral ds) = Py.numeral ds.
Proof.
  intros Hds. destruct Hds as [|d ds Hd _]; [done|].
  simpl. by rewrite digit_not_space.
Qed.

Lemma rstrip_numeral ds : all_digits ds -> Py.rstrip (Py.numeral ds) = Py.numeral ds.
Proof.
  intros Hds. induction Hds as [|d ds Hd _ IH]; [done|].
  simpl. rewrite IH. destruct (Py.numeral ds); [|done].
  by rewrite digit_not_space.
Qed.

Lemma strip_numeral ds : all_digits ds -> Py.strip (Py.numeral ds) = Py.numeral ds.
Proof.
  intros Hds. unfold Py.strip. by rewrite lstrip_numeral, rstrip_numeral.
Qed.

Lemma int_digits_numeral acc after ds :
  all_digits ds -> ds <> [] \/ after = true ->
  Py.int_digits acc after (Py.numeral ds) = Some (numeral_value acc ds).
Proof.
  intros Hds. revert acc after.
  induction Hds as [|d ds Hd _ IH]; intros acc after Hne.
  - destruct Hne as [ ? | -> ]; done.
  - simpl.
    rewrite (digit_val_eqb _ "_" _ (digit_val_char d Hd)) by done.
    rewrite digit_val_char by done. apply IH. by right.
Qed.

(** [int] on a string that starts with a digit and has no white space
    around it. *)
Lemma int_digit_start c s v :
  Py.digit_val c = Some v -> Py.strip (String c s) = String c s ->
  Py.int (String c s)
  = match Py.int_digits 0 false (String c s) with
    | Some z => Ok z
    | None => Raise (ValueError "invalid literal for int() with base 10")
    end.
Proof.
  intros Hc Hs. unfold Py.int. rewrite Hs.
  destruct c as [[] [] [] [] [] [] [] []]; try discriminate Hc; reflexivity.
Qed.

(** [int] reads a numeral back. *)
Lemma int_numeral ds :
  all_digits ds -> ds <> [] -> Py.int (Py.numeral ds) = Ok (numeral_value 0 ds).
Proof.
  intros Hds Hne.
  pose proof (strip_numeral ds Hds) as Hstrip.
  pose proof (int_digits_numeral 0 false ds Hds (or_introl Hne)) as Hint.
  destruct Hds as [|d ds Hd Hds]; [done|].
  change (Py.numeral (d :: ds)) with (String (Py.digit_char d) (Py.numeral ds)) in *.
  erewrite int_digit_start; [|by apply digit_val_char|done].
  by rewrite Hint.
Qed.

Lemma numeral_value_app acc ds ds' :
  numeral_value acc (ds ++ ds') = numeral_value (numeral_value acc ds) ds'.
Proof. unfold numeral_value. by rewrite fold_left_app. Qed.

Lemma numeral_value_zeros k ds : numeral_value 0 (repeat 0%N k ++ ds) = numeral_value 0 ds.
Proof.
  rewrite numeral_value_app. f_equal.
  induction k as [|k IH]; [done|]. simpl. apply IH.
Qed.

Lemma digits_go_spec fuel n :
  (n < 2 ^ N.of_nat fuel)%N -> (0 < fuel)%nat ->
  all_digits (Py.digits_go fuel n) /\ Py.digits_go fuel n <> []
  /\ numeral_value 0 (Py.digits_go fuel n) = Z.of_N n.
Proof.
  revert n. induction fuel as [|fuel IH]; intros n Hn Hfuel; [lia|].
  simpl. destruct (N.ltb_spec n 10) as [Hlt|Hge].
  - split; [by apply Forall_cons|]. split; [done|]. unfold numeral_value. simpl. lia.
  - assert (Hdiv : (n / 10 < 2 ^ N.of_nat fuel)%N).
    { replace (N.of_nat (S fuel)) with (N.succ (N.of_nat fuel)) in Hn by lia.
      rewrite N.pow_succ_r' in Hn.
      apply N.Div0.div_lt_upper_bound. lia. }
    assert (Hpos : (0 < fuel)%nat).
    { destruct fuel; [|lia]. simpl in Hn. lia. }
    destruct (IH _ Hdiv Hpos) as (Hall & Hne & Hval).
    split; [|split].
    + apply Forall_app. split; [done|].
      apply Forall_cons. split; [|done]. apply N.mod_lt. lia.
    + by destruct (Py.digits_go fuel (n / 10)).
    + rewrite numeral_value_app, Hval. unfold numeral_value. simpl.
      pose proof (N.div_mod n 10). lia.
Qed.

Lemma digits_spec n :
  all_digits (Py.digits n) /\ Py.digits n <> []
  /\ numeral_value 0 (Py.digits n) = Z.of_N n.
Proof.
  apply digits_go_spec; [|lia].
  destruct (N.eq_dec n 0%N) as [->|Hn]; [done|].
  replace (N.of_nat (S (N.to_nat (N.log2 n)))) with (N.succ (N.log2 n)) by lia.
  apply N.log2_spec. lia.
Qed.

(** What [format_0d] prints: digits, at least one, that denote [n]. *)
Lemma format_0d_numeral w n :
  exists ds, Py.format_0d w n = Py.numeral ds /\ all_digits ds /\ ds <> []
             /\ numeral_value 0 ds = Z.of_N n.
Proof.
  destruct (digits_spec n) as (Hall & Hne & Hval).
  exists (repeat 0%N (w - length (Py.digits n)) ++ Py.digits n)%list.
  split; [done|]. split; [|split].
  - apply Forall_app. split; [|done].
    apply Forall_forall. intros d Hd%list_elem_of_In%repeat_spec. lia.
  - intros [_ ?]%app_eq_nil. done.
  - by rewrite numeral_value_zeros.
Qed.

End Numerals.

(** ** Coordinates in tile file names *)

Section FileNames.

Lemma split_png a :
  lacks "." a = true -> Py.split (a +:+ ".png") ".png" = Ok [a; ""].
Proof.
  intros Ha. unfold Py.split.
  by rewrite (split_go_lacks "." "png" "" a ".png" Ha).
Qed.

Lemma split_underscore a b :
  lacks "_" a = true -> lacks "_" b = true ->
  Py.split (a +:+ String "_" b) "_" = Ok [a; b].
Proof.
  intros Ha Hb. unfold Py.split.
  rewrite split_go_lacks by done.
  rewrite split_go_sep.
  rewrite <- (str_app_nil_r b) at 1.
  by rewrite split_go_lacks.
Qed.

Lemma replace_suffix_char c a :
  lacks c a = true -> Py.replace (a +:+ String c "") (String c "") "" = a.
Proof.
  intros Ha. unfold Py.replace. rewrite replace_go_lacks by done.
  simpl. destruct (ascii_dec c c); [|done]. apply str_app_nil_r.
Qed.

(** The file name [<dx>x_<dy>y.png], for two numerals, gives back the
    numbers they denote. *)
Lemma parse_coords_numerals (dx dy : list N) (img_path : string) :
  all_digits dx -> dx <> [] -> all_digits dy -> dy <> [] ->
  Py.basename img_path = Py.numeral dx +:+ "x_" +:+ Py.numeral dy +:+ "y.png" ->
  parse_coords img_path = Ok (numeral_value 0 dx, numeral_value 0 dy).
Proof.
  intros Hdx Hnx Hdy Hny Hbase. unfold parse_coords. rewrite Hbase.
  set (a := Py.numeral dx +:+ "x") in *.
  set (b := Py.numeral dy +:+ "y") in *.
  assert (Hname : Py.numeral dx +:+ "x_" +:+ Py.numeral dy +:+ "y.png"
                  = (a +:+ String "_" b) +:+ ".png").
  { unfold a, b. rewrite !str_app_assoc, (str_app_cons "_"), str_app_assoc. reflexivity. }
  assert (Ha : forall c, Py.digit_val c = None -> Ascii.eqb "x" c = false ->
                         lacks c a = true).
  { intros c Hc Hx. unfold a.
    by rewrite lacks_app, numeral_lacks, lacks_single, Hx by done. }
  assert (Hb : forall c, Py.digit_val c = None -> Ascii.eqb "y" c = false ->
                         lacks c b = true).
  { intros c Hc Hy. unfold b.
    by rewrite lacks_app, numeral_lacks, lacks_single, Hy by done. }
  rewrite Hname, split_png; last first.
  { rewrite lacks_app. simpl. by rewrite Ha, Hb. }
  rewrite result_bind_ok.
  change (Py.index [a +:+ String "_" b; ""] 0) with (Ok (a +:+ String "_" b)).
  rewrite result_bind_ok.
  rewrite split_underscore by (first [by apply Ha | by apply Hb]).
  rewrite result_bind_ok. unfold a, b.
  rewrite !replace_suffix_char by (by apply numeral_lacks).
  by rewrite !int_numeral by done.
Qed.

(** The same for the names the pipeline writes: both coordinates
    printed in decimal, padded with zeros to any width. *)
Lemma parse_coords_roundtrip (wx wy : nat) (x y : N) (img_path : string) :
  Py.basename img_path
  = Py.format_0d wx x +:+ "x_" +:+ Py.format_0d wy y +:+ "y.png" ->
  parse_coords img_path = Ok (Z.of_N x, Z.of_N y).
Proof.
  destruct (format_0d_numeral wx x) as (dx & -> & Hdx & Hnx & <-).
  destruct (format_0d_numeral wy y) as (dy & -> & Hdy & Hny & <-).
  by apply parse_coords_numerals.
Qed.

(** Integers of at most 24 bits are [float32] values. *)
Lemma float32_of_int_small (n : Z) :
  0 <= n <= 2 ^ 24 -> float32_of_int n = n.
Proof.
  intros Hn. unfold float32_of_int.
  destruct (Z.eq_dec n (2 ^ 24)) as [->|Hne]; [done|].
  destruct (Z.eq_dec n 0) as [->|Hn0]; [done|].
  rewrite Z.abs_eq by lia.
  assert (Z.log2 n < 24) by (apply Z.log2_lt_pow2; lia).
  destruct (Z.leb_spec (Z.log2 n - 23) 0); [done|lia].
Qed.

Lemma in_int64_small (n : Z) : 0 <= n <= 2 ^ 24 -> in_int64 n = true.
Proof.
  intros Hn. unfold in_int64, int64_min, int64_max.
  apply andb_true_intro. split; apply Z.leb_le; lia.
Qed.

End FileNames.

(** ** TileEncodingDataset.__getitem__ *)

(** C8, within the range of [float32]: for all non-negative integers [x]
    and [y] up to [2^24], [__getitem__] on an image path whose base name
    is ["<x>x_<y>y.png"] (decimal, zero-padded to any width) returns a
    dictionary whose ['coords'] entry holds exactly [(x, y)], provided the
    image itself can be opened. *)
Theorem getitem_recovers_coords `{ImageIO} (self : TileEncodingDataset)
    (idx : Z) (img_path : string) (img : picture) (wx wy : nat) (x y : N) :
  Py.index (image_paths self) idx = Ok img_path ->
  Py.basename img_path
  = Py.format_0d wx x +:+ "x_" +:+ Py.format_0d wy y +:+ "y.png" ->
  load_picture self img_path = Ok img ->
  Z.of_N x <= 2 ^ 24 -> Z.of_N y <= 2 ^ 24 ->
  exists item, TileEncodingDataset_getitem self idx = Ok item
               /\ item_coords item = (Z.of_N x, Z.of_N y).
Proof.
  intros Hidx Hbase Himg Hx Hy.
  unfold TileEncodingDataset_getitem.
  rewrite Hidx, result_bind_ok.
  rewrite (parse_coords_roundtrip wx wy x y) by done.
  rewrite result_bind_ok.
  rewrite Himg, result_bind_ok.
  unfold from_numpy_ints, forallb.
  rewrite !in_int64_small by lia. cbn [andb].
  rewrite result_bind_ok.
  eexists. split; [reflexivity|]. cbn [item_coords].
  by rewrite !float32_of_int_small by lia.
Qed.

Lemma getitem_recovers_coords_witness :
  exists item,
    TileEncodingDataset_getitem (Demo.encoding_dataset ["images/256x_512y.png"]) 0
    = Ok item
    /\ item_coords item = (256, 512).
Proof.
  apply (@getitem_recovers_coords Demo.image_io
           (Demo.encoding_dataset ["images/256x_512y.png"]) 0
           "images/256x_512y.png" tt 0 0 256 512);
    solve [reflexivity | vm_compute; discriminate].
Defined.

(** C8 as it is worded, for every non-negative [x], fails: [2^24 + 1] is
    not a [float32], and the ['coords'] entry holds [2^24] for it. *)
Lemma getitem_coords_beyond_float32 :
  Py.basename "images/16777217x_0y.png"
  = Py.str 16777217 +:+ "x_" +:+ Py.str 0 +:+ "y.png"
  /\ exists item,
       TileEncodingDataset_getitem
         (Demo.encoding_dataset ["images/16777217x_0y.png"]) 0 = Ok item
       /\ item_coords item = (16777216, 0)
       /\ item_coords item <> (16777217, 0).
Proof.
  split; [reflexivity|].
  eexists. split; [reflexivity|]. split; [reflexivity|]. discriminate.
Qed.

(** ** Level-0 coordinates *)

Section Level0.

Lemma Qtruncate_Z (z : Z) : Qtruncate (inject_Z z) = z.
Proof.
  unfold Qtruncate. destruct (Qle_bool 0 (inject_Z z)).
  - apply Qfloor_Z.
  - apply Qceiling_Z.
Qed.

Lemma cond_Zopp_mul (s : bool) (a b : Z) : cond_Zopp s (a * b) = cond_Zopp s a * b.
Proof. destruct s; simpl; lia. Qed.

(** The cast of a finite [float64] that fits drops its fractional
    part. *)
Lemma astype_int_truncates (f : float) :
  is_finite f = true -> in_int64 (Qtruncate (SF2Q f)) = true ->
  astype_int f = Qtruncate (SF2Q f).
Proof.
  destruct f as [s|s| |s m e]; try discriminate; intros _ Hfit.
  - reflexivity.
  - unfold astype_int, SF2Q in *.
    destruct (Z.leb_spec 0 e) as [He|He].
    + rewrite Z.shiftl_mul_pow2, cond_Zopp_mul by done.
      rewrite Qtruncate_Z in *. by rewrite Hfit.
    + assert (Hd : 0 < 2 ^ (- e)) by (apply Z.pow_pos_nonneg; lia).
      assert (Hcast : cond_Zopp s (Z.shiftl (Z.pos m) e)
                      = Qtruncate (cond_Zopp s (Z.pos m) # Z.to_pos (2 ^ (- e)))).
      { rewrite Z.shiftl_div_pow2 by lia.
        destruct s; unfold Qtruncate, Qle_bool, Qceiling, Qfloor; simpl;
          by rewrite Z2Pos.id. }
      rewrite Hcast. by rewrite Hfit.
Qed.

End Level0.

(** C2, with the rounding the code does: for every tile the level-0
    coordinate pair that [process_one_slide] stores (line 218) is
    [scale * relative_location + origin], computed in [float64], with its
    fractional part dropped (rounded toward zero, not to the nearest
    integer), for any origin, any scale and any ROI-local location for
    which that value is finite and fits an [int64]. *)
Theorem level0_locations_truncate (scale : float) (origin : Z * Z)
    (rel_tile_locations : list (Z * Z)) (i : nat) (y x : Z) :
  rel_tile_locations !! i = Some (y, x) ->
  is_finite (level0_value scale origin.1 y) = true ->
  is_finite (level0_value scale origin.2 x) = true ->
  in_int64 (Qtruncate (SF2Q (level0_value scale origin.1 y))) = true ->
  in_int64 (Qtruncate (SF2Q (level0_value scale origin.2 x))) = true ->
  level0_locations scale origin rel_tile_locations !! i
  = Some (Qtruncate (SF2Q (level0_value scale origin.1 y)),
          Qtruncate (SF2Q (level0_value scale origin.2 x))).
Proof.
  intros Hi Hfy Hfx Hy Hx. unfold level0_locations.
  rewrite list_lookup_fmap, Hi. cbn [fmap option_fmap option_map fst snd].
  unfold level0_coordinate. by rewrite !astype_int_truncates.
Qed.

(** A scale of 1.75, the origin (10, 20) and the tile at (1, 3):
    1.75 * 1 + 10 = 11.75 and 1.75 * 3 + 20 = 25.25 are stored as 11
    and 25. *)
Lemma level0_locations_truncate_witness :
  level0_locations (float_lit 7 (-2)) (10, 20) [(0, 0); (1, 3)] !! 1%nat
  = Some (Qtruncate (SF2Q (level0_value (float_lit 7 (-2)) 10 1)),
          Qtruncate (SF2Q (level0_value (float_lit 7 (-2)) 20 3))).
Proof.
  apply (level0_locations_truncate (float_lit 7 (-2)) (10, 20)
           [(0, 0); (1, 3)] 1 1 3); reflexivity.
Defined.

(** C2 as it is worded fails: with a scale of 1.75 and the origin
    (0, 0), the tile at (1, 1) has the exact level-0 value 1.75, whose
    nearest integer is 2, and 1 is stored. *)
Lemma level0_locations_not_nearest :
  let scale := float_lit 7 (-2) in
  (SF2Q scale == 7 # 4)%Q
  /\ (SF2Q (level0_value scale 0 1) == 7 # 4)%Q
  /\ round_half_even (SF2Q (level0_value scale 0 1)) = 2
  /\ level0_locations scale (0, 0) [(1, 1)] = [(1, 1)]
  /\ level0_locations scale (0, 0) [(1, 1)]
     <> [(round_half_even (SF2Q (level0_value scale 0 1)),
          round_half_even (SF2Q (level0_value scale 0 1)))].
Proof.
  repeat split; try reflexivity. vm_compute. discriminate.
Qed.

(** ** Running code in the monad *)

Lemma M_bind_inv {A B} (m : M A) (k : A -> M B) (w w' : world) (b : B) :
  (m ≫= k) w = (Ok b, w') ->
  exists a w1, m w = (Ok a, w1) /\ k a w1 = (Ok b, w').
Proof.
  unfold mbind, M_bind. destruct (m w) as [[a|e] w1]; [|discriminate].
  intros Hk. by exists a, w1.
Qed.

Lemma M_bind_ok {A B} (m : M A) (k : A -> M B) (w w1 : world) (a : A) :
  m w = (Ok a, w1) -> (m ≫= k) w = k a w1.
Proof. unfold mbind, M_bind. by intros ->. Qed.

Lemma M_bind_raise {A B} (m : M A) (k : A -> M B) (w w1 : world) (e : exn) :
  m w = (Raise e, w1) -> (m ≫= k) w = (Raise e, w1).
Proof. unfold mbind, M_bind. by intros ->. Qed.

(** Unfolds the plumbing of the monad, and nothing else. *)
Ltac run :=
  cbv beta iota zeta
      delta [mbind M_bind mret M_ret called logging lift raise with_fs reading
             try_block];
  cbn [fs log calls].
Ltac run_in H :=
  cbv beta iota zeta
      delta [mbind M_bind mret M_ret called logging lift raise with_fs reading
             try_block] in H;
  cbn [fs log calls] in H.

(** ** Boolean masks *)

Section Masks.
Context {A : Type}.
Implicit Types (mask : list bool) (a : list A).

Lemma elem_of_nonzero_from i mask k :
  k ∈ nonzero_from i mask <-> (i <= k)%nat /\ mask !! (k - i)%nat = Some true.
Proof.
  revert i. induction mask as [|b mask IH]; intros i.
  - simpl. split; [by intros ?%elem_of_nil|by intros [_ ?]].
  - assert (Hstep : k ∈ nonzero_from (S i) mask
                    <-> (i < k)%nat /\ (b :: mask) !! (k - i)%nat = Some true).
    { rewrite IH. split; intros [Hle Hk]; (split; [lia|]).
      - by replace (k - i)%nat with (S (k - S i)) by lia.
      - by replace (k - i)%nat with (S (k - S i)) in Hk by lia. }
    simpl nonzero_from. destruct b.
    + rewrite elem_of_cons, Hstep. split.
      * intros [->|[Hlt Hk]]; [|split; [lia|done]].
        split; [lia|]. by rewrite Nat.sub_diag.
      * intros [Hle Hk]. destruct (decide (k = i)) as [->|Hne]; [by left|].
        right. split; [lia|done].
    + rewrite Hstep. split.
      * intros [Hlt Hk]. split; [lia|done].
      * intros [Hle Hk]. split; [|done].
        destruct (decide (k = i)) as [->|Hne]; [|lia].
        by rewrite Nat.sub_diag in Hk.
Qed.

(** Membership in [nonzero mask]. *)
Lemma elem_of_nonzero mask k : k ∈ nonzero mask <-> mask !! k = Some true.
Proof.
  unfold nonzero. rewrite elem_of_nonzero_from, Nat.sub_0_r.
  split; [by intros [_ ?]|]. intros ?. split; [lia|done].
Qed.

Lemma entries_at_nonzero_from i mask a :
  length mask = length a ->
  (fun k => a !! (k - i)%nat) <$> nonzero_from i mask = Some <$> mask_go mask a.
Proof.
  revert i a. induction mask as [|b mask IH]; intros i [|x a] Hlen;
    try discriminate; [done|].
  assert (Htail : (fun k => (x :: a) !! (k - i)%nat) <$> nonzero_from (S i) mask
                  = Some <$> mask_go mask a).
  { rewrite <- (IH (S i) a) by (simpl in Hlen; lia).
    apply Forall_fmap_ext_1, Forall_forall.
    intros k [Hle _]%elem_of_nonzero_from.
    by replace (k - i)%nat with (S (k - S i)) by lia. }
  simpl. destruct b; [|done].
  rewrite fmap_cons, Htail, Nat.sub_diag. done.
Qed.

(** [a[mask]] holds the entries of [a] at the indices where [mask] is
    true, in their order. *)
Lemma mask_go_entries mask a :
  length mask = length a ->
  entries_at a (nonzero mask) = Some <$> mask_go mask a.
Proof.
  intros Hlen. unfold entries_at, nonzero.
  rewrite <- (entries_at_nonzero_from 0) by done.
  apply list_fmap_ext. intros j k _. by rewrite Nat.sub_0_r.
Qed.

Lemma mask_go_length mask a :
  length mask = length a -> length (mask_go mask a) = np_sum mask.
Proof.
  revert a. induction mask as [|b mask IH]; intros [|x a] Hlen; try discriminate;
    [done|].
  unfold np_sum in *. simpl. destruct b; simpl; [f_equal|]; apply IH;
    simpl in Hlen; lia.
Qed.

Lemma bool_index_ok a mask r :
  bool_index a mask = Ok r -> length mask = length a /\ r = mask_go mask a.
Proof.
  unfold bool_index. destruct (Nat.eqb_spec (length mask) (length a)); [|done].
  by intros [= <-].
Qed.

Lemma bool_index_same_length a mask :
  length mask = length a -> bool_index a mask = Ok (mask_go mask a).
Proof. intros Hlen. unfold bool_index. by rewrite Hlen, Nat.eqb_refl. Qed.

End Masks.

Lemma np_and_same_length a b :
  length a = length b -> np_and a b = Ok (zip_with andb a b).
Proof. intros Hlen. unfold np_and. by rewrite Hlen, Nat.eqb_refl. Qed.

(** Where the combined mask [selected & ~empty] is true. *)
Lemma keep_mask_lookup (selected empty : list bool) (k : nat) :
  zip_with andb selected (np_not empty) !! k = Some true
  <-> selected !! k = Some true /\ empty !! k = Some false.
Proof.
  unfold np_not. rewrite lookup_zip_with, list_lookup_fmap.
  destruct (selected !! k) as [[]|], (empty !! k) as [[]|]; simpl;
    split; try done; by intros [? ?].
Qed.

(** ** generate_tiles *)

Lemma locations_extent_cons p l : exists e, locations_extent (p :: l) = Ok e.
Proof. eexists. reflexivity. Qed.

Section GenerateTiles.
Context `{Collaborators}.

Lemma generate_tiles_inv slide_image tile_size fthr othr w r w' :
  generate_tiles slide_image tile_size fthr othr w = (Ok r, w') ->
  exists tiles locs fg thr' sel occ mask,
    tile_array_2d slide_image tile_size 255 = (tiles, locs)
    /\ segment_foreground tiles fthr = (fg, thr')
    /\ ROI_occupancy_filtering fg othr = (sel, occ)
    /\ np_and sel (np_not (check_empty_tiles tiles)) = Ok mask
    /\ locs <> []
    /\ length mask = length tiles /\ length mask = length locs
    /\ length mask = length occ
    /\ r = {| image_tiles := mask_go mask tiles;
              tile_locations := mask_go mask locs;
              occupancies := mask_go mask occ;
              n_discarded := np_sum (np_not mask) |}
    /\ fs w' = fs w
    /\ calls w' = (calls w ++ [Call_tile_array_2d])%list
    /\ (mask_go mask locs = [] -> Warn Msg_no_tiles_selected ∈ log w').
Proof.
  unfold generate_tiles.
  destruct (tile_array_2d slide_image tile_size 255) as [tiles locs] eqn:Ht.
  destruct (segment_foreground tiles fthr) as [fg thr'] eqn:Hs.
  destruct (ROI_occupancy_filtering fg othr) as [sel occ] eqn:Hr.
  intros Hrun. run_in Hrun.
  destruct (np_and sel (np_not (check_empty_tiles tiles))) as [mask|e] eqn:Hand;
    [|discriminate Hrun].
  destruct locs as [|p locs].
  { discriminate Hrun. }
  destruct (locations_extent_cons p locs) as [[[[min_y max_y] min_x] max_x] Hext].
  rewrite Hext in Hrun.
  destruct (bool_index tiles mask) as [tiles'|e] eqn:Ht'; [|discriminate Hrun].
  destruct (bool_index (p :: locs) mask) as [locs'|e] eqn:Hl'; [|discriminate Hrun].
  destruct (bool_index occ mask) as [occ'|e] eqn:Ho'; [|discriminate Hrun].
  apply bool_index_ok in Ht' as [Hlt ->], Hl' as [Hll Hl'], Ho' as [Hlo ->].
  exists tiles, (p :: locs), fg, thr', sel, occ, mask.
  assert (Hw : r = {| image_tiles := mask_go mask tiles;
                      tile_locations := locs';
                      occupancies := mask_go mask occ;
                      n_discarded := np_sum (np_not mask) |}
               /\ fs w' = fs w
               /\ calls w' = (calls w ++ [Call_tile_array_2d])%list
               /\ (locs' = [] -> Warn Msg_no_tiles_selected ∈ log w')).
  { destruct locs' as [|q locs'].
    - run_in Hrun. injection Hrun as <- <-. cbn [fs log calls].
      repeat split; try done. intros _. set_solver.
    - destruct (locations_extent_cons q locs') as [[[[a b] c] d] Hext'].
      rewrite Hext' in Hrun. run_in Hrun. injection Hrun as <- <-.
      repeat split; done. }
  destruct Hw as (-> & Hfs & Hcalls & Hwarn). subst locs'.
  repeat split; done.
Qed.

(** With one location, one selection flag, one occupancy and one
    empty-tile flag per tile, and at least one tile, [generate_tiles]
    returns, and returns the entries the mask [selected & ~empty] keeps. *)
Lemma generate_tiles_run slide_image tile_size fthr othr w tiles locs fg thr' sel occ :
  tile_array_2d slide_image tile_size 255 = (tiles, locs) ->
  segment_foreground tiles fthr = (fg, thr') ->
  ROI_occupancy_filtering fg othr = (sel, occ) ->
  tiles <> [] ->
  length locs = length tiles -> length sel = length tiles ->
  length occ = length tiles -> length (check_empty_tiles tiles) = length tiles ->
  let mask := zip_with andb sel (np_not (check_empty_tiles tiles)) in
  exists w',
    generate_tiles slide_image tile_size fthr othr w
    = (Ok {| image_tiles := mask_go mask tiles;
             tile_locations := mask_go mask locs;
             occupancies := mask_go mask occ;
             n_discarded := np_sum (np_not mask) |}, w')
    /\ length mask = length tiles.
Proof.
  intros Ht Hs Hr Hne Hlocs Hsel Hocc Hemp mask.
  assert (Hmask : length mask = length tiles).
  { unfold mask, np_not. rewrite length_zip_with, length_fmap. lia. }
  unfold generate_tiles. rewrite Ht, Hs, Hr. run.
  rewrite np_and_same_length by (unfold np_not; rewrite length_fmap; lia).
  fold mask.
  destruct locs as [|p locs]; [by destruct tiles|].
  destruct (locations_extent_cons p locs) as [[[[min_y max_y] min_x] max_x] ->].
  rewrite !bool_index_same_length by lia.
  destruct (mask_go mask (p :: locs)) as [|q locs'] eqn:Hkept.
  - eexists. split; [reflexivity|done].
  - destruct (locations_extent_cons q locs') as [[[[a b] c] d] ->].
    eexists. split; [reflexivity|done].
Qed.

Lemma nonzero_from_sorted i mask : StronglySorted lt (nonzero_from i mask).
Proof.
  revert i. induction mask as [|b mask IH]; intros i; [constructor|].
  simpl. destruct b; [|apply IH].
  constructor; [apply IH|].
  apply Forall_forall. intros k [Hle _]%elem_of_nonzero_from. lia.
Qed.



(** Whenever [generate_tiles] returns, its three arrays have one
    length, whatever the collaborators compute. *)
Lemma generate_tiles_returns_same_length slide_image tile_size fthr othr w r w' :
  generate_tiles slide_image tile_size fthr othr w = (Ok r, w') ->
  length (image_tiles r) = length (tile_locations r)
  /\ length (tile_locations r) = length (occupancies r).
Proof.
  intros (tiles & locs & fg & thr' & sel & occ & mask & _ & _ & _ & _ & _
          & Ht & Hl & Ho & -> & _)%generate_tiles_inv.
  cbn [image_tiles tile_locations occupancies].
  by rewrite !mask_go_length.
Qed.

(** C5: when the collaborators give one location, one occupancy
    selection, one occupancy and one empty-tile flag per generated tile
    (and there is a tile), [generate_tiles] returns, and a generated tile
    is in the returned arrays if and only if its occupancy selection is
    true and its empty-tile flag is false: the arrays hold, in order,
    the entries at exactly those indices [keep]. *)
Theorem generate_tiles_keeps_selected_and_not_empty
    slide_image tile_size fthr othr w tiles locs fg thr' sel occ :
  tile_array_2d slide_image tile_size 255 = (tiles, locs) ->
  segment_foreground tiles fthr = (fg, thr') ->
  ROI_occupancy_filtering fg othr = (sel, occ) ->
  tiles <> [] ->
  length locs = length tiles -> length sel = length tiles ->
  length occ = length tiles -> length (check_empty_tiles tiles) = length tiles ->
  exists r w' keep,
    generate_tiles slide_image tile_size fthr othr w = (Ok r, w')
    /\ StronglySorted lt keep
    /\ (forall k, k ∈ keep <->
                  sel !! k = Some true /\ check_empty_tiles tiles !! k = Some false)
    /\ entries_at tiles keep = Some <$> image_tiles r
    /\ entries_at locs keep = Some <$> tile_locations r
    /\ entries_at occ keep = Some <$> occupancies r.
Proof.
  intros Ht Hs Hr Hne Hlocs Hsel Hocc Hemp.
  destruct (generate_tiles_run _ _ _ _ w _ _ _ _ _ _ Ht Hs Hr Hne Hlocs Hsel Hocc Hemp)
    as (w' & Hrun & Hmask).
  eexists _, w', (nonzero (zip_with andb sel (np_not (check_empty_tiles tiles)))).
  split; [exact Hrun|]. split; [apply nonzero_from_sorted|]. split.
  { intros k. by rewrite elem_of_nonzero, keep_mask_lookup. }
  cbn [image_tiles tile_locations occupancies].
  by rewrite !mask_go_entries by lia.
Qed.

(** C10: under the same conditions the three arrays [generate_tiles]
    returns have the same length, the number of tiles that the mask
    [selected & ~empty] keeps. *)
Theorem generate_tiles_same_length
    slide_image tile_size fthr othr w tiles locs fg thr' sel occ :
  tile_array_2d slide_image tile_size 255 = (tiles, locs) ->
  segment_foreground tiles fthr = (fg, thr') ->
  ROI_occupancy_filtering fg othr = (sel, occ) ->
  tiles <> [] ->
  length locs = length tiles -> length sel = length tiles ->
  length occ = length tiles -> length (check_empty_tiles tiles) = length tiles ->
  let n_kept := np_sum (zip_with andb sel (np_not (check_empty_tiles tiles))) in
  exists r w',
    generate_tiles slide_image tile_size fthr othr w = (Ok r, w')
    /\ length (image_tiles r) = n_kept
    /\ length (tile_locations r) = n_kept
    /\ length (occupancies r) = n_kept.
Proof.
  intros Ht Hs Hr Hne Hlocs Hsel Hocc Hemp n_kept.
  destruct (generate_tiles_run _ _ _ _ w _ _ _ _ _ _ Ht Hs Hr Hne Hlocs Hsel Hocc Hemp)
    as (w' & Hrun & Hmask).
  eexists _, w'. split; [exact Hrun|].
  cbn [image_tiles tile_locations occupancies].
  by rewrite !mask_go_length by lia.
Qed.

End GenerateTiles.

Lemma generate_tiles_keeps_selected_and_not_empty_witness :
  let C := Demo.collaborators Demo.slide4 (float_of_int 2) (0, 0) true in
  exists r w' keep,
    generate_tiles (H := C) Demo.slide4 256 (float_of_int 200) float_0_1
                   (Demo.world0 []) = (Ok r, w')
    /\ StronglySorted lt keep
    /\ (forall k, k ∈ keep <->
                  (Demo.dt_selected <$> Demo.slide4) !! k = Some true
                  /\ (Demo.dt_empty <$> Demo.slide4) !! k = Some false)
    /\ entries_at Demo.slide4 keep = Some <$> image_tiles r
    /\ entries_at (Demo.dt_location <$> Demo.slide4) keep = Some <$> tile_locations r
    /\ entries_at
         ((fun t => float_of_int (if Demo.dt_selected t then 1 else 0)) <$> Demo.slide4)
         keep = Some <$> occupancies r.
Proof.
  intros C.
  apply (generate_tiles_keeps_selected_and_not_empty (H := C)
           Demo.slide4 256 (float_of_int 200) float_0_1 (Demo.world0 [])
           Demo.slide4 (Demo.dt_location <$> Demo.slide4) Demo.slide4
           (float_of_int 200));
    solve [reflexivity | discriminate].
Defined.

Lemma generate_tiles_same_length_witness :
  let C := Demo.collaborators Demo.slide4 (float_of_int 2) (0, 0) true in
  let n_kept :=
    np_sum (zip_with andb (Demo.dt_selected <$> Demo.slide4)
                          (np_not (Demo.dt_empty <$> Demo.slide4))) in
  n_kept = 2%nat
  /\ exists r w',
       generate_tiles (H := C) Demo.slide4 256 (float_of_int 200) float_0_1
                      (Demo.world0 []) = (Ok r, w')
       /\ length (image_tiles r) = n_kept
       /\ length (tile_locations r) = n_kept
       /\ length (occupancies r) = n_kept.
Proof.
  intros C n_kept. split; [reflexivity|].
  apply (generate_tiles_same_length (H := C)
           Demo.slide4 256 (float_of_int 200) float_0_1 (Demo.world0 [])
           Demo.slide4 (Demo.dt_location <$> Demo.slide4) Demo.slide4
           (float_of_int 200)
           (Demo.dt_selected <$> Demo.slide4)
           ((fun t => float_of_int (if Demo.dt_selected t then 1 else 0))
              <$> Demo.slide4));
    solve [reflexivity | discriminate].
Defined.

(** ** The save loop *)

Section SaveLoopFacts.
Context `{Collaborators}.
Variables (loaded_WSI_sample : loaded_sample image)
          (occupancies : list float)
          (tile_locations : list (Z * Z))
          (image_tiles : list tile)
          (slide_id : string)
          (rel_slide_dir output_dir : path)
          (metadata_keys : list string).

Abbreviation try_tile := (save_tile_try loaded_WSI_sample occupancies tile_locations
                                     image_tiles rel_slide_dir output_dir).
Abbreviation turn := (save_tile loaded_WSI_sample occupancies tile_locations
                            image_tiles slide_id rel_slide_dir output_dir
                            metadata_keys).
Abbreviation loop := (save_tiles loaded_WSI_sample occupancies tile_locations
                             image_tiles slide_id rel_slide_dir output_dir
                             metadata_keys).

Lemma index_in_range {A} (l : list A) (i : nat) :
  (i < length l)%nat -> exists a, l !! i = Some a /\ Py.index l (Z.of_nat i) = Ok a.
Proof.
  intros Hi. destruct (lookup_lt_is_Some_2 l i Hi) as [a Ha].
  exists a. split; [done|]. unfold Py.index.
  destruct (Z.ltb_spec (Z.of_nat i) 0); [lia|].
  destruct (Z.leb_spec 0 (Z.of_nat i)); [|lia].
  destruct (Z.ltb_spec (Z.of_nat i) (Z.of_nat (length l))); [|lia].
  cbn [andb]. by rewrite Nat2Z.id, Ha.
Qed.

(** One turn of the loop never raises: it records the tile in exactly
    one of the two files, by what the [try] body did. *)
Lemma save_tile_turn (st : csv_logs) (i : nat) (w : world) :
  (i < length tile_locations)%nat ->
  exists o w1 st' w',
    try_tile i w = (o, w1)
    /\ turn st i w = (Ok st', w')
    /\ fs w' = fs w1
    /\ dataset_csv_file st' = dataset_csv_file st +:+ dataset_lines metadata_keys [o]
    /\ failed_tiles_file st' = failed_tiles_file st +:+ failed_lines tile_locations i [o]
    /\ n_failed_tiles st' = (n_failed_tiles st + n_raised [o])%nat
    /\ tile_info_list st' = (tile_info_list st ++ saved [o])%list.
Proof.
  intros Hi. destruct (index_in_range _ _ Hi) as (location & Hloc & Hidx).
  destruct (try_tile i w) as [o w1] eqn:Htry.
  unfold save_tile. run. rewrite Htry. run.
  destruct o as [info|e].
  - eexists _, _, _, _. split; [reflexivity|]. split; [reflexivity|].
    cbn [dataset_csv_file failed_tiles_file n_failed_tiles tile_info_list
         dataset_lines failed_lines n_raised saved omap list_omap is_ok negb
         List.filter length].
    rewrite Nat.add_0_r. by rewrite !str_app_nil_r.
  - rewrite Hidx. run.
    eexists _, _, _, _. split; [reflexivity|]. split; [reflexivity|].
    cbn [dataset_csv_file failed_tiles_file n_failed_tiles tile_info_list
         dataset_lines failed_lines n_raised saved omap list_omap is_ok negb
         List.filter length].
    rewrite Hloc, !str_app_nil_r, app_nil_r.
    repeat split; try done. lia.
Qed.

Lemma dataset_lines_cons o os :
  dataset_lines metadata_keys (o :: os)
  = dataset_lines metadata_keys [o] +:+ dataset_lines metadata_keys os.
Proof.
  destruct o; cbn [dataset_lines]; [|done].
  by rewrite str_app_nil_r, !str_app_assoc.
Qed.

Lemma failed_lines_cons i o os :
  failed_lines tile_locations i (o :: os)
  = failed_lines tile_locations i [o] +:+ failed_lines tile_locations (S i) os.
Proof.
  destruct o; cbn [failed_lines]; [done|].
  by rewrite str_app_nil_r.
Qed.

Lemma n_raised_cons (o : result tile_info) os :
  n_raised (o :: os) = (n_raised [o] + n_raised os)%nat.
Proof. unfold n_raised. simpl. by destruct (negb (is_ok o)). Qed.

Lemma saved_cons (o : result tile_info) os : saved (o :: os) = (saved [o] ++ saved os)%list.
Proof. unfold saved. simpl. by destruct o. Qed.

Lemma save_tiles_cons i range st w :
  loop (i :: range) st w
  = match turn st i w with
    | (Ok st1, w1) => loop range st1 w1
    | (Raise e, w1) => (Raise e, w1)
    end.
Proof. reflexivity. Qed.

(** The loop over the indices [i, i + n). *)
Lemma save_tiles_seq (n i : nat) (st : csv_logs) (w : world) :
  (i + n <= length tile_locations)%nat ->
  exists outcomes st' w',
    loop (seq i n) st w = (Ok st', w')
    /\ length outcomes = n
    /\ dataset_csv_file st' = dataset_csv_file st +:+ dataset_lines metadata_keys outcomes
    /\ failed_tiles_file st'
       = failed_tiles_file st +:+ failed_lines tile_locations i outcomes
    /\ n_failed_tiles st' = (n_failed_tiles st + n_raised outcomes)%nat
    /\ tile_info_list st' = (tile_info_list st ++ saved outcomes)%list
    /\ (forall k o, outcomes !! k = Some o ->
          exists st_k w_k w1,
            loop (seq i k) st w = (Ok st_k, w_k)
            /\ try_tile (i + k)%nat w_k = (o, w1)).
Proof.
  revert i st w. induction n as [|n IH]; intros i st w Hn.
  - exists [], st, w. cbn [seq dataset_lines failed_lines].
    rewrite !str_app_nil_r, app_nil_r. unfold n_raised. simpl.
    repeat split; try done; lia.
  - destruct (save_tile_turn st i w ltac:(lia))
      as (o & w1 & st1 & w1' & Htry & Hturn & _ & Hd & Hf & Hc & Hl).
    destruct (IH (S i) st1 w1' ltac:(lia))
      as (os & st' & w' & Hloop & Hlen & Hd' & Hf' & Hc' & Hl' & Hpre).
    exists (o :: os), st', w'.
    cbn [seq]. rewrite save_tiles_cons, Hturn.
    split; [done|]. split; [simpl; lia|].
    rewrite dataset_lines_cons, failed_lines_cons, n_raised_cons, saved_cons.
    rewrite Hd', Hf', Hc', Hl', Hd, Hf, Hc, Hl.
    rewrite !str_app_assoc, <- !(assoc_L (++)).
    repeat split; try done; [lia|].
    intros [|k] o' Hk.
    + injection Hk as <-. exists st, w, w1. split; [done|].
      by rewrite Nat.add_0_r.
    + destruct (Hpre k o' Hk) as (st_k & w_k & w_k1 & Hloop_k & Htry_k).
      exists st_k, w_k, w_k1. cbn [seq]. rewrite save_tiles_cons, Hturn.
      split; [done|]. by replace (i + S k)%nat with (S i + k)%nat by lia.
Qed.

(** C1: the save loop over [range(n_tiles)] never raises, and each tile
    has exactly one of two outcomes: when the [try] body of its turn
    raises (outcome [Raise]), the failure counter goes up by one and the
    tile's descriptor is appended to failed_tiles.csv; otherwise (outcome
    [Ok]) exactly one row for it is appended to dataset.csv.  So what the
    loop adds to dataset.csv is [dataset_lines] of the outcomes, what it
    adds to failed_tiles.csv is [failed_lines] of them, and no tile is in
    both.  The outcome of tile [k] is what the [try] body gives in the
    world the first [k] turns have left. *)
Theorem save_loop_one_outcome_per_tile (n_tiles : nat) (st : csv_logs) (w : world) :
  (n_tiles <= length tile_locations)%nat ->
  exists outcomes st' w',
    loop (seq 0 n_tiles) st w = (Ok st', w')
    /\ length outcomes = n_tiles
    /\ dataset_csv_file st' = dataset_csv_file st +:+ dataset_lines metadata_keys outcomes
    /\ failed_tiles_file st'
       = failed_tiles_file st +:+ failed_lines tile_locations 0 outcomes
    /\ n_failed_tiles st' = (n_failed_tiles st + n_raised outcomes)%nat
    /\ tile_info_list st' = (tile_info_list st ++ saved outcomes)%list
    /\ (forall k o, outcomes !! k = Some o ->
          exists st_k w_k w1,
            loop (seq 0 k) st w = (Ok st_k, w_k)
            /\ try_tile k w_k = (o, w1)).
Proof. intros Hn. by apply save_tiles_seq. Qed.

End SaveLoopFacts.

(** In [process_one_slide] the loop runs over as many indices as there
    are level-0 locations. *)
Lemma save_range_fits `{Collaborators} slide_image tile_size fthr othr w tiles w'
    scale origin :
  generate_tiles slide_image tile_size fthr othr w = (Ok tiles, w') ->
  length (image_tiles tiles)
  = length (level0_locations scale origin (tile_locations tiles)).
Proof.
  intros [Hl _]%generate_tiles_returns_same_length.
  unfold level0_locations. by rewrite length_fmap.
Qed.

Lemma save_loop_one_outcome_per_tile_witness :
  let C := Demo.collaborators Demo.slide4 (float_of_int 2) (0, 0) true in
  exists outcomes st' w',
    save_tiles (H := C) Demo.loaded Demo.occupancies2 Demo.locations2 Demo.tiles2
               "a.svs" ["a.svs"] ["out"] [] (seq 0 2) Demo.logs0 Demo.world_out
    = (Ok st', w')
    /\ length outcomes = 2%nat
    /\ dataset_csv_file st'
       = dataset_csv_file Demo.logs0 +:+ dataset_lines (H := C) [] outcomes
    /\ failed_tiles_file st'
       = failed_tiles_file Demo.logs0 +:+ failed_lines (H := C) Demo.locations2 0 outcomes
    /\ n_failed_tiles st' = (n_failed_tiles Demo.logs0 + n_raised outcomes)%nat
    /\ tile_info_list st' = (tile_info_list Demo.logs0 ++ saved outcomes)%list
    /\ (forall k o, outcomes !! k = Some o ->
          exists st_k w_k w1,
            save_tiles (H := C) Demo.loaded Demo.occupancies2 Demo.locations2
                       Demo.tiles2 "a.svs" ["a.svs"] ["out"] [] (seq 0 k)
                       Demo.logs0 Demo.world_out = (Ok st_k, w_k)
            /\ save_tile_try (H := C) Demo.loaded Demo.occupancies2 Demo.locations2
                             Demo.tiles2 ["a.svs"] ["out"] k w_k = (o, w1)).
Proof.
  intros C.
  apply (save_loop_one_outcome_per_tile (H := C) Demo.loaded Demo.occupancies2
           Demo.locations2 Demo.tiles2 "a.svs" ["a.svs"] ["out"] [] 2
           Demo.logs0 Demo.world_out).
  simpl. lia.
Defined.

(** ** The file system *)

Lemma os_mkdir_ok p fs fs' :
  os_mkdir p fs = Ok fs' ->
  files fs' = files fs /\ dirs fs' = {[ p ]} ∪ dirs fs.
Proof.
  unfold os_mkdir.
  destruct (path_exists fs p); [done|].
  destruct (is_dir fs (parent p)); [by intros [= <-]|].
  by destruct (is_file fs (parent p)).
Qed.

Lemma os_mkdir_existing p fs :
  is_dir fs p = true -> os_mkdir p fs = Raise (FileExistsError p).
Proof. intros Hp. unfold os_mkdir, path_exists. by rewrite Hp. Qed.

Lemma is_dir_mono fs fs' p :
  dirs fs ⊆ dirs fs' -> is_dir fs p = true -> is_dir fs' p = true.
Proof.
  unfold is_dir. intros Hsub [Hp|Hp]%orb_prop; apply orb_true_iff.
  - by left.
  - right. apply bool_decide_eq_true in Hp. apply bool_decide_eq_true. set_solver.
Qed.

(** [mkdir] makes directories and nothing else. *)
Lemma mkdir_go_ok fuel parents exist_ok p fs fs' :
  mkdir_go fuel parents exist_ok p fs = Ok fs' ->
  files fs' = files fs /\ dirs fs ⊆ dirs fs' /\ is_dir fs' p = true.
Proof.
  revert parents exist_ok p fs fs'.
  induction fuel as [|fuel IH]; intros parents exist_ok p fs fs'; simpl.
  - destruct (os_mkdir p fs) as [fs1|e] eqn:Hos.
    + intros [= <-]. apply os_mkdir_ok in Hos as [Hf Hd].
      split; [done|]. split; [rewrite Hd; apply union_subseteq_r|].
      unfold is_dir. apply orb_true_iff. right. apply bool_decide_eq_true.
      rewrite Hd. apply elem_of_union_l. by apply elem_of_singleton.
    + destruct e; try done;
        (destruct (exist_ok && is_dir fs p) eqn:Hex; [|done]);
        intros [= <-]; apply andb_prop in Hex as [_ Hdir]; done.
  - destruct (os_mkdir p fs) as [fs1|e] eqn:Hos.
    + intros [= <-]. apply os_mkdir_ok in Hos as [Hf Hd].
      split; [done|]. split; [rewrite Hd; apply union_subseteq_r|].
      unfold is_dir. apply orb_true_iff. right. apply bool_decide_eq_true.
      rewrite Hd. apply elem_of_union_l. by apply elem_of_singleton.
    + destruct e; try done;
        try (destruct (exist_ok && is_dir fs p) eqn:Hex; [|done];
             intros [= <-]; apply andb_prop in Hex as [_ Hdir]; done).
      destruct (parents && negb (bool_decide (p = []))); [|done].
      destruct (mkdir_go fuel true true (parent p) fs) as [fs1|e] eqn:Hup; [|done].
      rewrite result_bind_ok. intros Hhere.
      apply IH in Hup as (Hf1 & Hd1 & _). apply IH in Hhere as (Hf2 & Hd2 & Hp).
      split; [congruence|]. split; [by etrans|done].
Qed.

Lemma mkdir_fs_ok parents exist_ok p fs fs' :
  mkdir_fs parents exist_ok p fs = Ok fs' ->
  files fs' = files fs /\ dirs fs ⊆ dirs fs' /\ is_dir fs' p = true.
Proof. apply mkdir_go_ok. Qed.

(** [mkdir(exist_ok=True)] on a directory that is there changes
    nothing. *)
Lemma mkdir_fs_existing parents p fs :
  is_dir fs p = true -> mkdir_fs parents true p fs = Ok fs.
Proof.
  intros Hp. unfold mkdir_fs. simpl. rewrite os_mkdir_existing by done.
  by rewrite Hp.
Qed.

Lemma write_fs_ok p content fs fs' :
  write_fs p content fs = Ok fs' ->
  dirs fs' = dirs fs /\ files fs' = <[ p := content ]> (files fs)
  /\ is_dir fs p = false /\ is_dir fs (parent p) = true.
Proof.
  unfold write_fs. destruct (is_dir fs p); [done|].
  destruct (is_dir fs (parent p)); [by intros [= <-]|].
  by destruct (is_file fs (parent p)).
Qed.

Lemma on_fs_ok f w fs' :
  f (fs w) = Ok fs' ->
  on_fs f w = (Ok tt, {| fs := fs'; log := log w; calls := calls w |}).
Proof. unfold on_fs. by intros ->. Qed.

Lemma on_fs_inv f w u w' :
  on_fs f w = (Ok u, w') ->
  exists fs', f (fs w) = Ok fs' /\ w' = {| fs := fs'; log := log w; calls := calls w |}.
Proof.
  unfold on_fs. destruct (f (fs w)) as [fs'|e]; [|done].
  intros [= <- <-]. by exists fs'.
Qed.

(** STEP 0 makes directories and writes one log record. *)
Lemma set_up_slide_dir_ok sample output_dir thumbnail_dir w slide_id dir w1 :
  set_up_slide_dir sample output_dir thumbnail_dir w = (Ok (slide_id, dir), w1) ->
  getitem_str sample "slide_id" = Ok slide_id
  /\ dir = output_dir </> Path slide_id
  /\ files (fs w1) = files (fs w)
  /\ dirs (fs w) ⊆ dirs (fs w1)
  /\ is_dir (fs w1) output_dir = true
  /\ is_dir (fs w1) thumbnail_dir = true
  /\ calls w1 = calls w
  /\ log w1 = (log w ++ [Info (Msg_slide_dir dir)])%list.
Proof.
  unfold set_up_slide_dir, mkdir. intros Hrun.
  apply M_bind_inv in Hrun as (u1 & wa & (fs1 & Hm1 & ->)%on_fs_inv & Hrun).
  apply M_bind_inv in Hrun as (u2 & wb & (fs2 & Hm2 & ->)%on_fs_inv & Hrun).
  cbn [fs log calls] in *.
  run_in Hrun.
  destruct (getitem_str sample "slide_id") as [sid|e]; [|done].
  injection Hrun as <- <- <-. cbn [fs log calls].
  apply mkdir_fs_ok in Hm1 as (Hf1 & Hd1 & Hp1), Hm2 as (Hf2 & Hd2 & Hp2).
  repeat split; try done.
  - congruence.
  - set_solver.
  - by eapply is_dir_mono.
Qed.

Lemma set_up_slide_dir_again sample output_dir thumbnail_dir w slide_id :
  getitem_str sample "slide_id" = Ok slide_id ->
  is_dir (fs w) output_dir = true -> is_dir (fs w) thumbnail_dir = true ->
  set_up_slide_dir sample output_dir thumbnail_dir w
  = (Ok (slide_id, output_dir </> Path slide_id),
     {| fs := fs w;
        log := log w ++ [Info (Msg_slide_dir (output_dir </> Path slide_id))];
        calls := calls w |}).
Proof.
  intros Hsid Hout Hth. unfold set_up_slide_dir, mkdir.
  rewrite (M_bind_ok _ _ w w tt); last first.
  { rewrite (on_fs_ok _ _ (fs w)) by by apply mkdir_fs_existing. by destruct w. }
  rewrite (M_bind_ok _ _ w w tt); last first.
  { rewrite (on_fs_ok _ _ (fs w)) by by apply mkdir_fs_existing. by destruct w. }
  run. by rewrite Hsid.
Qed.

Section Skip.
Context `{Collaborators}.

(** C3: when the check of line 147 holds (it is made once STEP 0 has
    made the directories), [process_one_slide] returns the slide's
    directory at once: no collaborator is called (the slide is not loaded,
    nothing is tiled or saved) and no file is written or changed, so
    dataset.csv and failed_tiles.csv keep their contents.  Run again in
    the world it leaves, it does the same and leaves the file system as
    it is. *)
Theorem process_one_slide_skips (sample : sample) (level margin tile_size : Z)
    (foreground_threshold : option float) (occupancy_threshold : float)
    (output_dir thumbnail_dir : path) (w w1 : world) (slide_id : string)
    (output_tiles_dir : path) :
  set_up_slide_dir sample output_dir thumbnail_dir w
  = (Ok (slide_id, output_tiles_dir), w1) ->
  is_already_processed (fs w1) output_tiles_dir = true ->
  exists w' w'',
    process_one_slide sample level margin tile_size foreground_threshold
                      occupancy_threshold output_dir thumbnail_dir w
    = (Ok output_tiles_dir, w')
    /\ output_tiles_dir = output_dir </> Path slide_id
    /\ calls w' = calls w
    /\ files (fs w') = files (fs w)
    /\ log w' = (log w ++ [Info (Msg_slide_dir output_tiles_dir);
                           Info (Msg_skipping output_tiles_dir)])%list
    /\ process_one_slide sample level margin tile_size foreground_threshold
                         occupancy_threshold output_dir thumbnail_dir w'
       = (Ok output_tiles_dir, w'')
    /\ calls w'' = calls w
    /\ fs w'' = fs w'.
Proof.
  intros Hsetup Hdone.
  pose proof (set_up_slide_dir_ok _ _ _ _ _ _ _ Hsetup)
    as (Hsid & Hdir & Hfiles & _ & Hout & Hth & Hcalls & Hlog).
  set (w' := {| fs := fs w1;
                log := log w1 ++ [Info (Msg_skipping output_tiles_dir)];
                calls := calls w1 |}).
  assert (Hrun : process_one_slide sample level margin tile_size
                   foreground_threshold occupancy_threshold output_dir
                   thumbnail_dir w = (Ok output_tiles_dir, w')).
  { unfold process_one_slide. rewrite (M_bind_ok _ _ _ _ _ Hsetup).
    run. by rewrite Hdone. }
  eexists w', _. split; [exact Hrun|]. split; [done|].
  split; [done|]. split; [done|].
  split; [cbn [log w']; by rewrite Hlog, <- (assoc_L (++))|].
  unfold process_one_slide.
  rewrite (M_bind_ok _ _ _ _ _
             (set_up_slide_dir_again sample output_dir thumbnail_dir w' slide_id
                Hsid Hout Hth)).
  run. subst w'. cbn [fs log calls]. rewrite <- Hdir, Hdone.
  split; [reflexivity|]. cbn [calls fs]. done.
Qed.
End Skip.

Lemma process_one_slide_skips_witness :
  let C := Demo.collaborators Demo.slide4 (float_of_int 2) (0, 0) true in
  let w1 := (set_up_slide_dir (Demo.slide_sample "a.svs") ["out"]
               ["out"; "thumbnails"] Demo.world_done).2 in
  exists w' w'',
    process_one_slide (H := C) (Demo.slide_sample "a.svs") 0 0 256 None float_0_1
                      ["out"] ["out"; "thumbnails"] Demo.world_done
    = (Ok ["out"; "a.svs"], w')
    /\ ["out"; "a.svs"] = ["out"] </> Path "a.svs"
    /\ calls w' = calls Demo.world_done
    /\ files (fs w') = files (fs Demo.world_done)
    /\ log w' = (log Demo.world_done
                 ++ [Info (Msg_slide_dir ["out"; "a.svs"]);
                     Info (Msg_skipping ["out"; "a.svs"])])%list
    /\ process_one_slide (H := C) (Demo.slide_sample "a.svs") 0 0 256 None
                         float_0_1 ["out"] ["out"; "thumbnails"] w'
       = (Ok ["out"; "a.svs"], w'')
    /\ calls w'' = calls Demo.world_done
    /\ fs w'' = fs w'.
Proof.
  intros C w1.
  apply (process_one_slide_skips (H := C) (Demo.slide_sample "a.svs") 0 0 256
           None float_0_1 ["out"] ["out"; "thumbnails"] Demo.world_done w1
           "a.svs" ["out"; "a.svs"]);
    vm_compute; reflexivity.
Defined.

(** ** The steps of process_one_slide *)

Section Steps.
Context `{Collaborators}.





(** Whatever it does, [saving] adds its own call, no log record and no
    directory. *)
Lemma saving_frame c render out w r0 w' :
  saving c render out w = (r0, w') ->
  calls w' = (calls w ++ [c])%list /\ log w' = log w /\ dirs (fs w') = dirs (fs w).
Proof.
  unfold saving. run. destruct (render (fs w)) as [content|e].
  - unfold on_fs. cbn [fs log calls].
    destruct (write_fs out content (fs w)) as [fs'|e] eqn:Hw.
    + intros [= <- <-]. cbn [fs log calls].
      by apply write_fs_ok in Hw as (Hd & _).
    + by intros [= <- <-].
  - by intros [= <- <-].
Qed.

Lemma str_length_app (s t : string) :
  String.length (s +:+ t) = (String.length s + String.length t)%nat.
Proof. induction s as [|c s IH]; [done|]. rewrite str_app_cons. simpl. by rewrite IH. Qed.

(** The CSV files and the pictures of the thumbnail directory have
    different names. *)
Lemma dataset_csv_not_png (dir thumbnail_dir : path) (stem : string) :
  dir </> ["dataset.csv"] <> thumbnail_dir </> [stem +:+ "_roi_tiles.png"].
Proof.
  unfold path_join. intros [_ Heq]%app_inj_tail.
  apply (f_equal String.length) in Heq. rewrite str_length_app in Heq.
  simpl in Heq. lia.
Qed.

Lemma dataset_csv_not_failed_csv (dir : path) :
  dir </> ["dataset.csv"] <> dir </> ["failed_tiles.csv"].
Proof. unfold path_join. by intros [_ ?]%app_inj_tail. Qed.

(** What is known once the slide is prepared. *)
Lemma prepare_slide_ok sample level margin fthr sid dir w l w' :
  prepare_slide sample level margin fthr sid dir w = (Ok l, w') ->
  exists slide_metadata,
    getitem_dict sample "metadata" = Ok slide_metadata
    /\ metadata_keys l = map (fun kv => "slide_" +:+ kv.1) slide_metadata
    /\ slide_id l = sid /\ rel_slide_dir l = Path sid /\ output_tiles_dir l = dir
    /\ dataset_csv_path l = dir </> ["dataset.csv"]
    /\ failed_tiles_csv_path l = dir </> ["failed_tiles.csv"]
    /\ logs l = {| dataset_csv_file :=
                     join "," (keys_to_save ++ metadata_keys l) +:+ nl;
                   n_failed_tiles := 0;
                   failed_tiles_file := "tile_id" +:+ nl;
                   tile_info_list := [] |}
    /\ calls w' = (calls w ++ [Call_load sid])%list
    /\ dirs (fs w) ⊆ dirs (fs w')
    /\ is_dir (fs w') (dataset_csv_path l) = false
    /\ is_dir (fs w') (parent (dataset_csv_path l)) = true
    /\ is_dir (fs w') (failed_tiles_csv_path l) = false
    /\ is_dir (fs w') (parent (failed_tiles_csv_path l)) = true.
Proof.
  unfold prepare_slide, mkdir. intros Hrun.
  apply M_bind_inv in Hrun as (u1 & wa & (fs1 & Hm & ->)%on_fs_inv & Hrun).
  run_in Hrun.
  destruct (getitem_dict sample "metadata") as [md|e]; [|done].
  apply M_bind_inv in Hrun as (u2 & wb & (fs2 & Hw1 & ->)%on_fs_inv & Hrun).
  apply M_bind_inv in Hrun as (u3 & wc & (fs3 & Hw2 & ->)%on_fs_inv & Hrun).
  cbn [fs log calls] in *. run_in Hrun.
  destruct (Path <$> getitem_str sample "image") as [image_path|e]; [|done].
  run_in Hrun.
  destruct (load_wsi level margin fthr sample fs3) as [loaded|e]; [|done].
  injection Hrun as <- <-.
  cbn [metadata_keys slide_id rel_slide_dir output_tiles_dir dataset_csv_path
       failed_tiles_csv_path logs fs log calls].
  apply mkdir_fs_ok in Hm as (_ & Hd1 & _).
  apply write_fs_ok in Hw1 as (Hd2 & _ & Hp1 & Hpp1).
  apply write_fs_ok in Hw2 as (Hd3 & _ & Hp2 & Hpp2).
  exists md. repeat split; try done.
  - by rewrite Hd3, Hd2.
  - unfold is_dir in *. by rewrite Hd3, Hd2.
  - unfold is_dir in *. by rewrite Hd3, Hd2.
  - unfold is_dir in *. by rewrite Hd3.
  - unfold is_dir in *. by rewrite Hd3.
Qed.


Lemma save_thumbnails_frame l thumbnail_dir w r w' :
  save_thumbnails l thumbnail_dir w = (r, w') ->
  dirs (fs w') = dirs (fs w)
  /\ exists new, calls w' = (calls w ++ new)%list
                 /\ forallb (fun c => negb (tiles_or_persists c)) new = true.
Proof.
  unfold save_thumbnails. intros Hrun.
  match type of Hrun with (saving ?c ?f ?p ≫= _) _ = _ =>
    destruct (saving c f p w) as [[[]|e] wa] eqn:Ha end.
  - rewrite (M_bind_ok _ _ _ _ _ Ha) in Hrun.
    apply saving_frame in Ha as (Hca & _ & Hda).
    match type of Hrun with (saving ?c ?f ?p ≫= _) _ = _ =>
      destruct (saving c f p wa) as [[[]|e] wb] eqn:Hb end.
    + rewrite (M_bind_ok _ _ _ _ _ Hb) in Hrun.
      apply saving_frame in Hb as (Hcb & _ & Hdb).
      run_in Hrun. injection Hrun as <- <-. cbn [fs log calls].
      split; [congruence|]. eexists. rewrite Hcb, Hca, <- (assoc_L (++)).
      split; reflexivity.
    + rewrite (M_bind_raise _ _ _ _ _ Hb) in Hrun.
      apply saving_frame in Hb as (Hcb & _ & Hdb).
      injection Hrun as <- <-.
      split; [congruence|]. eexists. rewrite Hcb, Hca, <- (assoc_L (++)).
      split; reflexivity.
  - rewrite (M_bind_raise _ _ _ _ _ Ha) in Hrun.
    apply saving_frame in Ha as (Hca & _ & Hda).
    injection Hrun as <- <-. split; [done|]. eexists. split; [exact Hca|reflexivity].
Qed.


End Steps.

(** ** process_one_slide *)

Section Slide.
Context `{Collaborators}.

(** C4, as the code has it: an exception while the thumbnail of the
    slide or the one of the ROI is rendered or saved (lines 196-206) is
    not caught.  It leaves [process_one_slide], and the slide is neither
    tiled nor are tiles persisted: the only calls made are the loading of
    the slide and the thumbnail calls themselves. *)
Theorem thumbnail_failure_ends_slide (sample : sample) (level margin tile_size : Z)
    (foreground_threshold : option float) (occupancy_threshold : float)
    (output_dir thumbnail_dir : path) (w w1 w2 w3 : world) (slide_id : string)
    (output_tiles_dir : path) (l : slide_locals) (e : exn) :
  set_up_slide_dir sample output_dir thumbnail_dir w
  = (Ok (slide_id, output_tiles_dir), w1) ->
  is_already_processed (fs w1) output_tiles_dir = false ->
  prepare_slide sample level margin foreground_threshold slide_id output_tiles_dir w1
  = (Ok l, w2) ->
  save_thumbnails l thumbnail_dir w2 = (Raise e, w3) ->
  process_one_slide sample level margin tile_size foreground_threshold
                    occupancy_threshold output_dir thumbnail_dir w
  = (Raise e, w3)
  /\ exists new, calls w3 = (calls w ++ new)%list
                 /\ forallb (fun c => negb (tiles_or_persists c)) new = true.
Proof.
  intros Hsetup Hnot Hprep Hthumb. split.
  - unfold process_one_slide. rewrite (M_bind_ok _ _ _ _ _ Hsetup).
    run. rewrite Hnot, Hprep.
    unfold process_loaded_slide. by rewrite (M_bind_raise _ _ _ _ _ Hthumb).
  - apply set_up_slide_dir_ok in Hsetup as (_ & _ & _ & _ & _ & _ & Hc1 & _).
    apply prepare_slide_ok in Hprep
      as (md & _ & _ & _ & _ & _ & _ & _ & _ & Hc2 & _).
    apply save_thumbnails_frame in Hthumb as (_ & new & Hc3 & Hnew).
    exists (Call_load slide_id :: new). split.
    + rewrite Hc3, Hc2, Hc1, <- (assoc_L (++)). done.
    + simpl. exact Hnew.
Qed.

End Slide.

Lemma thumbnail_failure_ends_slide_witness :
  let C := Demo.collaborators Demo.slide4 (float_of_int 2) (0, 0) false in
  let w := Demo.world0 ["a.svs"] in
  let w1 := (set_up_slide_dir (Demo.slide_sample "a.svs") ["out"]
               ["out"; "thumbnails"] w).2 in
  let w2 := (prepare_slide (H := C) (Demo.slide_sample "a.svs") 0 0 None "a.svs"
               ["out"; "a.svs"] w1).2 in
  let l := Demo.locals Demo.slide4 (float_of_int 2) (0, 0) false in
  let w3 := (save_thumbnails (H := C) l ["out"; "thumbnails"] w2).2 in
  process_one_slide (H := C) (Demo.slide_sample "a.svs") 0 0 256 None float_0_1
                    ["out"] ["out"; "thumbnails"] w
  = (Raise (Failure "savefig"), w3)
  /\ exists new, calls w3 = (calls w ++ new)%list
                 /\ forallb (fun c => negb (tiles_or_persists c)) new = true.
Proof.
  intros C w w1 w2 l w3.
  apply (thumbnail_failure_ends_slide (H := C) (Demo.slide_sample "a.svs") 0 0 256
           None float_0_1 ["out"] ["out"; "thumbnails"] w w1 w2 w3 "a.svs"
           ["out"; "a.svs"] l (Failure "savefig"));
    vm_compute; reflexivity.
Defined.

(** C4 as it is worded fails: when rendering the ROI thumbnail raises,
    [process_one_slide] raises too, and the slide is not tiled: the
    loader and the two thumbnail calls are all that was called. *)
Lemma roi_thumbnail_failure_is_fatal :
  let C := Demo.collaborators Demo.slide4 (float_of_int 2) (0, 0) false in
  let run := process_one_slide (H := C) (Demo.slide_sample "a.svs") 0 0 256 None
               float_0_1 ["out"] ["out"; "thumbnails"] (Demo.world0 ["a.svs"]) in
  savefig_roi (Collaborators := C) Demo.slide4 = Raise (Failure "savefig")
  /\ run.1 = Raise (Failure "savefig")
  /\ calls run.2
     = [Call_load "a.svs";
        Call_save_thumbnail ["out"; "thumbnails"; "a.svs_original.png"];
        Call_savefig ["out"; "thumbnails"; "a.svs_roi.png"]].
Proof. vm_compute. repeat split; reflexivity. Qed.



(** ** prepare_single_slide_dataset *)

Lemma read_csv_len_pure (p : path) (w : world) :
  read_csv_len p w = (csv_len (fs w) p, w).
Proof.
  unfold read_csv_len, csv_len. run.
  destruct (read_fs p (fs w)) as [content|e]; [|done].
  rewrite result_bind_ok. by destruct (csv_records content).
Qed.

Section Single.
Context `{Collaborators}.

(** C9: once [process_one_slide] has returned the slide's directory,
    [prepare_single_slide_dataset] raises [AssertionError] when
    dataset.csv has no record, and when it has records but
    failed_tiles.csv has one too; it returns normally exactly when
    dataset.csv has at least one record and failed_tiles.csv none. *)
Theorem prepare_single_slide_dataset_asserts (slide_file save_dir : string)
    (level tile_size : Z) (w w1 : world) (slide_dir : path) :
  let slide_sample : sample :=
    {[ "image" := PStr slide_file; "slide_id" := PStr (Py.basename slide_file);
       "metadata" := PDict [] ]} in
  let dataset_csv := slide_dir </> ["dataset.csv"] in
  let failed_csv := slide_dir </> ["failed_tiles.csv"] in
  let run := prepare_single_slide_dataset slide_file save_dir level tile_size w in
  process_one_slide slide_sample level 0 tile_size None float_0_1
    (Path save_dir </> ["output"]) (Path save_dir </> ["thumbnails"]) w
  = (Ok slide_dir, w1) ->
  (csv_len (fs w1) dataset_csv = Ok 0%nat -> run = (Raise (AssertionError ""), w1))
  /\ (forall n m, csv_len (fs w1) dataset_csv = Ok (S n) ->
                  csv_len (fs w1) failed_csv = Ok (S m) ->
                  run = (Raise (AssertionError ""), w1))
  /\ (run = (Ok tt, w1) <->
      exists n, csv_len (fs w1) dataset_csv = Ok (S n)
                /\ csv_len (fs w1) failed_csv = Ok 0%nat).
Proof.
  intros slide_sample dataset_csv failed_csv run Hrun.
  assert (Hstep : run
    = match csv_len (fs w1) dataset_csv with
      | Ok O => (Raise (AssertionError ""), w1)
      | Ok (S _) =>
          match csv_len (fs w1) failed_csv with
          | Ok O => (Ok tt, w1)
          | Ok (S _) => (Raise (AssertionError ""), w1)
          | Raise e => (Raise e, w1)
          end
      | Raise e => (Raise e, w1)
      end).
  { unfold run, prepare_single_slide_dataset.
    fold slide_sample. rewrite (M_bind_ok _ _ _ _ _ Hrun).
    run. rewrite read_csv_len_pure. fold dataset_csv.
    destruct (csv_len (fs w1) dataset_csv) as [[|n]|e]; [done| |done].
    cbn [Nat.ltb Nat.leb]. rewrite read_csv_len_pure. fold failed_csv.
    by destruct (csv_len (fs w1) failed_csv) as [[|m]|e]. }
  rewrite Hstep. split; [by intros ->|]. split.
  - by intros n m -> ->.
  - split.
    + destruct (csv_len (fs w1) dataset_csv) as [[|n]|e]; try done.
      destruct (csv_len (fs w1) failed_csv) as [[|m]|e]; try done.
      intros _. by exists n.
    + by intros (n & -> & ->).
Qed.
End Single.


Lemma prepare_single_slide_dataset_asserts_witness :
  let C := Demo.collaborators Demo.slide4 (float_of_int 2) (0, 0) true in
  let w := Demo.world0 ["a.svs"] in
  let slide_sample : sample :=
    {[ "image" := PStr "data/a.svs"; "slide_id" := PStr (Py.basename "data/a.svs");
       "metadata" := PDict [] ]} in
  let w1 := (process_one_slide (H := C) slide_sample 0 0 256 None float_0_1
               (Path "work" </> ["output"]) (Path "work" </> ["thumbnails"]) w).2 in
  let dataset_csv := ["work"; "output"; "a.svs"] </> ["dataset.csv"] in
  let failed_csv := ["work"; "output"; "a.svs"] </> ["failed_tiles.csv"] in
  let run := prepare_single_slide_dataset (H := C) "data/a.svs" "work" 0 256 w in
  (csv_len (fs w1) dataset_csv = Ok 0%nat -> run = (Raise (AssertionError ""), w1))
  /\ (forall n m, csv_len (fs w1) dataset_csv = Ok (S n) ->
                  csv_len (fs w1) failed_csv = Ok (S m) ->
                  run = (Raise (AssertionError ""), w1))
  /\ (run = (Ok tt, w1) <->
      exists n, csv_len (fs w1) dataset_csv = Ok (S n)
                /\ csv_len (fs w1) failed_csv = Ok 0%nat).
Proof.
  intros C w slide_sample w1 dataset_csv failed_csv run.
  apply (prepare_single_slide_dataset_asserts (H := C) "data/a.svs" "work" 0 256
           w w1 ["work"; "output"; "a.svs"]).
  vm_compute. reflexivity.
Defined.

(** On the demo slide, which has one saved and one failed tile, the
    second assertion fails. *)
Example prepare_single_slide_dataset_failed_tile :
  let C := Demo.collaborators Demo.slide4 (float_of_int 2) (0, 0) true in
  (prepare_single_slide_dataset (H := C) "data/a.svs" "work" 0 256
     (Demo.world0 ["a.svs"])).1 = Raise (AssertionError "").
Proof. vm_compute. reflexivity. Qed.

(** ** main *)

Lemma check_slide_files_world (dataset : list sample) (w : world) :
  (check_slide_files dataset w).2 = w.
Proof.
  induction dataset as [|s dataset IH]; [done|].
  cbn [check_slide_files]. run.
  destruct (Path <$> getitem_str s "image_path") as [p|e]; [|done].
  by destruct (path_exists (fs w) p).
Qed.

(** The check of lines 302-304 passes exactly when every sample has an
    ["image_path"] entry that names something on the disk. *)
Lemma check_slide_files_ok (dataset : list sample) (w : world) :
  (check_slide_files dataset w).1 = Ok tt
  <-> Forall (fun s => exists p, getitem_str s "image_path" = Ok p
                                 /\ path_exists (fs w) (Path p) = true) dataset.
Proof.
  induction dataset as [|s dataset IH].
  - split; [by constructor|done].
  - cbn [check_slide_files]. run. rewrite Forall_cons.
    destruct (getitem_str s "image_path") as [p|e] eqn:Hp.
    + cbn [fmap result_fmap rbind].
      destruct (path_exists (fs w) (Path p)) eqn:Hex.
      * rewrite IH. split; [|by intros [_ ?]].
        intros Hall. split; [|done]. by exists p.
      * split; [done|]. intros [(q & [= <-] & Hq) _]. congruence.
    + cbn [fmap result_fmap rbind]. split; [done|]. by intros [(q & ? & _) _].
Qed.

(** When the check fails, [main] raises what the check raised and has
    done nothing else. *)
Lemma main_fails_fast `{Collaborators} slides_dataset root_output_dir level tile_size
    margin fthr othr overwrite n_slides w e :
  (check_slide_files (slice_to slides_dataset n_slides) w).1 = Raise e ->
  main slides_dataset root_output_dir level tile_size margin fthr othr overwrite
       n_slides w = (Raise e, w).
Proof.
  intros Hcheck. unfold main.
  erewrite M_bind_raise; [reflexivity|].
  pose proof (check_slide_files_world (slice_to slides_dataset n_slides) w) as Hw.
  destruct (check_slide_files (slice_to slides_dataset n_slides) w) as [r w'].
  cbn [fst snd] in *. by subst.
Qed.

(** C6, where the code goes wrong.  [main] checks the entry
    ["image_path"] of every sample, and [process_one_slide] loads the
    entry ["image"].  With two samples whose ["image_path"] is there
    while the ["image"] of the second is missing, the check passes, the
    first slide is processed in full, and only then the loader raises.
    A sample as [prepare_single_slide_dataset] builds it, with no
    ["image_path"] entry at all, makes [main] raise [KeyError] although
    its image is there. *)
Lemma main_checks_image_path_not_image :
  let C := Demo.collaborators Demo.slide4 (float_of_int 2) (0, 0) true in
  let dataset := [ Demo.slide_sample2 "a.svs" "a.svs";
                   Demo.slide_sample2 "b.svs" "a.svs" ] in
  let w := Demo.world0 ["a.svs"] in
  let run := main (H := C) dataset ["out"] 0 256 0 None float_0_1 false None w in
  path_exists (fs w) (Path "data/b.svs") = false
  /\ run.1 = Raise (FileNotFoundError ["data"; "b.svs"])
  /\ head (calls run.2) = Some (Call_load "a.svs")
  /\ last (calls run.2) = Some (Call_load "b.svs")
  /\ files (fs run.2) !! ["out"; "a.svs"; "dataset.csv"]
     = Some ("slide_id,tile_id,image,label,tile_y,tile_x,occupancy" +:+ nl
             +:+ "00000x_00000y.png" +:+ nl)
  /\ path_exists (fs w) (Path "data/a.svs") = true
  /\ (main (H := C) [Demo.slide_sample "a.svs"] ["out"] 0 256 0 None float_0_1
           false None w).1
     = Raise (KeyError "image_path").
Proof. vm_compute. repeat split; reflexivity. Qed.

(* ===================================================================== *)
(** * Further properties of the pipeline                                  *)
(* ===================================================================== *)

(** A run that has returned [a], with the world it has left. *)
Lemma run_returned {A} (m : M A) (w : world) (a : A) :
  (m w).1 = Ok a -> m w = (Ok a, (m w).2).
Proof. destruct (m w) as [r w']. cbn [fst snd]. by intros ->. Qed.

(** ** File names: signs, malformed names, indices *)

Section MoreFileNames.

(** The pieces around one ['_'], whatever the two stems are. *)
Lemma parse_coords_stems (a b : string) (x y : Z) (img_path : string) :
  lacks "." a = true -> lacks "_" a = true -> lacks "x" a = true ->
  lacks "." b = true -> lacks "_" b = true -> lacks "y" b = true ->
  Py.int a = Ok x -> Py.int b = Ok y ->
  Py.basename img_path = a +:+ "x_" +:+ b +:+ "y.png" ->
  parse_coords img_path = Ok (x, y).
Proof.
  intros Ha1 Ha2 Ha3 Hb1 Hb2 Hb3 Hx Hy Hbase. unfold parse_coords. rewrite Hbase.
  assert (Hname : a +:+ "x_" +:+ b +:+ "y.png"
                  = ((a +:+ "x") +:+ String "_" (b +:+ "y")) +:+ ".png").
  { rewrite !str_app_assoc, (str_app_cons "_"), str_app_assoc. reflexivity. }
  rewrite Hname, split_png; last first.
  { rewrite !lacks_app. simpl. by rewrite !lacks_app, Ha1, Hb1. }
  rewrite result_bind_ok.
  change (Py.index [(a +:+ "x") +:+ String "_" (b +:+ "y"); ""] 0)
    with (Ok ((a +:+ "x") +:+ String "_" (b +:+ "y"))).
  rewrite result_bind_ok.
  rewrite split_underscore by (by rewrite lacks_app, ?Ha2, ?Hb2).
  rewrite result_bind_ok.
  rewrite !replace_suffix_char by done.
  by rewrite Hx, Hy.
Qed.

Lemma int_negative_numeral ds :
  all_digits ds -> ds <> [] ->
  Py.int (String "-" (Py.numeral ds)) = Ok (- numeral_value 0 ds).
Proof.
  intros Hds Hne. unfold Py.int, Py.strip.
  assert (Hl : Py.lstrip (String "-" (Py.numeral ds)) = String "-" (Py.numeral ds))
    by reflexivity.
  rewrite Hl.
  assert (Hr : Py.rstrip (String "-" (Py.numeral ds)) = String "-" (Py.numeral ds)).
  { change (Py.rstrip (String "-" (Py.numeral ds)))
      with (match Py.rstrip (Py.numeral ds) with
            | "" => if Py.is_space "-" then "" else String "-" ""
            | r => String "-" r
            end).
    rewrite rstrip_numeral by done.
    destruct Hds as [|d ds Hd Hds]; [done|]. reflexivity. }
  rewrite Hr.
  change (match String "-" (Py.numeral ds) with
          | String "-" r => option_map Z.opp (Py.int_digits 0 false r)
          | String "+" r => Py.int_digits 0 false r
          | r => Py.int_digits 0 false r
          end)
    with (option_map Z.opp (Py.int_digits 0 false (Py.numeral ds))).
  rewrite int_digits_numeral by (done || by left). reflexivity.
Qed.

(** What [format_int] prints: a numeral, with a sign when [z] is
    negative, that [int] reads back as [z] and that has none of the
    characters the file name is built with. *)
Lemma format_int_spec w z :
  Py.int (format_int w z) = Ok z
  /\ forall c, Py.digit_val c = None -> Ascii.eqb "-" c = false ->
               lacks c (format_int w z) = true.
Proof.
  unfold format_int. destruct (Z.ltb_spec z 0) as [Hneg|Hpos].
  - destruct (format_0d_numeral (w - 1) (Z.to_N (- z))) as (ds & -> & Hds & Hne & Hv).
    split.
    + rewrite int_negative_numeral, Hv by done. f_equal. lia.
    + intros c Hc Hm. cbn [lacks]. by rewrite Hm, numeral_lacks.
  - destruct (format_0d_numeral w (Z.to_N z)) as (ds & -> & Hds & Hne & Hv).
    split.
    + rewrite int_numeral, Hv by done. f_equal. lia.
    + intros c Hc _. by apply numeral_lacks.
Qed.

(** The coordinates come back from the file name for all integers,
    under any directory and with any zero padding. *)
Lemma parse_coords_roundtrip_int (dir : string) (wx wy : nat) (x y : Z) :
  parse_coords (dir +:+ "/" +:+ format_int wx x +:+ "x_" +:+ format_int wy y +:+ "y.png")
  = Ok (x, y).
Proof.
  destruct (format_int_spec wx x) as [Hx Hlx], (format_int_spec wy y) as [Hy Hly].
  apply (parse_coords_stems (format_int wx x) (format_int wy y)); try done;
    try (by apply Hlx); try (by apply Hly).
  apply basename_join.
  rewrite !lacks_app, Hlx, Hly by done. reflexivity.
Qed.

Lemma float32_of_int_abs_small (n : Z) :
  Z.abs n <= 2 ^ 24 -> float32_of_int n = n.
Proof.
  intros Hn. unfold float32_of_int.
  destruct (Z.eq_dec (Z.abs n) (2 ^ 24)) as [Heq|Hne].
  { destruct (Z.abs_spec n) as [[_ Ha]|[_ Ha]]; rewrite Ha in Heq.
    - by subst n.
    - assert (n = - 2 ^ 24) as -> by lia. done. }
  destruct (Z.eq_dec n 0) as [->|Hn0]; [done|].
  assert (Z.log2 (Z.abs n) < 24) by (apply Z.log2_lt_pow2; lia).
  destruct (Z.leb_spec (Z.log2 (Z.abs n) - 23) 0); [done|lia].
Qed.

Lemma in_int64_abs_small (n : Z) : Z.abs n <= 2 ^ 24 -> in_int64 n = true.
Proof.
  intros Hn. unfold in_int64, int64_min, int64_max.
  apply andb_true_intro. split; apply Z.leb_le; lia.
Qed.

Lemma prefix_char c a s :
  String.prefix (String c "") (String a s) = Ascii.eqb a c.
Proof.
  simpl. destruct (ascii_dec c a) as [->|Hne].
  - rewrite Ascii.eqb_refl. by destruct s.
  - symmetry. apply Ascii.eqb_neq. congruence.
Qed.

(** Splitting at a character gives one piece more than there are
    occurrences of it. *)
Lemma split_go_char_length c cur s :
  length (Py.split_go (String c "") 0 cur s) = S (count_char c s).
Proof.
  revert cur. induction s as [|a s IH]; intros cur; [done|].
  cbn [Py.split_go count_char]. rewrite prefix_char.
  destruct (Ascii.eqb a c); cbn [String.length Nat.sub length Nat.add]; by rewrite IH.
Qed.

Lemma index_convention {A} (l : list A) (i : Z) :
  let n := Z.of_nat (length l) in
  Py.index l i
  = if (- n <=? i) && (i <? n) then Py.index l (i mod n) else Raise IndexError.
Proof.
  intros n. destruct (Z.leb_spec (- n) i), (Z.ltb_spec i n); cbn [andb].
  - assert (Hm : i mod n = if i <? 0 then i + n else i).
    { destruct (Z.ltb_spec i 0).
      - symmetry. apply Z.mod_unique with (-1); lia.
      - apply Z.mod_small. lia. }
    rewrite Hm. unfold Py.index. fold n.
    destruct (Z.ltb_spec i 0).
    + destruct (Z.ltb_spec (i + n) 0); [lia|done].
    + destruct (Z.ltb_spec i 0); [lia|done].
  - unfold Py.index. fold n.
    destruct (Z.ltb_spec i 0) as [Hi|Hi].
    + destruct (Z.ltb_spec (i + n) n); [lia|]. by rewrite andb_false_r.
    + destruct (Z.ltb_spec i n); [lia|]. by rewrite andb_false_r.
  - unfold Py.index. fold n.
    destruct (Z.ltb_spec i 0); [|lia].
    destruct (Z.leb_spec 0 (i + n)); [lia|done].
  - lia.
Qed.

End MoreFileNames.

(** X1: the coordinates come back for negative integers too.  For all
    integers [x] and [y] of absolute value up to [2^24], [__getitem__]
    on the path [dir/<x>x_<y>y.png] (decimal, with a sign where needed,
    zero-padded to any width, under any directory) returns the
    ['coords'] entry [(x, y)], provided the image can be opened. *)
Theorem getitem_recovers_signed_coords `{ImageIO} (self : TileEncodingDataset)
    (idx : Z) (dir : string) (wx wy : nat) (x y : Z) (img : picture) :
  let img_path :=
    dir +:+ "/" +:+ format_int wx x +:+ "x_" +:+ format_int wy y +:+ "y.png" in
  Py.index (image_paths self) idx = Ok img_path ->
  load_picture self img_path = Ok img ->
  Z.abs x <= 2 ^ 24 -> Z.abs y <= 2 ^ 24 ->
  exists item, TileEncodingDataset_getitem self idx = Ok item
               /\ item_coords item = (x, y).
Proof.
  intros img_path Hidx Himg Hx Hy. subst img_path.
  unfold TileEncodingDataset_getitem.
  rewrite Hidx, result_bind_ok.
  rewrite parse_coords_roundtrip_int, result_bind_ok.
  rewrite Himg, result_bind_ok.
  unfold from_numpy_ints, forallb.
  rewrite !in_int64_abs_small by lia. cbn [andb].
  rewrite result_bind_ok.
  eexists. split; [reflexivity|]. cbn [item_coords].
  by rewrite !float32_of_int_abs_small by lia.
Qed.

Lemma getitem_recovers_signed_coords_witness :
  exists item,
    TileEncodingDataset_getitem (Demo.encoding_dataset ["tiles/-00256x_512y.png"]) 0
    = Ok item
    /\ item_coords item = (-256, 512).
Proof.
  apply (@getitem_recovers_signed_coords Demo.image_io
           (Demo.encoding_dataset ["tiles/-00256x_512y.png"]) 0 "tiles" 6 0
           (-256) 512 tt);
    solve [reflexivity | vm_compute; discriminate].
Defined.

(** X2: a file name [stem.png] whose stem has not exactly one ['_']
    makes [__getitem__] raise [ValueError], from the unpacking of line
    416; the image file is not opened. *)
Theorem getitem_rejects_malformed_name `{ImageIO} (self : TileEncodingDataset)
    (idx : Z) (img_path stem : string) :
  Py.index (image_paths self) idx = Ok img_path ->
  Py.basename img_path = stem +:+ ".png" ->
  lacks "." stem = true ->
  count_char "_" stem <> 1%nat ->
  exists msg, parse_coords img_path = Raise (ValueError msg)
              /\ TileEncodingDataset_getitem self idx = Raise (ValueError msg).
Proof.
  intros Hidx Hbase Hdot Hcount.
  assert (Hparse : exists msg, parse_coords img_path = Raise (ValueError msg)).
  { unfold parse_coords. rewrite Hbase, split_png by done.
    rewrite result_bind_ok.
    change (Py.index [stem; ""] 0) with (Ok stem). rewrite result_bind_ok.
    unfold Py.split. rewrite result_bind_ok.
    pose proof (split_go_char_length "_" "" stem) as Hlen.
    destruct (Py.split_go "_" 0 "" stem) as [|a [|b [|c l]]]; simpl in Hlen;
      try (eexists; reflexivity).
    lia. }
  destruct Hparse as [msg Hparse]. exists msg. split; [done|].
  unfold TileEncodingDataset_getitem. by rewrite Hidx, result_bind_ok, Hparse.
Qed.

Lemma getitem_rejects_malformed_name_witness :
  exists msg,
    parse_coords "tiles/256_512_3.png" = Raise (ValueError msg)
    /\ TileEncodingDataset_getitem (Demo.encoding_dataset ["tiles/256_512_3.png"]) 0
       = Raise (ValueError msg).
Proof.
  apply (@getitem_rejects_malformed_name Demo.image_io
           (Demo.encoding_dataset ["tiles/256_512_3.png"]) 0
           "tiles/256_512_3.png" "256_512_3");
    solve [reflexivity | vm_compute; discriminate].
Defined.

(** X3: [__getitem__] takes the indices a Python list takes.  With [n]
    paths, an index in [-n, n) is accepted and a negative one counts
    from the end; any other index, and so any index on an empty
    dataset, raises [IndexError]. *)
Theorem getitem_index_convention `{ImageIO} (self : TileEncodingDataset) (idx : Z) :
  let n := Z.of_nat (TileEncodingDataset_len self) in
  TileEncodingDataset_getitem self idx
  = if (- n <=? idx) && (idx <? n)
    then TileEncodingDataset_getitem self (idx mod n)
    else Raise IndexError.
Proof.
  intros n. subst n. unfold TileEncodingDataset_getitem, TileEncodingDataset_len.
  rewrite index_convention. cbv zeta.
  by destruct (_ && _).
Qed.

(** ** generate_tiles: what it counts and when it gives in *)

Section MoreGenerateTiles.
Context `{Collaborators}.

Lemma np_sum_not (mask : list bool) :
  (np_sum mask + np_sum (np_not mask))%nat = length mask.
Proof.
  unfold np_sum, np_not. induction mask as [|b mask IH]; [done|].
  destruct b; simpl; lia.
Qed.

(** X4: an image that [tile_array_2d] cuts into no tile at all makes
    [generate_tiles] raise [ValueError]: the location array of line 97
    is empty and has no minimum.  It does not return an empty result,
    and it leaves the file system alone. *)
Theorem generate_tiles_raises_without_locations slide_image tile_size fthr othr w
    tiles :
  tile_array_2d slide_image tile_size 255 = (tiles, []) ->
  exists msg w',
    generate_tiles slide_image tile_size fthr othr w = (Raise (ValueError msg), w')
    /\ fs w' = fs w.
Proof.
  intros Ht. unfold generate_tiles. rewrite Ht.
  destruct (segment_foreground tiles fthr) as [fg thr'].
  destruct (ROI_occupancy_filtering fg othr) as [sel occ].
  run.
  assert (Hand : (exists mask, np_and sel (np_not (check_empty_tiles tiles)) = Ok mask)
                 \/ exists msg, np_and sel (np_not (check_empty_tiles tiles))
                                = Raise (ValueError msg)).
  { unfold np_and. destruct (_ =? _)%nat; [by left; eexists|].
    destruct sel as [|x [|y sel]]; destruct (np_not _) as [|a [|b l]];
      (by left; eexists) || (by right; eexists). }
  destruct Hand as [[mask ->]|[msg ->]]; by eexists _, _.
Qed.

(** X5: what [generate_tiles] returns adds up: the tiles it returns and
    the tiles it counts as discarded are together all the tiles
    [tile_array_2d] has cut. *)
Theorem generate_tiles_counts_add_up slide_image tile_size fthr othr w r :
  (generate_tiles slide_image tile_size fthr othr w).1 = Ok r ->
  (length (image_tiles r) + n_discarded r)%nat
  = length (tile_array_2d slide_image tile_size 255).1.
Proof.
  intros Hrun%run_returned.
  apply generate_tiles_inv in Hrun
    as (tiles & locs & fg & thr' & sel & occ & mask & -> & _ & _ & _ & _
        & Ht & _ & _ & -> & _).
  cbn [image_tiles n_discarded fst].
  rewrite mask_go_length by done. by rewrite np_sum_not.
Qed.

Lemma generate_tiles_warning slide_image tile_size fthr othr w r w' :
  generate_tiles slide_image tile_size fthr othr w = (Ok r, w') ->
  exists new,
    log w' = (log w ++ new)%list
    /\ (Warn Msg_no_tiles_selected ∈ new <-> image_tiles r = []).
Proof.
  unfold generate_tiles.
  destruct (tile_array_2d slide_image tile_size 255) as [tiles locs] eqn:Ht.
  destruct (segment_foreground tiles fthr) as [fg thr'] eqn:Hs.
  destruct (ROI_occupancy_filtering fg othr) as [sel occ] eqn:Hr.
  intros Hrun. run_in Hrun.
  destruct (np_and sel (np_not (check_empty_tiles tiles))) as [mask|e] eqn:Hand;
    [|discriminate Hrun].
  destruct locs as [|p locs]; [discriminate Hrun|].
  destruct (locations_extent_cons p locs) as [[[[min_y max_y] min_x] max_x] Hext].
  rewrite Hext in Hrun.
  destruct (bool_index tiles mask) as [tiles'|e] eqn:Ht'; [|discriminate Hrun].
  destruct (bool_index (p :: locs) mask) as [locs'|e] eqn:Hl'; [|discriminate Hrun].
  destruct (bool_index occ mask) as [occ'|e] eqn:Ho'; [|discriminate Hrun].
  apply bool_index_ok in Ht' as [Hlt ->], Hl' as [Hll ->].
  assert (Hsame : mask_go mask tiles = [] <-> mask_go mask (p :: locs) = []).
  { rewrite <- !length_zero_iff_nil, !mask_go_length by done. done. }
  destruct (mask_go mask (p :: locs)) as [|q locs'].
  - run_in Hrun. injection Hrun as <- <-. cbn [log image_tiles].
    eexists. split; [by rewrite <- !(assoc_L (++))|]. simpl.
    split; [intros _; by apply Hsame|]. intros _.
    rewrite !elem_of_cons. tauto.
  - destruct (locations_extent_cons q locs') as [[[[a b] c] d] Hext'].
    rewrite Hext' in Hrun. run_in Hrun. injection Hrun as <- <-.
    cbn [log image_tiles].
    eexists. split; [by rewrite <- !(assoc_L (++))|]. simpl. split.
    + intros Hm. rewrite !elem_of_cons, elem_of_nil in Hm.
      intuition congruence.
    + intros Hz. by apply Hsame in Hz.
Qed.

(** X6: when [generate_tiles] returns, the warning "No tiles selected"
    is among the records it has logged if and only if it returns no
    tile. *)
Theorem generate_tiles_warns_iff_empty slide_image tile_size fthr othr w r :
  let run := generate_tiles slide_image tile_size fthr othr w in
  run.1 = Ok r ->
  exists new,
    log run.2 = (log w ++ new)%list
    /\ (Warn Msg_no_tiles_selected ∈ new <-> image_tiles r = []).
Proof.
  intros run Hrun%run_returned. by eapply generate_tiles_warning.
Qed.

End MoreGenerateTiles.

Lemma generate_tiles_raises_without_locations_witness :
  let C := Demo.collaborators [] (float_of_int 2) (0, 0) true in
  let w := Demo.world0 ["a.svs"] in
  exists msg w',
    generate_tiles (H := C) [] 256 (float_of_int 200) float_0_1 w
    = (Raise (ValueError msg), w')
    /\ fs w' = fs w.
Proof.
  intros C w.
  apply (generate_tiles_raises_without_locations (H := C) [] 256 (float_of_int 200)
           float_0_1 w []).
  reflexivity.
Defined.

Lemma generate_tiles_counts_add_up_witness :
  let C := Demo.collaborators Demo.slide4 (float_of_int 2) (0, 0) true in
  let r : tiles_result (H := C) :=
    {| image_tiles := Demo.tiles2; tile_locations := [ (0, 0); (0, 256) ];
       occupancies := Demo.occupancies2; n_discarded := 2 |} in
  (length (image_tiles r) + n_discarded r)%nat
  = length (tile_array_2d (Collaborators := C) Demo.slide4 256 255).1.
Proof.
  intros C r.
  apply (generate_tiles_counts_add_up (H := C) Demo.slide4 256 (float_of_int 200)
           float_0_1 (Demo.world0 ["a.svs"]) r).
  reflexivity.
Defined.

Lemma generate_tiles_warns_iff_empty_witness :
  let C := Demo.collaborators Demo.slide_blank (float_of_int 2) (0, 0) true in
  let w := Demo.world0 ["a.svs"] in
  let r : tiles_result (H := C) :=
    {| image_tiles := []; tile_locations := []; occupancies := [];
       n_discarded := 2 |} in
  let run := generate_tiles (H := C) Demo.slide_blank 256 (float_of_int 200)
               float_0_1 w in
  exists new,
    log run.2 = (log w ++ new)%list
    /\ (Warn Msg_no_tiles_selected ∈ new <-> image_tiles r = []).
Proof.
  intros C w r.
  apply (generate_tiles_warns_iff_empty (H := C) Demo.slide_blank 256
           (float_of_int 200) float_0_1 w r).
  reflexivity.
Defined.

(** ** What the pipeline leaves alone *)

(** A relation [R] between the world before and after, which logging,
    calling a collaborator and making a directory keep, and which writing
    a file at an [allowed] path keeps, is kept by every step of the
    pipeline that writes at [allowed] paths only, whether the step
    returns or raises. *)
Section Kept.
Context `{Collaborators}.
Variable R : world -> world -> Prop.
Variable allowed : path -> Prop.
Hypothesis R_refl : forall w, R w w.
Hypothesis R_trans : forall w1 w2 w3, R w1 w2 -> R w2 w3 -> R w1 w3.
Hypothesis R_logging : forall r w, R w (logging r w).2.
Hypothesis R_called : forall c w, R w (called c w).2.
Hypothesis R_mkdir : forall parents exist_ok p w, R w (mkdir parents exist_ok p w).2.
Hypothesis R_write : forall p content w,
  allowed p -> R w (on_fs (write_fs p content) w).2.

Lemma kept_bind {A B} (m : M A) (k : A -> M B) (w : world) :
  R w (m w).2 ->
  (forall a w1, m w = (Ok a, w1) -> R w1 (k a w1).2) ->
  R w ((m ≫= k) w).2.
Proof.
  intros Hm Hk. unfold mbind, M_bind.
  destruct (m w) as [[a|e] w1]; [|done].
  eapply R_trans; [exact Hm|]. by apply Hk.
Qed.

(** A step that only reads. *)
Lemma kept_same {A} (m : M A) (w : world) : (m w).2 = w -> R w (m w).2.
Proof. intros ->. apply R_refl. Qed.

Lemma kept_saving c render out w :
  allowed out -> R w (saving c render out w).2.
Proof.
  intros Hout. unfold saving.
  apply kept_bind; [apply R_called|]. intros _ w1 _.
  apply kept_bind; [by apply kept_same|]. intros content w2 _.
  by apply R_write.
Qed.

Lemma kept_generate_tiles slide_image tile_size fthr othr w :
  R w (generate_tiles slide_image tile_size fthr othr w).2.
Proof.
  unfold generate_tiles.
  apply kept_bind; [apply R_called|]. intros _ w1 _.
  destruct (tile_array_2d slide_image tile_size 255) as [tiles locs].
  apply kept_bind; [apply R_logging|]. intros _ w2 _.
  apply kept_bind; [apply R_logging|]. intros _ w3 _.
  destruct (segment_foreground tiles fthr) as [fg thr'].
  destruct (ROI_occupancy_filtering fg othr) as [sel occ].
  apply kept_bind; [apply R_logging|]. intros _ w4 _.
  apply kept_bind; [by apply kept_same|]. intros mask w5 _.
  apply kept_bind; [apply R_logging|]. intros _ w6 _.
  apply kept_bind; [by apply kept_same|]. intros [[[min_y max_y] min_x] max_x] w7 _.
  apply kept_bind; [apply R_logging|]. intros _ w8 _.
  apply kept_bind; [by apply kept_same|]. intros tiles' w9 _.
  apply kept_bind; [by apply kept_same|]. intros locs' w10 _.
  apply kept_bind; [by apply kept_same|]. intros occ' w11 _.
  apply kept_bind; [|intros _ w12 _; by apply kept_same].
  destruct locs' as [|q locs']; [apply R_logging|].
  apply kept_bind; [by apply kept_same|]. intros [[[a b] c] d] w12 _.
  apply R_logging.
Qed.

Section KeptSlide.
Variables (output_dir thumbnail_dir : path).
Hypothesis allowed_output : forall q, allowed (output_dir </> q).
Hypothesis allowed_thumbnail : forall q, allowed (thumbnail_dir </> q).

Lemma kept_save_tile_try loaded occupancies locations tiles rel_dir i w :
  R w (save_tile_try loaded occupancies locations tiles rel_dir output_dir i w).2.
Proof.
  unfold save_tile_try.
  apply kept_bind; [by apply kept_same|]. intros occupancy w1 _.
  apply kept_bind; [by apply kept_same|]. intros location w2 _.
  apply kept_bind; [by apply kept_same|]. intros info w3 _.
  apply kept_bind; [by apply kept_same|]. intros this_tile w4 _.
  apply kept_bind; [by apply kept_same|]. intros image w5 _.
  apply kept_bind; [by apply kept_saving|]. intros _ w6 _.
  by apply kept_same.
Qed.

Lemma kept_try_block {A} (body : M A) w : R w (body w).2 -> R w (try_block body w).2.
Proof. unfold try_block. by destruct (body w). Qed.

Lemma kept_save_tile loaded occupancies locations tiles sid rel_dir keys st i w :
  R w (save_tile loaded occupancies locations tiles sid rel_dir output_dir keys
                 st i w).2.
Proof.
  unfold save_tile.
  apply kept_bind; [apply kept_try_block, kept_save_tile_try|].
  intros [info|e] w1 _; [by apply kept_same|].
  apply kept_bind; [by apply kept_same|]. intros location w2 _.
  apply kept_bind; [apply R_logging|]. intros _ w3 _.
  by apply kept_same.
Qed.

Lemma kept_save_tiles loaded occupancies locations tiles sid rel_dir keys range st w :
  R w (save_tiles loaded occupancies locations tiles sid rel_dir output_dir keys
                  range st w).2.
Proof.
  revert st w. induction range as [|i range IH]; intros st w; [apply R_refl|].
  cbn [save_tiles]. apply kept_bind; [apply kept_save_tile|].
  intros st1 w1 _. apply IH.
Qed.

Lemma kept_set_up_slide_dir sample w :
  R w (set_up_slide_dir sample output_dir thumbnail_dir w).2.
Proof.
  unfold set_up_slide_dir.
  apply kept_bind; [apply R_mkdir|]. intros _ w1 _.
  apply kept_bind; [apply R_mkdir|]. intros _ w2 _.
  apply kept_bind; [by apply kept_same|]. intros sid w3 _.
  apply kept_bind; [apply R_logging|]. intros _ w4 _.
  by apply kept_same.
Qed.

Lemma kept_prepare_slide sample level margin fthr sid rel w :
  R w (prepare_slide sample level margin fthr sid (output_dir </> rel) w).2.
Proof.
  unfold prepare_slide.
  apply kept_bind; [apply R_mkdir|]. intros _ w1 _.
  apply kept_bind; [by apply kept_same|]. intros md w2 _.
  apply kept_bind.
  { apply R_write. unfold path_join. rewrite <- (assoc_L (++)).
    apply allowed_output. }
  intros _ w3 _.
  apply kept_bind.
  { apply R_write. unfold path_join. rewrite <- (assoc_L (++)).
    apply allowed_output. }
  intros _ w4 _.
  apply kept_bind; [by apply kept_same|]. intros image_path w5 _.
  apply kept_bind; [apply R_logging|]. intros _ w6 _.
  apply kept_bind; [apply R_called|]. intros _ w7 _.
  apply kept_bind; [by apply kept_same|]. intros loaded w8 _.
  by apply kept_same.
Qed.

Lemma kept_save_thumbnails l w : R w (save_thumbnails l thumbnail_dir w).2.
Proof.
  unfold save_thumbnails.
  apply kept_bind; [by apply kept_saving|]. intros _ w1 _.
  apply kept_bind; [by apply kept_saving|]. intros _ w2 _.
  apply R_logging.
Qed.

Lemma kept_finish_slide l st tile_size w :
  allowed (dataset_csv_path l) -> allowed (failed_tiles_csv_path l) ->
  R w (finish_slide l st tile_size thumbnail_dir w).2.
Proof.
  intros Hd Hf. unfold finish_slide.
  apply kept_bind; [by apply R_write|]. intros _ w1 _.
  apply kept_bind; [by apply R_write|]. intros _ w2 _.
  apply kept_bind; [by apply kept_saving|]. intros _ w3 _.
  apply kept_bind.
  { destruct (0 <? _)%nat; [apply R_logging|by apply kept_same]. }
  intros _ w4 _.
  apply kept_bind; [apply R_logging|]. intros _ w5 _.
  by apply kept_same.
Qed.

Lemma kept_process_loaded_slide l tile_size othr w :
  allowed (dataset_csv_path l) -> allowed (failed_tiles_csv_path l) ->
  R w (process_loaded_slide l tile_size othr output_dir thumbnail_dir w).2.
Proof.
  intros Hd Hf. unfold process_loaded_slide.
  apply kept_bind; [apply kept_save_thumbnails|]. intros _ w1 _.
  apply kept_bind; [apply R_logging|]. intros _ w2 _.
  apply kept_bind; [apply kept_generate_tiles|]. intros tiles w3 _.
  apply kept_bind; [apply R_logging|]. intros _ w4 _.
  apply kept_bind; [apply R_logging|]. intros _ w5 _.
  apply kept_bind; [apply kept_save_tiles|]. intros st w6 _.
  by apply kept_finish_slide.
Qed.

Lemma kept_process_one_slide sample level margin tile_size fthr othr w :
  R w (process_one_slide sample level margin tile_size fthr othr
                         output_dir thumbnail_dir w).2.
Proof.
  unfold process_one_slide.
  apply kept_bind; [apply kept_set_up_slide_dir|].
  intros [sid dir] w1 (_ & -> & _)%set_up_slide_dir_ok.
  apply kept_bind; [by apply kept_same|]. intros already w2 _.
  destruct already.
  { apply kept_bind; [apply R_logging|]. intros _ w3 _. by apply kept_same. }
  apply kept_bind; [apply kept_prepare_slide|].
  intros l w3 (md & _ & _ & _ & _ & _ & Hd & Hf & _)%prepare_slide_ok.
  apply kept_process_loaded_slide.
  - rewrite Hd. unfold path_join. rewrite <- (assoc_L (++)). apply allowed_output.
  - rewrite Hf. unfold path_join. rewrite <- (assoc_L (++)). apply allowed_output.
Qed.

End KeptSlide.

Lemma kept_map_M {A B} (func : A -> M B) (l : list A) w :
  (forall a w, R w (func a w).2) -> R w (map_M func l w).2.
Proof.
  intros Hf. revert w. induction l as [|a l IH]; intros w; [apply R_refl|].
  cbn [map_M]. apply kept_bind; [apply Hf|]. intros b w1 _.
  apply kept_bind; [apply IH|]. intros bs w2 _. by apply kept_same.
Qed.

Lemma kept_main slides_dataset root_output_dir level tile_size margin fthr othr
    overwrite n_slides w :
  (forall q, allowed (root_output_dir </> q)) ->
  (overwrite = true -> forall w, R w (on_fs (rmtree_fs root_output_dir) w).2) ->
  R w (main slides_dataset root_output_dir level tile_size margin fthr othr
            overwrite n_slides w).2.
Proof.
  intros Hroot Hrm. unfold main.
  apply kept_bind; [apply kept_same, check_slide_files_world|]. intros _ w1 _.
  apply kept_bind; [apply R_logging|]. intros _ w2 _.
  apply kept_bind; [by apply kept_same|]. intros there w3 _.
  apply kept_bind.
  { destruct (overwrite && there) eqn:Ho; [|by apply kept_same].
    apply andb_prop in Ho as [-> _]. by apply Hrm. }
  intros _ w4 _.
  apply kept_bind; [apply R_mkdir|]. intros _ w5 _.
  apply kept_bind; [apply R_mkdir|]. intros _ w6 _.
  apply kept_bind; [apply R_logging|]. intros _ w7 _.
  apply kept_bind.
  { apply kept_map_M. intros s w'. apply kept_process_one_slide; [done|].
    intros q. unfold path_join. rewrite <- (assoc_L (++)). apply Hroot. }
  intros _ w8 _.
  apply kept_bind; [apply R_logging|]. intros _ w9 _.
  by apply kept_saving.
Qed.

Lemma kept_prepare_single_slide_dataset slide_file save_dir level tile_size w :
  (forall q, allowed (Path save_dir </> q)) ->
  R w (prepare_single_slide_dataset slide_file save_dir level tile_size w).2.
Proof.
  intros Hdir. unfold prepare_single_slide_dataset.
  apply kept_bind.
  { apply kept_process_one_slide; intros q; unfold path_join;
      rewrite <- (assoc_L (++)); apply Hdir. }
  intros slide_dir w1 _.
  apply kept_bind; [apply kept_same; by rewrite read_csv_len_pure|].
  intros dataset_len w2 _.
  apply kept_bind; [by destruct (0 <? _)%nat; apply kept_same|]. intros _ w3 _.
  apply kept_bind; [apply kept_same; by rewrite read_csv_len_pure|].
  intros failed_len w4 _.
  by destruct (_ =? _)%nat; apply kept_same.
Qed.

End Kept.

(** A relation between file systems, read on worlds. *)
Section OnTheDisk.
Variable Rfs : filesystem -> filesystem -> Prop.
Variable allowed : path -> Prop.
Hypothesis Rfs_refl : forall fs, Rfs fs fs.
Hypothesis Rfs_mkdir : forall parents exist_ok p fs fs',
  mkdir_fs parents exist_ok p fs = Ok fs' -> Rfs fs fs'.
Hypothesis Rfs_write : forall p content fs fs',
  allowed p -> write_fs p content fs = Ok fs' -> Rfs fs fs'.

Lemma on_disk_logging r w : Rfs (fs w) (fs (logging r w).2).
Proof. apply Rfs_refl. Qed.

Lemma on_disk_called c w : Rfs (fs w) (fs (called c w).2).
Proof. apply Rfs_refl. Qed.

Lemma on_disk_mkdir parents exist_ok p w :
  Rfs (fs w) (fs (mkdir parents exist_ok p w).2).
Proof.
  unfold mkdir, on_fs.
  destruct (mkdir_fs parents exist_ok p (fs w)) eqn:Hm; [|apply Rfs_refl].
  by eapply Rfs_mkdir.
Qed.

Lemma on_disk_write p content w :
  allowed p -> Rfs (fs w) (fs (on_fs (write_fs p content) w).2).
Proof.
  intros Hp. unfold on_fs.
  destruct (write_fs p content (fs w)) eqn:Hw; [|apply Rfs_refl].
  by eapply Rfs_write.
Qed.
End OnTheDisk.

(** The relations the pipeline keeps. *)

Lemma same_outside_refl allowed fs : same_outside allowed fs fs.
Proof. by intros p _. Qed.

Lemma same_outside_trans allowed fs1 fs2 fs3 :
  same_outside allowed fs1 fs2 -> same_outside allowed fs2 fs3 ->
  same_outside allowed fs1 fs3.
Proof. intros H12 H23 p Hp. by rewrite H23, H12. Qed.

Lemma same_outside_mkdir allowed parents exist_ok p fs fs' :
  mkdir_fs parents exist_ok p fs = Ok fs' -> same_outside allowed fs fs'.
Proof. intros (Hf & _)%mkdir_fs_ok q _. by rewrite Hf. Qed.

Lemma same_outside_write (allowed : path -> Prop) p content fs fs' :
  allowed p -> write_fs p content fs = Ok fs' -> same_outside allowed fs fs'.
Proof.
  intros Hp (_ & Hf & _)%write_fs_ok q Hq. rewrite Hf.
  apply lookup_insert_ne. by intros ->.
Qed.

(** [rmtree] removes below its argument only. *)
Lemma same_outside_rmtree p w :
  same_outside (fun q => p `prefix_of` q) (fs w) (fs (on_fs (rmtree_fs p) w).2).
Proof.
  unfold on_fs, rmtree_fs.
  destruct (is_dir (fs w) p); [|destruct (is_file (fs w) p); apply same_outside_refl].
  intros q Hq. cbn [files fs snd].
  destruct (files (fs w) !! q) as [c|] eqn:Hc.
  - by apply (map_lookup_filter_Some_2 (fun kv => ¬ p `prefix_of` kv.1)).
  - apply map_lookup_filter_None. by left.
Qed.

Lemma is_file_lookup fs p : is_file fs p = true <-> is_Some (files fs !! p).
Proof. unfold is_file. apply bool_decide_eq_true. Qed.

Lemma nothing_removed_refl fs : nothing_removed fs fs.
Proof. by intros p. Qed.

Lemma nothing_removed_trans fs1 fs2 fs3 :
  nothing_removed fs1 fs2 -> nothing_removed fs2 fs3 -> nothing_removed fs1 fs3.
Proof.
  intros H12 H23 p. destruct (H12 p) as [Hd Hf], (H23 p) as [Hd' Hf'].
  split; auto.
Qed.

Lemma nothing_removed_mkdir parents exist_ok p fs fs' :
  mkdir_fs parents exist_ok p fs = Ok fs' -> nothing_removed fs fs'.
Proof.
  intros (Hf & Hd & _)%mkdir_fs_ok q. split.
  - by apply is_dir_mono.
  - unfold is_file. by rewrite Hf.
Qed.

Lemma nothing_removed_write (allowed : path -> Prop) p content fs fs' :
  allowed p -> write_fs p content fs = Ok fs' -> nothing_removed fs fs'.
Proof.
  intros _ (Hd & Hf & _)%write_fs_ok q. split.
  - unfold is_dir. by rewrite Hd.
  - rewrite !is_file_lookup, Hf. intros Hq.
    destruct (decide (p = q)) as [->|Hne].
    + rewrite lookup_insert_eq. by eexists.
    + by rewrite lookup_insert_ne.
Qed.

(** The hypotheses of [Kept] for the two relations on the disk. *)
Ltac removes_nothing :=
  first [ intros w0; exact (nothing_removed_refl (fs w0))
        | intros w1 w2 w3;
          exact (nothing_removed_trans (fs w1) (fs w2) (fs w3))
        | exact (on_disk_logging nothing_removed nothing_removed_refl)
        | exact (on_disk_called nothing_removed nothing_removed_refl)
        | exact (on_disk_mkdir nothing_removed nothing_removed_refl
                   nothing_removed_mkdir)
        | exact (on_disk_write nothing_removed (fun _ => True) nothing_removed_refl
                   (nothing_removed_write (fun _ => True)))
        | done ].

Ltac keeps_outside allowed :=
  first [ intros w0; exact (same_outside_refl allowed (fs w0))
        | intros w1 w2 w3;
          exact (same_outside_trans allowed (fs w1) (fs w2) (fs w3))
        | exact (on_disk_logging (same_outside allowed) (same_outside_refl allowed))
        | exact (on_disk_called (same_outside allowed) (same_outside_refl allowed))
        | exact (on_disk_mkdir (same_outside allowed) (same_outside_refl allowed)
                   (same_outside_mkdir allowed))
        | exact (on_disk_write (same_outside allowed) allowed
                   (same_outside_refl allowed) (same_outside_write allowed)) ].

Section Frame.
Context `{Collaborators}.

Lemma save_tile_removes_nothing loaded occupancies locations tiles sid rel_dir
    output_dir keys st i w :
  nothing_removed (fs w)
    (fs (save_tile loaded occupancies locations tiles sid rel_dir output_dir keys
                   st i w).2).
Proof.
  apply (kept_save_tile (fun w w' => nothing_removed (fs w) (fs w'))
           (fun _ => True)); removes_nothing.
Qed.

Lemma finish_slide_removes_nothing l st tile_size thumbnail_dir w :
  nothing_removed (fs w) (fs (finish_slide l st tile_size thumbnail_dir w).2).
Proof.
  apply (kept_finish_slide (fun w w' => nothing_removed (fs w) (fs w'))
           (fun _ => True)); removes_nothing.
Qed.

(** X7: [process_one_slide] writes under its two directories only.  For
    a slide id that is a relative path without [..], a file that is
    neither under [output_dir] nor under [thumbnail_dir] is after the
    call what it was before, whether the call returns or raises.  (The
    collaborators that save a file write the file they are asked to
    write; tile image names are relative paths.) *)
Theorem process_one_slide_writes_only_under_its_dirs (sample : sample)
    (level margin tile_size : Z) (foreground_threshold : option float)
    (occupancy_threshold : float) (output_dir thumbnail_dir : path) (w : world)
    (p : path) :
  slide_id_stays_below sample = true ->
  ~ output_dir `prefix_of` p -> ~ thumbnail_dir `prefix_of` p ->
  files (fs (process_one_slide sample level margin tile_size foreground_threshold
               occupancy_threshold output_dir thumbnail_dir w).2) !! p
  = files (fs w) !! p.
Proof.
  intros _ Hout Hth.
  pose (allowed := fun q : path => output_dir `prefix_of` q
                                   \/ thumbnail_dir `prefix_of` q).
  apply (kept_process_one_slide (fun w w' => same_outside allowed (fs w) (fs w'))
           allowed); try keeps_outside allowed.
  - intros q. left. by apply prefix_app_r.
  - intros q. right. by apply prefix_app_r.
  - by intros [?|?].
Qed.

(** X8: [process_one_slide] removes nothing: every directory and every
    file that was there before the call is there after it, whether the
    call returns or raises. *)
Theorem process_one_slide_removes_nothing (sample : sample)
    (level margin tile_size : Z) (foreground_threshold : option float)
    (occupancy_threshold : float) (output_dir thumbnail_dir : path) (w : world)
    (p : path) :
  let w' := (process_one_slide sample level margin tile_size foreground_threshold
               occupancy_threshold output_dir thumbnail_dir w).2 in
  (is_dir (fs w) p = true -> is_dir (fs w') p = true)
  /\ (is_file (fs w) p = true -> is_file (fs w') p = true).
Proof.
  intros w'. revert p. change (nothing_removed (fs w) (fs w')).
  apply (kept_process_one_slide (fun w w' => nothing_removed (fs w) (fs w'))
           (fun _ => True)); removes_nothing.
Qed.

(** X9: a sample that lacks ["slide_id"], ["metadata"] or ["image"] is
    never loaded: [process_one_slide] makes none of its calls that load,
    render, tile or save, and it returns only if it skips the slide as
    already processed. *)
Theorem process_one_slide_missing_key (sample : sample) (level margin tile_size : Z)
    (foreground_threshold : option float) (occupancy_threshold : float)
    (output_dir thumbnail_dir : path) (w : world) :
  sample !! "slide_id" = None \/ sample !! "metadata" = None
  \/ sample !! "image" = None ->
  let run := process_one_slide sample level margin tile_size foreground_threshold
               occupancy_threshold output_dir thumbnail_dir w in
  calls run.2 = calls w
  /\ forall d, run.1 = Ok d -> Info (Msg_skipping d) ∈ log run.2.
Proof.
  intros Hmissing run. unfold run, process_one_slide.
  destruct (set_up_slide_dir sample output_dir thumbnail_dir w)
    as [[[sid dir]|e] w1] eqn:Hsetup.
  - rewrite (M_bind_ok _ _ _ _ _ Hsetup).
    apply set_up_slide_dir_ok in Hsetup as (Hsid & _ & _ & _ & _ & _ & Hc1 & _).
    run. destruct (is_already_processed (fs w1) dir).
    + cbn [fst snd calls log]. split; [done|].
      intros d [= <-]. apply elem_of_app. right. by left.
    + assert (Hraised : forall e w2, calls w2 = calls w ->
                calls (Raise e : result path, w2).2 = calls w
                /\ forall d, (Raise e : result path, w2).1 = Ok d ->
                             Info (Msg_skipping d) ∈ log (Raise e : result path, w2).2).
      { intros e w2 Hc. split; [done|]. intros d Hd. discriminate Hd. }
      unfold prepare_slide, mkdir, on_fs. run.
      destruct (mkdir_fs true true dir (fs w1)) as [fs2|e]; [|by apply Hraised].
      cbn [fs log calls].
      destruct (getitem_dict sample "metadata") as [md|e] eqn:Hmd;
        [|by apply Hraised].
      destruct (write_fs (dir </> ["dataset.csv"]) "" fs2) as [fs3|e];
        [|by apply Hraised].
      cbn [fs log calls].
      destruct (write_fs (dir </> ["failed_tiles.csv"]) "" fs3) as [fs4|e];
        [|by apply Hraised].
      cbn [fs log calls].
      destruct (getitem_str sample "image") as [image|e] eqn:Himage;
        [|by apply Hraised].
      exfalso. unfold getitem_str, getitem_dict in *.
      destruct Hmissing as [Hk|[Hk|Hk]]; rewrite Hk in *; done.
  - rewrite (M_bind_raise _ _ _ _ _ Hsetup). cbn [fst snd].
    split; [|intros d Hd; discriminate Hd].
    unfold set_up_slide_dir, mkdir, on_fs in Hsetup. run_in Hsetup.
    destruct (mkdir_fs true true output_dir (fs w)) as [fs1|e1];
      [|by injection Hsetup as _ <-].
    cbn [fs log calls] in Hsetup.
    destruct (mkdir_fs true true thumbnail_dir fs1) as [fs2|e2];
      [|by injection Hsetup as _ <-].
    destruct (getitem_str sample "slide_id"); [done|].
    by injection Hsetup as _ <-.
Qed.

End Frame.

Lemma process_one_slide_writes_only_under_its_dirs_witness :
  let C := Demo.collaborators Demo.slide4 (float_of_int 2) (0, 0) true in
  let w := Demo.world0 ["a.svs"] in
  files (fs (process_one_slide (H := C) (Demo.slide_sample "a.svs") 0 0 256 None
               float_0_1 ["out"] ["out"; "thumbnails"] w).2) !! ["data"; "a.svs"]
  = files (fs w) !! ["data"; "a.svs"].
Proof.
  intros C w.
  apply (process_one_slide_writes_only_under_its_dirs (H := C)
           (Demo.slide_sample "a.svs") 0 0 256 None float_0_1 ["out"]
           ["out"; "thumbnails"] w ["data"; "a.svs"]);
    [reflexivity | by intros [k Hk] | by intros [k Hk]].
Defined.

Lemma process_one_slide_removes_nothing_witness :
  let C := Demo.collaborators Demo.slide4 (float_of_int 2) (0, 0) true in
  let w := Demo.world0 ["a.svs"] in
  let w' := (process_one_slide (H := C) (Demo.slide_sample "a.svs") 0 0 256 None
               float_0_1 ["out"] ["out"; "thumbnails"] w).2 in
  is_dir (fs w') ["data"] = true /\ is_file (fs w') ["data"; "a.svs"] = true.
Proof.
  intros C w w'. split.
  - apply (process_one_slide_removes_nothing (H := C) (Demo.slide_sample "a.svs")
             0 0 256 None float_0_1 ["out"] ["out"; "thumbnails"] w ["data"]).
    reflexivity.
  - apply (process_one_slide_removes_nothing (H := C) (Demo.slide_sample "a.svs")
             0 0 256 None float_0_1 ["out"] ["out"; "thumbnails"] w
             ["data"; "a.svs"]).
    reflexivity.
Defined.

Lemma process_one_slide_missing_key_witness :
  let C := Demo.collaborators Demo.slide4 (float_of_int 2) (0, 0) true in
  let sample : sample := {[ "image" := PStr "data/a.svs"; "slide_id" := PStr "a.svs" ]} in
  let w := Demo.world0 ["a.svs"] in
  let run := process_one_slide (H := C) sample 0 0 256 None float_0_1 ["out"]
               ["out"; "thumbnails"] w in
  calls run.2 = calls w
  /\ forall d, run.1 = Ok d -> Info (Msg_skipping d) ∈ log run.2.
Proof.
  intros C sample w.
  apply (process_one_slide_missing_key (H := C) sample 0 0 256 None float_0_1
           ["out"] ["out"; "thumbnails"] w).
  right. left. reflexivity.
Defined.

(** ** What is on the disk when a slide is done *)

Lemma failed_csv_not_png (dir thumbnail_dir : path) (stem : string) :
  dir </> ["failed_tiles.csv"] <> thumbnail_dir </> [stem +:+ "_roi_tiles.png"].
Proof.
  unfold path_join. intros [_ Heq]%app_inj_tail.
  pose proof (f_equal String.length Heq) as Hlen.
  rewrite str_length_app in Hlen. simpl in Hlen.
  destruct stem as [|a [|b [|c stem]]]; simpl in Hlen; try lia.
  cbv in Heq. discriminate Heq.
Qed.

Section Manifest.
Context `{Collaborators}.

Lemma saving_inv c render out w u w' :
  saving c render out w = (Ok u, w') ->
  exists content fs',
    render (fs w) = Ok content /\ write_fs out content (fs w) = Ok fs'
    /\ w' = {| fs := fs'; log := log w; calls := calls w ++ [c] |}.
Proof.
  unfold saving. run. destruct (render (fs w)) as [content|e]; [|done].
  unfold on_fs. cbn [fs log calls].
  destruct (write_fs out content (fs w)) as [fs'|e] eqn:Hw; [|done].
  intros [= <- <-]. by exists content, fs'.
Qed.

Lemma write_fs_is_file p content fs fs' :
  write_fs p content fs = Ok fs' -> files fs' !! p = Some content.
Proof. intros (_ & -> & _)%write_fs_ok. apply lookup_insert_eq. Qed.

Lemma write_fs_other p content fs fs' q :
  write_fs p content fs = Ok fs' -> q <> p -> files fs' !! q = files fs !! q.
Proof. intros (_ & -> & _)%write_fs_ok Hq. by apply lookup_insert_ne. Qed.

(** When the last step returns, the two CSV files hold what was written
    to them and the overlay is on the disk. *)
Lemma finish_slide_inv l st tile_size thumbnail_dir w d w' :
  finish_slide l st tile_size thumbnail_dir w = (Ok d, w') ->
  let roi_tiles_png :=
    thumbnail_dir </> [name (slide_image_path l) +:+ "_roi_tiles.png"] in
  dataset_csv_path l <> failed_tiles_csv_path l ->
  dataset_csv_path l <> roi_tiles_png ->
  failed_tiles_csv_path l <> roi_tiles_png ->
  d = output_tiles_dir l
  /\ files (fs w') !! dataset_csv_path l = Some (dataset_csv_file st)
  /\ files (fs w') !! failed_tiles_csv_path l = Some (failed_tiles_file st)
  /\ is_file (fs w') roi_tiles_png = true.
Proof.
  intros Hrun png Hdf Hdp Hfp. unfold finish_slide in Hrun. fold png in Hrun.
  apply M_bind_inv in Hrun as (u1 & wa & (fs1 & Hw1 & ->)%on_fs_inv & Hrun).
  apply M_bind_inv in Hrun as (u2 & wb & (fs2 & Hw2 & ->)%on_fs_inv & Hrun).
  cbn [fs log calls] in *.
  apply M_bind_inv in Hrun as (u3 & wc & (png_content & fs3 & _ & Hw3 & ->)%saving_inv
                               & Hrun).
  cbn [fs log calls] in *.
  assert (Hend : d = output_tiles_dir l /\ fs w' = fs3).
  { destruct (0 <? n_failed_tiles st)%nat; run_in Hrun; by injection Hrun as <- <-. }
  destruct Hend as [-> ->]. split; [done|].
  split; [|split].
  - rewrite (write_fs_other _ _ _ _ _ Hw3) by done.
    rewrite (write_fs_other _ _ _ _ _ Hw2) by done.
    by apply write_fs_is_file in Hw1.
  - rewrite (write_fs_other _ _ _ _ _ Hw3) by done.
    by apply write_fs_is_file in Hw2.
  - apply is_file_lookup. apply write_fs_is_file in Hw3. by rewrite Hw3.
Qed.

(** The steps of a call that was not skipped and has returned. *)
Lemma process_one_slide_inv sample level margin tile_size fthr othr output_dir
    thumbnail_dir w sid dir w1 d w' :
  set_up_slide_dir sample output_dir thumbnail_dir w = (Ok (sid, dir), w1) ->
  is_already_processed (fs w1) dir = false ->
  process_one_slide sample level margin tile_size fthr othr output_dir
                    thumbnail_dir w = (Ok d, w') ->
  exists l w2 w3 tiles w4 st w5,
    prepare_slide sample level margin fthr sid dir w1 = (Ok l, w2)
    /\ save_thumbnails l thumbnail_dir w2 = (Ok tt, w3)
    /\ generate_tiles (wsi_image (loaded_WSI_sample l)) tile_size
         (wsi_foreground_threshold (loaded_WSI_sample l)) othr
         {| fs := fs w3; log := log w3 ++ [Info (Msg_tiling (slide_id l))];
            calls := calls w3 |} = (Ok tiles, w4)
    /\ save_tiles (loaded_WSI_sample l) (occupancies tiles)
         (level0_locations (wsi_scale (loaded_WSI_sample l))
            (wsi_origin (loaded_WSI_sample l)) (tile_locations tiles))
         (image_tiles tiles) (slide_id l) (rel_slide_dir l) output_dir
         (metadata_keys l) (seq 0 (length (image_tiles tiles))) (logs l)
         {| fs := fs w4;
            log := (log w4 ++ [Info (Msg_tiles_found (length (image_tiles tiles)))])
                   ++ [Info (Msg_saving_tiles (slide_id l))];
            calls := calls w4 |} = (Ok st, w5)
    /\ finish_slide l st tile_size thumbnail_dir w5 = (Ok d, w').
Proof.
  intros Hsetup Hnot. unfold process_one_slide.
  rewrite (M_bind_ok _ _ _ _ _ Hsetup). run. rewrite Hnot.
  destruct (prepare_slide sample level margin fthr sid dir w1) as [[l|e] w2] eqn:Hprep;
    [|done].
  unfold process_loaded_slide. intros Hrun.
  apply M_bind_inv in Hrun as ([] & w3 & Hthumb & Hrun).
  run_in Hrun.
  destruct (generate_tiles _ _ _ _ _) as [[tiles|e] w4] eqn:Hgen; [|done].
  destruct (save_tiles _ _ _ _ _ _ _ _ _ _ _) as [[st|e] w5] eqn:Hloop; [|done].
  by exists l, w2, w3, tiles, w4, st, w5.
Qed.

(** A tile the [try] body has saved is on the disk. *)
Lemma save_tile_try_inv loaded occupancies locations tiles rel_dir output_dir i w
    info w1 :
  save_tile_try loaded occupancies locations tiles rel_dir output_dir i w
  = (Ok info, w1) ->
  exists image, tile_info_image info = Ok image
                /\ is_file (fs w1) (output_dir </> image) = true.
Proof.
  unfold save_tile_try. run.
  destruct (Py.index occupancies _) as [occupancy|e]; [|done].
  destruct (Py.index locations _) as [location|e]; [|done].
  destruct (get_tile_info_dict _ _ _ _) as [info0|e]; [|done].
  destruct (Py.index tiles _) as [this_tile|e]; [|done].
  destruct (tile_info_image info0) as [image|e] eqn:Himage; [|done].
  destruct (saving _ _ _ w) as [[u|e] w1'] eqn:Hsave; [|done].
  intros [= <- <-]. exists image. split; [done|].
  apply saving_inv in Hsave as (content & fs' & _ & Hw & ->). cbn [fs].
  apply is_file_lookup. apply write_fs_is_file in Hw. by rewrite Hw.
Qed.

(** The loop keeps on the disk the image of every tile it has recorded
    as saved. *)
Lemma save_tiles_images loaded occupancies locations tiles sid rel_dir output_dir
    keys range st w st' w' :
  save_tiles loaded occupancies locations tiles sid rel_dir output_dir keys
             range st w = (Ok st', w') ->
  (forall info, info ∈ tile_info_list st ->
     exists image, tile_info_image info = Ok image
                   /\ is_file (fs w) (output_dir </> image) = true) ->
  forall info, info ∈ tile_info_list st' ->
    exists image, tile_info_image info = Ok image
                  /\ is_file (fs w') (output_dir </> image) = true.
Proof.
  revert st w. induction range as [|i range IH]; intros st w.
  - cbn [save_tiles]. run. by intros [= <- <-].
  - cbn [save_tiles]. intros Hrun Hst.
    apply M_bind_inv in Hrun as (st1 & w1 & Hturn & Hrun).
    apply (IH _ _ Hrun). clear IH Hrun.
    assert (Hkept : nothing_removed (fs w) (fs w1)).
    { pose proof (save_tile_removes_nothing loaded occupancies locations tiles sid
                    rel_dir output_dir keys st i w) as Hk.
      by rewrite Hturn in Hk. }
    unfold save_tile in Hturn. run_in Hturn.
    destruct (save_tile_try _ _ _ _ _ _ _ w) as [[info0|e] w0] eqn:Htry.
    + injection Hturn as <- <-. cbn [tile_info_list].
      intros info [Hin|Hin%list_elem_of_singleton]%elem_of_app.
      * destruct (Hst info Hin) as (image & Hi & Hf).
        exists image. split; [done|]. by apply Hkept.
      * subst info. by eapply save_tile_try_inv.
    + destruct (Py.index locations _) as [location|e']; [|done].
      injection Hturn as <- <-. cbn [tile_info_list].
      intros info Hin. destruct (Hst info Hin) as (image & Hi & Hf).
      exists image. split; [done|]. by apply Hkept.
Qed.

Lemma saved_no_rows keys (outcomes : list (result tile_info)) :
  saved outcomes = [] -> dataset_lines keys outcomes = "".
Proof.
  induction outcomes as [|[info|e] outcomes IH]; [done| |].
  - by rewrite saved_cons.
  - intros Hs. cbn [dataset_lines]. apply IH. exact Hs.
Qed.

(** What a call that was not skipped has left when it returns. *)
Lemma process_one_slide_returned (sample : sample) (level margin tile_size : Z)
    (foreground_threshold : option float) (occupancy_threshold : float)
    (output_dir thumbnail_dir : path) (w w1 : world) (sid : string)
    (dir d : path) (w' : world) :
  set_up_slide_dir sample output_dir thumbnail_dir w = (Ok (sid, dir), w1) ->
  is_already_processed (fs w1) dir = false ->
  process_one_slide sample level margin tile_size foreground_threshold
                    occupancy_threshold output_dir thumbnail_dir w = (Ok d, w') ->
  exists (metadata : list (string * string)) (locations : list (Z * Z))
         (outcomes : list (result tile_info)),
    let keys := map (fun kv => "slide_" +:+ kv.1) metadata in
    d = output_dir </> Path sid
    /\ getitem_dict sample "metadata" = Ok metadata
    /\ length outcomes = length locations
    /\ files (fs w') !! (d </> ["dataset.csv"])
       = Some ((join "," (keys_to_save ++ keys) +:+ nl)
               +:+ dataset_lines keys outcomes)
    /\ files (fs w') !! (d </> ["failed_tiles.csv"])
       = Some (("tile_id" +:+ nl) +:+ failed_lines locations 0 outcomes)
    /\ forall info, info ∈ saved outcomes ->
         exists image, tile_info_image info = Ok image
                       /\ is_file (fs w') (output_dir </> image) = true.
Proof.
  intros Hsetup Hnot Hrun.
  destruct (process_one_slide_inv _ _ _ _ _ _ _ _ _ _ _ _ _ _ Hsetup Hnot Hrun)
    as (l & w2 & w3 & tiles & w4 & st & w5 & Hprep & Hthumb & Hgen & Hloop & Hfin).
  apply set_up_slide_dir_ok in Hsetup as (_ & Hdir & _).
  apply prepare_slide_ok in Hprep
    as (md & Hmd & Hkeys & _ & _ & Hout & Hds & Hfl & Hlogs & _).
  pose proof (save_range_fits _ _ _ _ _ _ _ (wsi_scale (loaded_WSI_sample l))
                (wsi_origin (loaded_WSI_sample l)) Hgen) as Hfits.
  set (level0 := level0_locations _ _ _) in *.
  destruct (save_tiles_seq (loaded_WSI_sample l) (occupancies tiles) level0
              (image_tiles tiles) (slide_id l) (rel_slide_dir l) output_dir
              (metadata_keys l) (length (image_tiles tiles)) 0 (logs l)
              {| fs := fs w4;
                 log := (log w4 ++ [Info (Msg_tiles_found (length (image_tiles tiles)))])
                        ++ [Info (Msg_saving_tiles (slide_id l))];
                 calls := calls w4 |} ltac:(lia))
    as (outcomes & st' & w5' & Hloop' & Hlen & Hd & Hf & _ & Hl & _).
  rewrite Hloop in Hloop'. injection Hloop' as <- <-.
  pose proof (save_tiles_images _ _ _ _ _ _ _ _ _ _ _ _ _ Hloop) as Himages.
  rewrite Hlogs in Himages, Hd, Hf, Hl. cbn [tile_info_list dataset_csv_file
    failed_tiles_file] in Himages, Hd, Hf, Hl.
  specialize (Himages ltac:(by intros info ?%elem_of_nil)).
  apply finish_slide_inv in Hfin as Hfin'.
  - destruct Hfin' as (Hd' & Hdata & Hfailed & _).
    assert (Hkept : nothing_removed (fs w5) (fs w')).
    { pose proof (finish_slide_removes_nothing l st tile_size thumbnail_dir w5) as Hk.
      by rewrite Hfin in Hk. }
    exists md, level0, outcomes. cbv zeta.
    rewrite Hout in Hd'. subst d. rewrite Hds in Hdata. rewrite Hfl in Hfailed.
    rewrite <- Hkeys.
    split; [done|]. split; [done|]. split; [lia|].
    split; [by rewrite Hdata, Hd|]. split; [by rewrite Hfailed, Hf|].
    intros info Hin. destruct (Himages info) as (image & Hi & Hfile).
    { by rewrite Hl. }
    exists image. split; [done|]. by apply Hkept.
  - rewrite Hds, Hfl. apply dataset_csv_not_failed_csv.
  - rewrite Hds. apply dataset_csv_not_png.
  - rewrite Hfl. apply failed_csv_not_png.
Qed.

(** A slide that is not already processed when its directories are set
    up is not skipped. *)
Lemma process_one_slide_worked sample level margin tile_size fthr othr output_dir
    thumbnail_dir w sid d :
  getitem_str sample "slide_id" = Ok sid ->
  is_already_processed
    (fs (set_up_slide_dir sample output_dir thumbnail_dir w).2)
    (output_dir </> Path sid) = false ->
  (process_one_slide sample level margin tile_size fthr othr output_dir
                     thumbnail_dir w).1 = Ok d ->
  exists w1,
    set_up_slide_dir sample output_dir thumbnail_dir w
    = (Ok (sid, output_dir </> Path sid), w1)
    /\ is_already_processed (fs w1) (output_dir </> Path sid) = false
    /\ process_one_slide sample level margin tile_size fthr othr output_dir
                         thumbnail_dir w
       = (Ok d, (process_one_slide sample level margin tile_size fthr othr
                                   output_dir thumbnail_dir w).2).
Proof.
  intros Hsid Hnot Hrun%run_returned.
  destruct (set_up_slide_dir sample output_dir thumbnail_dir w)
    as [[[sid' dir]|e] w1] eqn:Hsetup.
  - pose proof (set_up_slide_dir_ok _ _ _ _ _ _ _ Hsetup) as (Hsid' & -> & _).
    assert (sid' = sid) as -> by congruence.
    by exists w1.
  - unfold process_one_slide in Hrun.
    by rewrite (M_bind_raise _ _ _ _ _ Hsetup) in Hrun.
Qed.

Lemma saved_lookup (outcomes : list (result tile_info)) (info : tile_info) :
  info ∈ saved outcomes <-> exists k, outcomes !! k = Some (Ok info).
Proof.
  unfold saved. rewrite list_elem_of_omap. split.
  - intros ([info'|e] & [k Hk]%list_elem_of_lookup & Heq); [|done].
    injection Heq as ->. by exists k.
  - intros [k Hk]. exists (Ok info). split; [|done].
    by eapply list_elem_of_lookup_2.
Qed.

(** What a call that was not skipped has done when it returns: the turns
    of its save loop and what they have left in the two CSV files. *)
Lemma process_one_slide_turns (sample : sample) (level margin tile_size : Z)
    (foreground_threshold : option float) (occupancy_threshold : float)
    (output_dir thumbnail_dir : path) (w w1 : world) (sid : string)
    (dir d : path) (w' : world) :
  set_up_slide_dir sample output_dir thumbnail_dir w = (Ok (sid, dir), w1) ->
  is_already_processed (fs w1) dir = false ->
  process_one_slide sample level margin tile_size foreground_threshold
                    occupancy_threshold output_dir thumbnail_dir w = (Ok d, w') ->
  exists (metadata : list (string * string)) (l : slide_locals)
         (tiles : tiles_result) (w_loop : world)
         (outcomes : list (result tile_info)),
    let keys := map (fun kv => "slide_" +:+ kv.1) metadata in
    let locations :=
      level0_locations (wsi_scale (loaded_WSI_sample l))
        (wsi_origin (loaded_WSI_sample l)) (tile_locations tiles) in
    reaches_save_loop sample level margin tile_size foreground_threshold
      occupancy_threshold output_dir thumbnail_dir w l tiles w_loop
    /\ getitem_dict sample "metadata" = Ok metadata
    /\ metadata_keys l = keys
    /\ length locations = length (image_tiles tiles)
    /\ length outcomes = length (image_tiles tiles)
    /\ (forall k o, outcomes !! k = Some o ->
          exists st_k w_k w_k',
            save_tiles (loaded_WSI_sample l) (occupancies tiles) locations
              (image_tiles tiles) (slide_id l) (rel_slide_dir l) output_dir keys
              (seq 0 k) (logs l) w_loop = (Ok st_k, w_k)
            /\ save_tile_try (loaded_WSI_sample l) (occupancies tiles) locations
                 (image_tiles tiles) (rel_slide_dir l) output_dir k w_k = (o, w_k'))
    /\ d = output_dir </> Path sid
    /\ files (fs w') !! (d </> ["dataset.csv"])
       = Some ((join "," (keys_to_save ++ keys) +:+ nl)
               +:+ dataset_lines keys outcomes)
    /\ files (fs w') !! (d </> ["failed_tiles.csv"])
       = Some (("tile_id" +:+ nl) +:+ failed_lines locations 0 outcomes)
    /\ forall info, info ∈ saved outcomes ->
         exists image, tile_info_image info = Ok image
                       /\ is_file (fs w') (output_dir </> image) = true.
Proof.
  intros Hsetup Hnot Hrun.
  destruct (process_one_slide_inv _ _ _ _ _ _ _ _ _ _ _ _ _ _ Hsetup Hnot Hrun)
    as (l & w2 & w3 & tiles & w4 & st & w5 & Hprep & Hthumb & Hgen & Hloop & Hfin).
  assert (Hreach : reaches_save_loop sample level margin tile_size
                     foreground_threshold occupancy_threshold output_dir
                     thumbnail_dir w l tiles
                     {| fs := fs w4;
                        log := (log w4 ++ [Info (Msg_tiles_found
                                                   (length (image_tiles tiles)))])
                               ++ [Info (Msg_saving_tiles (slide_id l))];
                        calls := calls w4 |}).
  { by exists sid, dir, w1, w2, w3, w4. }
  apply set_up_slide_dir_ok in Hsetup as (_ & Hdir & _).
  apply prepare_slide_ok in Hprep
    as (md & Hmd & Hkeys & _ & _ & Hout & Hds & Hfl & Hlogs & _).
  pose proof (save_range_fits _ _ _ _ _ _ _ (wsi_scale (loaded_WSI_sample l))
                (wsi_origin (loaded_WSI_sample l)) Hgen) as Hfits.
  set (level0 := level0_locations _ _ _) in *.
  set (w_loop := {| fs := fs w4; log := _; calls := calls w4 |}) in *.
  destruct (save_tiles_seq (loaded_WSI_sample l) (occupancies tiles) level0
              (image_tiles tiles) (slide_id l) (rel_slide_dir l) output_dir
              (metadata_keys l) (length (image_tiles tiles)) 0 (logs l)
              w_loop ltac:(lia))
    as (outcomes & st' & w5' & Hloop' & Hlen & Hd & Hf & _ & Hl & Hturns).
  rewrite Hloop in Hloop'. injection Hloop' as <- <-.
  pose proof (save_tiles_images _ _ _ _ _ _ _ _ _ _ _ _ _ Hloop) as Himages.
  rewrite Hlogs in Himages, Hd, Hf, Hl. cbn [tile_info_list dataset_csv_file
    failed_tiles_file] in Himages, Hd, Hf, Hl.
  specialize (Himages ltac:(by intros info ?%elem_of_nil)).
  apply finish_slide_inv in Hfin as Hfin'.
  - destruct Hfin' as (Hd' & Hdata & Hfailed & _).
    assert (Hkept : nothing_removed (fs w5) (fs w')).
    { pose proof (finish_slide_removes_nothing l st tile_size thumbnail_dir w5) as Hk.
      by rewrite Hfin in Hk. }
    exists md, l, tiles, w_loop, outcomes. cbv zeta. fold level0.
    rewrite Hout in Hd'. subst d. rewrite Hds in Hdata. rewrite Hfl in Hfailed.
    rewrite <- Hkeys.
    split; [done|]. split; [done|]. split; [done|]. split; [done|].
    split; [done|]. split; [exact Hturns|]. split; [done|].
    split; [by rewrite Hdata, Hd|]. split; [by rewrite Hfailed, Hf|].
    intros info Hin. destruct (Himages info) as (image & Hi & Hfile).
    { by rewrite Hl. }
    exists image. split; [done|]. by apply Hkept.
  - rewrite Hds, Hfl. apply dataset_csv_not_failed_csv.
  - rewrite Hds. apply dataset_csv_not_png.
  - rewrite Hfl. apply failed_csv_not_png.
Qed.

(** X10: when [process_one_slide] returns for a slide that was not
    skipped (it was not already processed when its directories were set
    up), it returns [output_dir / slide_id], and its save loop has made
    one turn for each tile [generate_tiles] returned: the outcome of
    turn [k] is what the [try] body gives for tile [k] in the world the
    turns before it have left.  dataset.csv holds the header and one row
    for each tile whose turn returned, failed_tiles.csv holds its header
    and the descriptor of the level-0 location of each tile whose turn
    raised.  Every tile is in exactly one of the two. *)
Theorem process_one_slide_writes_manifest (sample : sample)
    (level margin tile_size : Z) (foreground_threshold : option float)
    (occupancy_threshold : float) (output_dir thumbnail_dir : path) (w : world)
    (sid : string) (d : path) :
  let run := process_one_slide sample level margin tile_size foreground_threshold
               occupancy_threshold output_dir thumbnail_dir w in
  getitem_str sample "slide_id" = Ok sid ->
  is_already_processed
    (fs (set_up_slide_dir sample output_dir thumbnail_dir w).2)
    (output_dir </> Path sid) = false ->
  run.1 = Ok d ->
  exists (metadata : list (string * string)) (l : slide_locals)
         (tiles : tiles_result) (w_loop : world)
         (outcomes : list (result tile_info)),
    let keys := map (fun kv => "slide_" +:+ kv.1) metadata in
    let locations :=
      level0_locations (wsi_scale (loaded_WSI_sample l))
        (wsi_origin (loaded_WSI_sample l)) (tile_locations tiles) in
    reaches_save_loop sample level margin tile_size foreground_threshold
      occupancy_threshold output_dir thumbnail_dir w l tiles w_loop
    /\ getitem_dict sample "metadata" = Ok metadata
    /\ metadata_keys l = keys
    /\ length locations = length (image_tiles tiles)
    /\ length outcomes = length (image_tiles tiles)
    /\ (forall k o, outcomes !! k = Some o ->
          exists st_k w_k w_k',
            save_tiles (loaded_WSI_sample l) (occupancies tiles) locations
              (image_tiles tiles) (slide_id l) (rel_slide_dir l) output_dir keys
              (seq 0 k) (logs l) w_loop = (Ok st_k, w_k)
            /\ save_tile_try (loaded_WSI_sample l) (occupancies tiles) locations
                 (image_tiles tiles) (rel_slide_dir l) output_dir k w_k = (o, w_k'))
    /\ d = output_dir </> Path sid
    /\ files (fs run.2) !! (d </> ["dataset.csv"])
       = Some ((join "," (keys_to_save ++ keys) +:+ nl)
               +:+ dataset_lines keys outcomes)
    /\ files (fs run.2) !! (d </> ["failed_tiles.csv"])
       = Some (("tile_id" +:+ nl) +:+ failed_lines locations 0 outcomes).
Proof.
  intros run Hsid Hnot Hrun.
  destruct (process_one_slide_worked _ _ _ _ _ _ _ _ _ _ _ Hsid Hnot Hrun)
    as (w1 & Hsetup & Hnot1 & Hrun1).
  destruct (process_one_slide_turns _ _ _ _ _ _ _ _ _ _ _ _ _ _ Hsetup Hnot1 Hrun1)
    as (md & l & tiles & w_loop & outcomes & Hreach & Hmd & Hkeys & Hlocs & Hlen
        & Hturns & Hd & Hdata & Hfailed & _).
  by exists md, l, tiles, w_loop, outcomes.
Qed.

(** X11: when [process_one_slide] returns for a slide that was not
    skipped, the image of every row of dataset.csv is on the disk under
    [output_dir]. *)
Theorem process_one_slide_rows_have_images (sample : sample)
    (level margin tile_size : Z) (foreground_threshold : option float)
    (occupancy_threshold : float) (output_dir thumbnail_dir : path) (w : world)
    (sid : string) (d : path) :
  let run := process_one_slide sample level margin tile_size foreground_threshold
               occupancy_threshold output_dir thumbnail_dir w in
  getitem_str sample "slide_id" = Ok sid ->
  is_already_processed
    (fs (set_up_slide_dir sample output_dir thumbnail_dir w).2)
    (output_dir </> Path sid) = false ->
  run.1 = Ok d ->
  exists (metadata : list (string * string)) (outcomes : list (result tile_info)),
    let keys := map (fun kv => "slide_" +:+ kv.1) metadata in
    getitem_dict sample "metadata" = Ok metadata
    /\ files (fs run.2) !! (d </> ["dataset.csv"])
       = Some ((join "," (keys_to_save ++ keys) +:+ nl)
               +:+ dataset_lines keys outcomes)
    /\ forall info, info ∈ saved outcomes ->
         exists image, tile_info_image info = Ok image
                       /\ is_file (fs run.2) (output_dir </> image) = true.
Proof.
  intros run Hsid Hnot Hrun.
  destruct (process_one_slide_worked _ _ _ _ _ _ _ _ _ _ _ Hsid Hnot Hrun)
    as (w1 & Hsetup & Hnot1 & Hrun1).
  destruct (process_one_slide_returned _ _ _ _ _ _ _ _ _ _ _ _ _ _ Hsetup Hnot1 Hrun1)
    as (md & locations & outcomes & Hd & Hmd & Hlen & Hdata & Hfailed & Himages).
  by exists md, outcomes.
Qed.

(** ** main and prepare_single_slide_dataset as a whole *)

(** X12: [main] looks at every sample before it writes anything: when
    one of the samples it is to process has no ["image_path"] entry, or
    one that names nothing on the disk, [main] raises with the world as
    it was; with [overwrite] too, nothing has been deleted. *)
Theorem main_checks_before_it_writes (slides_dataset : list sample)
    (root_output_dir : path) (level tile_size margin : Z)
    (foreground_threshold : option float) (occupancy_threshold : float)
    (overwrite : bool) (n_slides : option Z) (w : world) (i : nat) (s : sample) :
  slice_to slides_dataset n_slides !! i = Some s ->
  match getitem_str s "image_path" with
  | Ok p => path_exists (fs w) (Path p)
  | Raise _ => false
  end = false ->
  exists e,
    main slides_dataset root_output_dir level tile_size margin foreground_threshold
         occupancy_threshold overwrite n_slides w = (Raise e, w).
Proof.
  intros Hs Hbad.
  destruct (check_slide_files (slice_to slides_dataset n_slides) w).1
    as [[]|e] eqn:Hcheck.
  - exfalso. apply check_slide_files_ok in Hcheck.
    rewrite Forall_forall in Hcheck.
    destruct (Hcheck s) as (p & Hp & Hex); [by eapply list_elem_of_lookup_2|].
    rewrite Hp in Hbad. congruence.
  - exists e. by apply main_fails_fast.
Qed.

(** X13: [main] changes no file outside [root_output_dir], with or
    without [overwrite], whether it returns or raises; the slide ids are
    relative paths without [..]. *)
Theorem main_writes_only_under_root (slides_dataset : list sample)
    (root_output_dir : path) (level tile_size margin : Z)
    (foreground_threshold : option float) (occupancy_threshold : float)
    (overwrite : bool) (n_slides : option Z) (w : world) (p : path) :
  forallb slide_id_stays_below slides_dataset = true ->
  ~ root_output_dir `prefix_of` p ->
  files (fs (main slides_dataset root_output_dir level tile_size margin
               foreground_threshold occupancy_threshold overwrite n_slides w).2) !! p
  = files (fs w) !! p.
Proof.
  intros _ Hp.
  pose (allowed := fun q : path => root_output_dir `prefix_of` q).
  apply (kept_main (fun w w' => same_outside allowed (fs w) (fs w')) allowed);
    try keeps_outside allowed.
  - intros q. by apply prefix_app_r.
  - intros _ w0. apply same_outside_rmtree.
  - done.
Qed.

(** X14: without [overwrite], [main] removes nothing: every directory
    and every file that was there before is there after, whether [main]
    returns or raises. *)
Theorem main_without_overwrite_removes_nothing (slides_dataset : list sample)
    (root_output_dir : path) (level tile_size margin : Z)
    (foreground_threshold : option float) (occupancy_threshold : float)
    (n_slides : option Z) (w : world) (p : path) :
  let w' := (main slides_dataset root_output_dir level tile_size margin
               foreground_threshold occupancy_threshold false n_slides w).2 in
  (is_dir (fs w) p = true -> is_dir (fs w') p = true)
  /\ (is_file (fs w) p = true -> is_file (fs w') p = true).
Proof.
  intros w'. revert p. change (nothing_removed (fs w) (fs w')).
  apply (kept_main (fun w w' => nothing_removed (fs w) (fs w')) (fun _ => True));
    removes_nothing.
Qed.

(** X15: [prepare_single_slide_dataset] returns normally only when the
    run has saved a tile: for a slide that was not skipped, there is a
    tile [k] among those [generate_tiles] returned for which the [try]
    body of the save loop has returned, in the world the turns before it
    have left; the image of that tile is on the disk under
    [save_dir/output] after that turn and when the call returns. *)
Theorem prepare_single_slide_dataset_needs_a_tile (slide_file save_dir : string)
    (level tile_size : Z) (w : world) :
  let slide_sample : sample :=
    {[ "image" := PStr slide_file; "slide_id" := PStr (Py.basename slide_file);
       "metadata" := PDict [] ]} in
  let output_dir := Path save_dir </> ["output"] in
  let thumbnail_dir := Path save_dir </> ["thumbnails"] in
  let run := prepare_single_slide_dataset slide_file save_dir level tile_size w in
  is_already_processed
    (fs (set_up_slide_dir slide_sample output_dir thumbnail_dir w).2)
    (output_dir </> Path (Py.basename slide_file)) = false ->
  run.1 = Ok tt ->
  exists (l : slide_locals) (tiles : tiles_result) (w_loop : world) (k : nat)
         (st_k : csv_logs) (w_k w_k' : world) (info : tile_info) (image : path),
    let locations :=
      level0_locations (wsi_scale (loaded_WSI_sample l))
        (wsi_origin (loaded_WSI_sample l)) (tile_locations tiles) in
    reaches_save_loop slide_sample level 0 tile_size None float_0_1 output_dir
      thumbnail_dir w l tiles w_loop
    /\ (k < length (image_tiles tiles))%nat
    /\ save_tiles (loaded_WSI_sample l) (occupancies tiles) locations
         (image_tiles tiles) (slide_id l) (rel_slide_dir l) output_dir
         (metadata_keys l) (seq 0 k) (logs l) w_loop = (Ok st_k, w_k)
    /\ save_tile_try (loaded_WSI_sample l) (occupancies tiles) locations
         (image_tiles tiles) (rel_slide_dir l) output_dir k w_k = (Ok info, w_k')
    /\ tile_info_image info = Ok image
    /\ is_file (fs w_k') (output_dir </> image) = true
    /\ is_file (fs run.2) (output_dir </> image) = true.
Proof.
  intros slide_sample output_dir thumbnail_dir run Hnot Hrun%run_returned.
  unfold run in *. set (w' := (prepare_single_slide_dataset _ _ _ _ w).2) in *.
  clearbody w'. clear run.
  unfold prepare_single_slide_dataset in Hrun.
  fold slide_sample output_dir thumbnail_dir in Hrun.
  apply M_bind_inv in Hrun as (d & w2 & Hone & Hrun).
  run_in Hrun. rewrite read_csv_len_pure in Hrun.
  destruct (csv_len (fs w2) (d </> ["dataset.csv"])) as [[|n]|e] eqn:Hlen;
    [done| |done].
  cbn [Nat.ltb Nat.leb] in Hrun. rewrite read_csv_len_pure in Hrun.
  assert (Hw : w' = w2).
  { destruct (csv_len (fs w2) (d </> ["failed_tiles.csv"])) as [[|m]|e]; try done.
    by injection Hrun as <-. }
  subst w2. clear Hrun.
  assert (Hsid : getitem_str slide_sample "slide_id" = Ok (Py.basename slide_file))
    by reflexivity.
  destruct (process_one_slide_worked slide_sample level 0 tile_size None float_0_1
              output_dir thumbnail_dir w _ d Hsid Hnot)
    as (w1 & Hsetup & Hnot1 & _); [by rewrite Hone|].
  destruct (process_one_slide_turns _ _ _ _ _ _ _ _ _ _ _ _ _ _ Hsetup Hnot1 Hone)
    as (md & l & tiles & w_loop & outcomes & Hreach & Hmd & Hkeys & Hlocs & Hlen'
        & Hturns & _ & Hdata & _ & Himages).
  assert (md = []) as -> by (by injection Hmd as <-).
  cbv zeta in Hturns, Hlocs. cbn [map] in Hkeys, Hturns, Hdata.
  rewrite <- Hkeys in Hturns.
  destruct (saved outcomes) as [|info infos] eqn:Hsaved.
  - exfalso. rewrite (saved_no_rows _ _ Hsaved) in Hdata.
    unfold csv_len, read_fs in Hlen. rewrite Hdata in Hlen.
    vm_compute in Hlen. discriminate Hlen.
  - assert (Hin : info ∈ saved outcomes) by (rewrite Hsaved; by left).
    rewrite <- Hsaved in Himages.
    destruct (Himages info Hin) as (image & Hi & Hf).
    apply saved_lookup in Hin as [k Hk].
    destruct (Hturns k _ Hk) as (st_k & w_k & w_k' & Hpre & Htry).
    destruct (save_tile_try_inv _ _ _ _ _ _ _ _ _ _ Htry) as (image' & Hi' & Hf').
    assert (image' = image) as -> by congruence.
    exists l, tiles, w_loop, k, st_k, w_k, w_k', info, image. cbv zeta.
    split; [done|]. split; [|done].
    rewrite <- Hlen'. by eapply lookup_lt_Some.
Qed.

(** X16: [prepare_single_slide_dataset] changes no file outside
    [save_dir], whether it returns or raises. *)
Theorem prepare_single_slide_dataset_writes_only_under_save_dir
    (slide_file save_dir : string) (level tile_size : Z) (w : world) (p : path) :
  ~ Path save_dir `prefix_of` p ->
  files (fs (prepare_single_slide_dataset slide_file save_dir level tile_size w).2)
    !! p
  = files (fs w) !! p.
Proof.
  intros Hp.
  pose (allowed := fun q : path => Path save_dir `prefix_of` q).
  apply (kept_prepare_single_slide_dataset
           (fun w w' => same_outside allowed (fs w) (fs w')) allowed);
    try keeps_outside allowed.
  - intros q. by apply prefix_app_r.
  - done.
Qed.

End Manifest.

Lemma process_one_slide_writes_manifest_witness :
  let C := Demo.collaborators Demo.slide4 (float_of_int 2) (0, 0) true in
  let sample := Demo.slide_sample "a.svs" in
  let w := Demo.world0 ["a.svs"] in
  let run := process_one_slide (H := C) sample 0 0 256 None
               float_0_1 ["out"] ["out"; "thumbnails"] w in
  exists (metadata : list (string * string)) (l : slide_locals)
         (tiles : tiles_result) (w_loop : world)
         (outcomes : list (result (tile_info (Collaborators := C)))),
    let keys := map (fun kv => "slide_" +:+ kv.1) metadata in
    let locations :=
      level0_locations (wsi_scale (loaded_WSI_sample l))
        (wsi_origin (loaded_WSI_sample l)) (tile_locations tiles) in
    reaches_save_loop (H := C) sample 0 0 256 None float_0_1 ["out"]
      ["out"; "thumbnails"] w l tiles w_loop
    /\ getitem_dict sample "metadata" = Ok metadata
    /\ metadata_keys l = keys
    /\ length locations = length (image_tiles tiles)
    /\ length outcomes = length (image_tiles tiles)
    /\ (forall k o, outcomes !! k = Some o ->
          exists st_k w_k w_k',
            save_tiles (loaded_WSI_sample l) (occupancies tiles) locations
              (image_tiles tiles) (slide_id l) (rel_slide_dir l) ["out"] keys
              (seq 0 k) (logs l) w_loop = (Ok st_k, w_k)
            /\ save_tile_try (loaded_WSI_sample l) (occupancies tiles) locations
                 (image_tiles tiles) (rel_slide_dir l) ["out"] k w_k = (o, w_k'))
    /\ ["out"; "a.svs"] = ["out"] </> Path "a.svs"
    /\ files (fs run.2) !! (["out"; "a.svs"] </> ["dataset.csv"])
       = Some ((join "," (keys_to_save ++ keys) +:+ nl)
               +:+ dataset_lines keys outcomes)
    /\ files (fs run.2) !! (["out"; "a.svs"] </> ["failed_tiles.csv"])
       = Some (("tile_id" +:+ nl) +:+ failed_lines locations 0 outcomes).
Proof.
  intros C sample w.
  apply (process_one_slide_writes_manifest (H := C) sample
           0 0 256 None float_0_1 ["out"] ["out"; "thumbnails"] w "a.svs"
           ["out"; "a.svs"]);
    vm_compute; reflexivity.
Defined.

Lemma process_one_slide_rows_have_images_witness :
  let C := Demo.collaborators Demo.slide4 (float_of_int 2) (0, 0) true in
  let w := Demo.world0 ["a.svs"] in
  let run := process_one_slide (H := C) (Demo.slide_sample "a.svs") 0 0 256 None
               float_0_1 ["out"] ["out"; "thumbnails"] w in
  exists (metadata : list (string * string))
         (outcomes : list (result (tile_info (Collaborators := C)))),
    let keys := map (fun kv => "slide_" +:+ kv.1) metadata in
    getitem_dict (Demo.slide_sample "a.svs") "metadata" = Ok metadata
    /\ files (fs run.2) !! (["out"; "a.svs"] </> ["dataset.csv"])
       = Some ((join "," (keys_to_save ++ keys) +:+ nl)
               +:+ dataset_lines (H := C) keys outcomes)
    /\ forall info, info ∈ saved outcomes ->
         exists image, tile_info_image (Collaborators := C) info = Ok image
                       /\ is_file (fs run.2) (["out"] </> image) = true.
Proof.
  intros C w.
  apply (process_one_slide_rows_have_images (H := C) (Demo.slide_sample "a.svs")
           0 0 256 None float_0_1 ["out"] ["out"; "thumbnails"] w "a.svs"
           ["out"; "a.svs"]);
    vm_compute; reflexivity.
Defined.

Lemma main_checks_before_it_writes_witness :
  let C := Demo.collaborators Demo.slide4 (float_of_int 2) (0, 0) true in
  let w := Demo.world0 ["a.svs"] in
  exists e,
    main (H := C) [Demo.slide_sample2 "a.svs" "a.svs"; Demo.slide_sample "a.svs"]
         ["out"] 0 256 0 None float_0_1 true None w = (Raise e, w).
Proof.
  intros C w.
  apply (main_checks_before_it_writes (H := C)
           [Demo.slide_sample2 "a.svs" "a.svs"; Demo.slide_sample "a.svs"]
           ["out"] 0 256 0 None float_0_1 true None w 1 (Demo.slide_sample "a.svs"));
    reflexivity.
Defined.

Lemma main_writes_only_under_root_witness :
  let C := Demo.collaborators Demo.slide4 (float_of_int 2) (0, 0) true in
  let w := Demo.world0 ["a.svs"] in
  files (fs (main (H := C) [Demo.slide_sample2 "a.svs" "a.svs"] ["out"] 0 256 0
               None float_0_1 true None w).2) !! ["data"; "a.svs"]
  = files (fs w) !! ["data"; "a.svs"].
Proof.
  intros C w.
  apply (main_writes_only_under_root (H := C) [Demo.slide_sample2 "a.svs" "a.svs"]
           ["out"] 0 256 0 None float_0_1 true None w ["data"; "a.svs"]);
    [reflexivity | by intros [k Hk]].
Defined.

Lemma main_without_overwrite_removes_nothing_witness :
  let C := Demo.collaborators Demo.slide4 (float_of_int 2) (0, 0) true in
  let w := Demo.world0 ["a.svs"] in
  let w' := (main (H := C) [Demo.slide_sample2 "a.svs" "a.svs"] ["out"] 0 256 0
               None float_0_1 false None w).2 in
  is_dir (fs w') ["data"] = true /\ is_file (fs w') ["data"; "a.svs"] = true.
Proof.
  intros C w w'. split.
  - apply (main_without_overwrite_removes_nothing (H := C)
             [Demo.slide_sample2 "a.svs" "a.svs"] ["out"] 0 256 0 None float_0_1
             None w ["data"]).
    reflexivity.
  - apply (main_without_overwrite_removes_nothing (H := C)
             [Demo.slide_sample2 "a.svs" "a.svs"] ["out"] 0 256 0 None float_0_1
             None w ["data"; "a.svs"]).
    reflexivity.
Defined.

Lemma prepare_single_slide_dataset_needs_a_tile_witness :
  let C := Demo.collaborators [Demo.tile_at 0 0 true false false] (float_of_int 2)
             (0, 0) true in
  let w := Demo.world0 ["a.svs"] in
  let slide_sample : sample :=
    {[ "image" := PStr "data/a.svs"; "slide_id" := PStr (Py.basename "data/a.svs");
       "metadata" := PDict [] ]} in
  let output_dir := Path "work" </> ["output"] in
  let thumbnail_dir := Path "work" </> ["thumbnails"] in
  let run := prepare_single_slide_dataset (H := C) "data/a.svs" "work" 0 256 w in
  exists (l : slide_locals) (tiles : tiles_result) (w_loop : world) (k : nat)
         (st_k : csv_logs) (w_k w_k' : world)
         (info : tile_info (Collaborators := C)) (image : path),
    let locations :=
      level0_locations (wsi_scale (loaded_WSI_sample l))
        (wsi_origin (loaded_WSI_sample l)) (tile_locations tiles) in
    reaches_save_loop slide_sample 0 0 256 None float_0_1 output_dir
      thumbnail_dir w l tiles w_loop
    /\ (k < length (image_tiles tiles))%nat
    /\ save_tiles (loaded_WSI_sample l) (occupancies tiles) locations
         (image_tiles tiles) (slide_id l) (rel_slide_dir l) output_dir
         (metadata_keys l) (seq 0 k) (logs l) w_loop = (Ok st_k, w_k)
    /\ save_tile_try (loaded_WSI_sample l) (occupancies tiles) locations
         (image_tiles tiles) (rel_slide_dir l) output_dir k w_k = (Ok info, w_k')
    /\ tile_info_image info = Ok image
    /\ is_file (fs w_k') (output_dir </> image) = true
    /\ is_file (fs run.2) (output_dir </> image) = true.
Proof.
  intros C w.
  apply (prepare_single_slide_dataset_needs_a_tile (H := C) "data/a.svs" "work"
           0 256 w);
    vm_compute; reflexivity.
Defined.

Lemma prepare_single_slide_dataset_writes_only_under_save_dir_witness :
  let C := Demo.collaborators Demo.slide4 (float_of_int 2) (0, 0) true in
  let w := Demo.world0 ["a.svs"] in
  files (fs (prepare_single_slide_dataset (H := C) "data/a.svs" "work" 0 256 w).2)
    !! ["data"; "a.svs"]
  = files (fs w) !! ["data"; "a.svs"].
Proof.
  intros C w.
  apply (prepare_single_slide_dataset_writes_only_under_save_dir (H := C)
           "data/a.svs" "work" 0 256 w ["data"; "a.svs"]).
  by intros [k Hk].
Defined.

(** ** What a run leaves behind *)

(** The log only grows. *)
Lemma on_fs_log f w : log (on_fs f w).2 = log w.
Proof. unfold on_fs. by destruct (f (fs w)). Qed.

Lemma log_grows_refl w : log w `prefix_of` log w.
Proof. done. Qed.

Lemma log_grows_trans w1 w2 w3 :
  log w1 `prefix_of` log w2 -> log w2 `prefix_of` log w3 ->
  log w1 `prefix_of` log w3.
Proof. intros. by etrans. Qed.

Lemma log_grows_logging r w : log w `prefix_of` log (logging r w).2.
Proof. by apply prefix_app_r. Qed.

Lemma log_grows_called c w : log w `prefix_of` log (called c w).2.
Proof. done. Qed.

Lemma log_grows_on_fs f w : log w `prefix_of` log (on_fs f w).2.
Proof. by rewrite on_fs_log. Qed.

Ltac log_grows :=
  first [ exact log_grows_refl | exact log_grows_trans | exact log_grows_logging
        | exact log_grows_called
        | exact (fun parents exist_ok p => log_grows_on_fs (mkdir_fs parents exist_ok p))
        | exact (fun p content w (_ : True) => log_grows_on_fs (write_fs p content) w)
        | intros; apply log_grows_on_fs
        | done ].

Section Behind.
Context `{Collaborators}.

Lemma process_one_slide_log_grows sample level margin tile_size fthr othr output_dir
    thumbnail_dir w :
  log w `prefix_of` log (process_one_slide sample level margin tile_size fthr othr
                           output_dir thumbnail_dir w).2.
Proof.
  apply (kept_process_one_slide (fun w w' => log w `prefix_of` log w')
           (fun _ => True)); log_grows.
Qed.

Lemma save_tiles_log_grows loaded occupancies locations tiles sid rel_dir output_dir
    keys range st w :
  log w `prefix_of` log (save_tiles loaded occupancies locations tiles sid rel_dir
                           output_dir keys range st w).2.
Proof.
  apply (kept_save_tiles (fun w w' => log w `prefix_of` log w') (fun _ => True));
    log_grows.
Qed.

Lemma generate_tiles_log_grows slide_image tile_size fthr othr w :
  log w `prefix_of` log (generate_tiles slide_image tile_size fthr othr w).2.
Proof.
  apply (kept_generate_tiles (fun w w' => log w `prefix_of` log w')); log_grows.
Qed.

Lemma save_thumbnails_log_grows l thumbnail_dir w :
  log w `prefix_of` log (save_thumbnails l thumbnail_dir w).2.
Proof.
  apply (kept_save_thumbnails (fun w w' => log w `prefix_of` log w') (fun _ => True));
    log_grows.
Qed.

Lemma main_log_grows slides_dataset root_output_dir level tile_size margin fthr othr
    overwrite n_slides w :
  log w `prefix_of` log (main slides_dataset root_output_dir level tile_size margin
                           fthr othr overwrite n_slides w).2.
Proof.
  apply (kept_main (fun w w' => log w `prefix_of` log w') (fun _ => True));
    log_grows.
Qed.

Lemma prepare_slide_log_grows sample level margin fthr sid dir w :
  log w `prefix_of` log (prepare_slide sample level margin fthr sid dir w).2.
Proof.
  apply (kept_prepare_slide (fun w w' => log w `prefix_of` log w') (fun _ => True)
           log_grows_refl log_grows_trans log_grows_logging log_grows_called
           (fun parents exist_ok p => log_grows_on_fs (mkdir_fs parents exist_ok p))
           (fun p content w (_ : True) => log_grows_on_fs (write_fs p content) w)
           [] (fun _ => I) sample level margin fthr sid dir w).
Qed.

Lemma map_M_removes_nothing {A B} (func : A -> M B) (l : list A) w :
  (forall a w, nothing_removed (fs w) (fs (func a w).2)) ->
  nothing_removed (fs w) (fs (map_M func l w).2).
Proof.
  intros Hf.
  apply (kept_map_M (fun w w' => nothing_removed (fs w) (fs w'))); removes_nothing.
Qed.

Lemma generate_tiles_removes_nothing slide_image tile_size fthr othr w :
  nothing_removed (fs w) (fs (generate_tiles slide_image tile_size fthr othr w).2).
Proof.
  apply (kept_generate_tiles (fun w w' => nothing_removed (fs w) (fs w')));
    removes_nothing.
Qed.

Lemma save_tiles_removes_nothing loaded occupancies locations tiles sid rel_dir
    output_dir keys range st w :
  nothing_removed (fs w)
    (fs (save_tiles loaded occupancies locations tiles sid rel_dir output_dir keys
                    range st w).2).
Proof.
  apply (kept_save_tiles (fun w w' => nothing_removed (fs w) (fs w'))
           (fun _ => True)); removes_nothing.
Qed.

Lemma process_one_slide_keeps_all sample level margin tile_size fthr othr output_dir
    thumbnail_dir w :
  nothing_removed (fs w)
    (fs (process_one_slide sample level margin tile_size fthr othr output_dir
                           thumbnail_dir w).2).
Proof.
  apply (kept_process_one_slide (fun w w' => nothing_removed (fs w) (fs w'))
           (fun _ => True)); removes_nothing.
Qed.

Lemma save_thumbnails_inv l thumbnail_dir w u w' :
  save_thumbnails l thumbnail_dir w = (Ok u, w') ->
  is_file (fs w') (thumbnail_dir </> [name (slide_image_path l) +:+ "_original.png"])
  = true
  /\ is_file (fs w') (thumbnail_dir </> [name (slide_image_path l) +:+ "_roi.png"])
     = true.
Proof.
  unfold save_thumbnails. intros Hrun.
  apply M_bind_inv in Hrun as (u1 & w1 & (c1 & fs1 & _ & Hw1 & ->)%saving_inv & Hrun).
  apply M_bind_inv in Hrun as (u2 & w2 & (c2 & fs2 & _ & Hw2 & ->)%saving_inv & Hrun).
  cbn [fs log calls] in *. run_in Hrun. injection Hrun as _ <-. cbn [fs].
  split.
  - destruct (nothing_removed_write (fun _ => True) _ _ _ _ I Hw2
                (thumbnail_dir </> [name (slide_image_path l) +:+ "_original.png"]))
      as [_ Hkeep].
    apply Hkeep, is_file_lookup. apply write_fs_is_file in Hw1. by rewrite Hw1.
  - apply is_file_lookup. apply write_fs_is_file in Hw2. by rewrite Hw2.
Qed.

Lemma prepare_slide_image sample level margin fthr sid dir w l w' :
  prepare_slide sample level margin fthr sid dir w = (Ok l, w') ->
  exists file, getitem_str sample "image" = Ok file
               /\ slide_image_path l = Path file.
Proof.
  unfold prepare_slide, mkdir. intros Hrun.
  apply M_bind_inv in Hrun as (u1 & wa & _ & Hrun).
  apply M_bind_inv in Hrun as (md & wb & _ & Hrun).
  apply M_bind_inv in Hrun as (u2 & wc & _ & Hrun).
  apply M_bind_inv in Hrun as (u3 & wd & _ & Hrun).
  run_in Hrun.
  destruct (getitem_str sample "image") as [file|e]; [|done].
  cbn [fmap result_fmap rbind] in Hrun.
  destruct (load_wsi _ _ _ _ _) as [loaded|e]; [|done].
  injection Hrun as <- _. by exists file.
Qed.

(** X17: when [process_one_slide] returns for a slide that was not
    skipped, the three pictures of the slide are in [thumbnail_dir]:
    [<name>_original.png], [<name>_roi.png] and [<name>_roi_tiles.png],
    where [<name>] is the file name of the slide image. *)
Theorem process_one_slide_leaves_pictures (sample : sample)
    (level margin tile_size : Z) (foreground_threshold : option float)
    (occupancy_threshold : float) (output_dir thumbnail_dir : path) (w : world)
    (sid : string) (d : path) :
  let run := process_one_slide sample level margin tile_size foreground_threshold
               occupancy_threshold output_dir thumbnail_dir w in
  getitem_str sample "slide_id" = Ok sid ->
  is_already_processed
    (fs (set_up_slide_dir sample output_dir thumbnail_dir w).2)
    (output_dir </> Path sid) = false ->
  run.1 = Ok d ->
  exists file,
    getitem_str sample "image" = Ok file
    /\ Forall (fun suffix =>
                 is_file (fs run.2) (thumbnail_dir </> [name (Path file) +:+ suffix])
                 = true)
              ["_original.png"; "_roi.png"; "_roi_tiles.png"].
Proof.
  intros run Hsid Hnot Hrun0.
  destruct (process_one_slide_worked _ _ _ _ _ _ _ _ _ _ _ Hsid Hnot Hrun0)
    as (w1 & Hsetup & Hnot1 & Hrun).
  fold run in Hrun. set (w' := run.2) in *. clearbody w'.
  destruct (process_one_slide_inv _ _ _ _ _ _ _ _ _ _ _ _ _ _ Hsetup Hnot1 Hrun)
    as (l & w2 & w3 & tiles & w4 & st & w5 & Hprep & Hthumb & Hgen & Hloop & Hfin).
  destruct (prepare_slide_image _ _ _ _ _ _ _ _ _ Hprep) as (file & Hfile & Hpath).
  apply prepare_slide_ok in Hprep as (md & _ & _ & _ & _ & _ & Hds & Hfl & _).
  apply save_thumbnails_inv in Hthumb as [Horig Hroi].
  assert (Hkept : nothing_removed (fs w3) (fs w')).
  { pose proof (generate_tiles_removes_nothing
                  (wsi_image (loaded_WSI_sample l)) tile_size
                  (wsi_foreground_threshold (loaded_WSI_sample l))
                  occupancy_threshold
                  {| fs := fs w3; log := log w3 ++ [Info (Msg_tiling (slide_id l))];
                     calls := calls w3 |}) as H34.
    rewrite Hgen in H34. cbn [fs snd] in H34.
    pose proof (save_tiles_removes_nothing
                  (loaded_WSI_sample l) (occupancies tiles)
                  (level0_locations (wsi_scale (loaded_WSI_sample l))
                     (wsi_origin (loaded_WSI_sample l)) (tile_locations tiles))
                  (image_tiles tiles) (slide_id l) (rel_slide_dir l) output_dir
                  (metadata_keys l) (seq 0 (length (image_tiles tiles))) (logs l)
                  {| fs := fs w4;
                     log := (log w4
                             ++ [Info (Msg_tiles_found (length (image_tiles tiles)))])
                            ++ [Info (Msg_saving_tiles (slide_id l))];
                     calls := calls w4 |}) as H45.
    rewrite Hloop in H45. cbn [fs snd] in H45.
    pose proof (finish_slide_removes_nothing l st tile_size thumbnail_dir w5) as H5.
    rewrite Hfin in H5. cbn [snd] in H5.
    eapply nothing_removed_trans; [exact H34|].
    eapply nothing_removed_trans; [exact H45|exact H5]. }
  apply finish_slide_inv in Hfin as (_ & _ & _ & Htiles).
  - exists file. split; [done|]. rewrite <- Hpath.
    repeat constructor; [by apply Hkept|by apply Hkept|done].
  - rewrite Hds, Hfl. apply dataset_csv_not_failed_csv.
  - rewrite Hds. apply dataset_csv_not_png.
  - rewrite Hfl. apply failed_csv_not_png.
Qed.

(** What [main] has done when it returns. *)
Lemma main_inv slides_dataset root_output_dir level tile_size margin fthr othr
    overwrite n_slides w w' :
  main slides_dataset root_output_dir level tile_size margin fthr othr overwrite
       n_slides w = (Ok tt, w') ->
  exists w0 dirs_done w1 merged fs',
    log w `prefix_of` log w0
    /\ is_dir (fs w0) root_output_dir = true
    /\ is_dir (fs w0) (root_output_dir </> ["thumbnails"]) = true
    /\ map_M (fun sample => process_one_slide sample level margin tile_size fthr othr
                              root_output_dir (root_output_dir </> ["thumbnails"]))
              (slice_to slides_dataset n_slides) w0 = (Ok dirs_done, w1)
    /\ write_fs (root_output_dir </> ["dataset.csv"]) merged (fs w1) = Ok fs'
    /\ w' = {| fs := fs'; log := log w1 ++ [Info Msg_merging];
               calls := calls w1 ++ [Call_merge root_output_dir] |}.
Proof.
  unfold main. intros Hrun.
  apply M_bind_inv in Hrun as ([] & wa & Hcheck & Hrun).
  assert (wa = w) as ->.
  { pose proof (check_slide_files_world (slice_to slides_dataset n_slides) w) as Hw.
    by rewrite Hcheck in Hw. }
  apply M_bind_inv in Hrun as ([] & wb & Hlog1 & Hrun).
  apply M_bind_inv in Hrun as (there & wc & Hthere & Hrun).
  apply M_bind_inv in Hrun as ([] & wd & Hrm & Hrun).
  apply M_bind_inv in Hrun as ([] & we & (fs1 & Hm1 & ->)%on_fs_inv & Hrun).
  apply M_bind_inv in Hrun as ([] & wf & (fs2 & Hm2 & ->)%on_fs_inv & Hrun).
  apply M_bind_inv in Hrun as ([] & wg & Hlog2 & Hrun).
  apply M_bind_inv in Hrun as (dirs_done & w1 & Hmap & Hrun).
  apply M_bind_inv in Hrun as ([] & wh & Hlog3 & Hrun).
  apply saving_inv in Hrun as (merged & fs' & _ & Hw & ->).
  cbn [fs log calls] in *.
  run_in Hlog1. injection Hlog1 as <-.
  run_in Hthere. injection Hthere as <- <-.
  run_in Hlog2. injection Hlog2 as <-.
  run_in Hlog3. injection Hlog3 as <-.
  cbn [fs log calls] in *.
  exists {| fs := fs2; log := log wd ++ [Info (Msg_thumbnail_dir
                                           (root_output_dir </> ["thumbnails"]))];
            calls := calls wd |}, dirs_done, w1, merged, fs'.
  apply mkdir_fs_ok in Hm1 as (_ & _ & Hroot), Hm2 as (_ & Hsub & Hthumb).
  cbn [fs log calls].
  split; [|split; [by eapply is_dir_mono|split; [done|split; [done|done]]]].
  apply prefix_app_r.
  transitivity (log w ++ [Info (Msg_creating_dataset level tile_size root_output_dir)])%list;
    [by apply prefix_app_r|].
  destruct (overwrite && _).
  - pose proof (on_fs_log (rmtree_fs root_output_dir)
                  {| fs := fs w;
                     log := log w ++ [Info (Msg_creating_dataset level tile_size
                                              root_output_dir)];
                     calls := calls w |}) as Hl.
    rewrite Hrm in Hl. cbn [snd log] in Hl. by rewrite Hl.
  - run_in Hrm. by injection Hrm as <-.
Qed.

(** X18: when [main] returns, [root_output_dir] and its [thumbnails]
    directory are there, the merged dataset.csv is a file in
    [root_output_dir], and merging the slides' CSV files was the last
    call. *)
Theorem main_leaves_merged_dataset (slides_dataset : list sample)
    (root_output_dir : path) (level tile_size margin : Z)
    (foreground_threshold : option float) (occupancy_threshold : float)
    (overwrite : bool) (n_slides : option Z) (w : world) :
  let run := main slides_dataset root_output_dir level tile_size margin
               foreground_threshold occupancy_threshold overwrite n_slides w in
  run.1 = Ok tt ->
  is_dir (fs run.2) root_output_dir = true
  /\ is_dir (fs run.2) (root_output_dir </> ["thumbnails"]) = true
  /\ is_file (fs run.2) (root_output_dir </> ["dataset.csv"]) = true
  /\ last (calls run.2) = Some (Call_merge root_output_dir).
Proof.
  intros run Hrun%run_returned. fold run in Hrun.
  set (w' := run.2) in *. clearbody w'.
  apply main_inv in Hrun
    as (w0 & dirs_done & w1 & merged & fs' & _ & Hroot & Hthumb & Hmap & Hw & ->).
  cbn [fs calls].
  assert (Hkept : nothing_removed (fs w0) fs').
  { eapply nothing_removed_trans; [|by eapply (nothing_removed_write (fun _ => True))].
    pose proof (map_M_removes_nothing
                  (fun sample => process_one_slide sample level margin tile_size
                                   foreground_threshold occupancy_threshold
                                   root_output_dir (root_output_dir </> ["thumbnails"]))
                  (slice_to slides_dataset n_slides) w0) as Hk.
    rewrite Hmap in Hk. apply Hk. intros s w2.
    apply process_one_slide_keeps_all. }
  split; [by apply Hkept|]. split; [by apply Hkept|]. split.
  - apply is_file_lookup. apply write_fs_is_file in Hw. by rewrite Hw.
  - apply last_snoc.
Qed.

(** The last record of a slide that was worked on. *)
Lemma finish_slide_log l st tile_size thumbnail_dir w d w' :
  finish_slide l st tile_size thumbnail_dir w = (Ok d, w') ->
  exists new, log w' = (log w ++ new)%list
              /\ Info (Msg_finished (slide_id l)) ∈ new.
Proof.
  unfold finish_slide. intros Hrun.
  apply M_bind_inv in Hrun as (u1 & wa & (fs1 & _ & ->)%on_fs_inv & Hrun).
  apply M_bind_inv in Hrun as (u2 & wb & (fs2 & _ & ->)%on_fs_inv & Hrun).
  apply M_bind_inv in Hrun as (u3 & wc & (c & fs3 & _ & _ & ->)%saving_inv & Hrun).
  cbn [fs log calls] in Hrun.
  destruct (0 <? n_failed_tiles st)%nat; run_in Hrun; injection Hrun as _ <-;
    cbn [log]; eexists; (split; [by rewrite <- ?(assoc_L (++))|]);
    rewrite ?elem_of_app, !list_elem_of_singleton; tauto.
Qed.

(** A slide [process_one_slide] returns for was finished or skipped, and
    the log says which. *)
Lemma process_one_slide_log sample level margin tile_size fthr othr output_dir
    thumbnail_dir w d w' :
  process_one_slide sample level margin tile_size fthr othr output_dir
                    thumbnail_dir w = (Ok d, w') ->
  exists sid new,
    getitem_str sample "slide_id" = Ok sid
    /\ log w' = (log w ++ new)%list
    /\ (Info (Msg_finished sid) ∈ new
        \/ Info (Msg_skipping (output_dir </> Path sid)) ∈ new).
Proof.
  intros Hrun.
  destruct (set_up_slide_dir sample output_dir thumbnail_dir w)
    as [[[sid dir]|e] w1] eqn:Hsetup; last first.
  { unfold process_one_slide in Hrun.
    by rewrite (M_bind_raise _ _ _ _ _ Hsetup) in Hrun. }
  pose proof (set_up_slide_dir_ok _ _ _ _ _ _ _ Hsetup)
    as (Hsid & Hdir & _ & _ & _ & _ & _ & Hlog1).
  exists sid.
  destruct (is_already_processed (fs w1) dir) eqn:Hdone.
  - unfold process_one_slide in Hrun. rewrite (M_bind_ok _ _ _ _ _ Hsetup) in Hrun.
    run_in Hrun. rewrite Hdone in Hrun. injection Hrun as _ <-. cbn [log].
    rewrite Hlog1, <- (assoc_L (++)). eexists. split; [done|]. split; [done|].
    right. rewrite Hdir. apply elem_of_app. right. by left.
  - destruct (process_one_slide_inv _ _ _ _ _ _ _ _ _ _ _ _ _ _ Hsetup Hdone Hrun)
      as (l & w2 & w3 & tiles & w4 & st & w5 & Hprep & Hthumb & Hgen & Hloop & Hfin).
    assert (Hgrows : log w `prefix_of` log w5).
    { transitivity (log w1); [rewrite Hlog1; by apply prefix_app_r|].
      transitivity (log w2).
      { pose proof (prepare_slide_log_grows sample level margin fthr sid dir w1) as Hp.
        by rewrite Hprep in Hp. }
      transitivity (log w3).
      { pose proof (save_thumbnails_log_grows l thumbnail_dir w2) as Hp.
        by rewrite Hthumb in Hp. }
      transitivity (log w4).
      { pose proof (generate_tiles_log_grows (wsi_image (loaded_WSI_sample l))
                      tile_size (wsi_foreground_threshold (loaded_WSI_sample l)) othr
                      {| fs := fs w3;
                         log := log w3 ++ [Info (Msg_tiling (slide_id l))];
                         calls := calls w3 |}) as Hp.
        rewrite Hgen in Hp. cbn [log snd] in Hp.
        etrans; [|exact Hp]. by apply prefix_app_r. }
      pose proof (save_tiles_log_grows (loaded_WSI_sample l) (occupancies tiles)
                    (level0_locations (wsi_scale (loaded_WSI_sample l))
                       (wsi_origin (loaded_WSI_sample l)) (tile_locations tiles))
                    (image_tiles tiles) (slide_id l) (rel_slide_dir l) output_dir
                    (metadata_keys l) (seq 0 (length (image_tiles tiles))) (logs l)
                    {| fs := fs w4;
                       log := (log w4
                               ++ [Info (Msg_tiles_found (length (image_tiles tiles)))])
                              ++ [Info (Msg_saving_tiles (slide_id l))];
                       calls := calls w4 |}) as Hp.
      rewrite Hloop in Hp. cbn [log snd] in Hp.
      etrans; [|exact Hp]. rewrite <- (assoc_L (++)). by apply prefix_app_r. }
    destruct Hgrows as [k Hk].
    apply prepare_slide_ok in Hprep as (md & _ & _ & Hid & _).
    apply finish_slide_log in Hfin as (new & Hnew & Hin).
    exists (k ++ new)%list. split; [done|].
    split; [by rewrite Hnew, Hk, (assoc_L (++))|].
    left. rewrite <- Hid. apply elem_of_app. by right.
Qed.

(** Every element of a list [map_M] has gone through was handled, in a
    world between the first and the last. *)
Lemma map_M_each {A B} (func : A -> M B) (l : list A) w bs w' :
  (forall a w, log w `prefix_of` log (func a w).2) ->
  map_M func l w = (Ok bs, w') ->
  forall a, a ∈ l ->
    exists w1 b w2, func a w1 = (Ok b, w2)
                    /\ log w `prefix_of` log w1 /\ log w2 `prefix_of` log w'.
Proof.
  intros Hf. revert w bs. induction l as [|a0 l IH]; intros w bs Hrun a Ha.
  { by apply elem_of_nil in Ha. }
  cbn [map_M] in Hrun.
  apply M_bind_inv in Hrun as (b0 & w1 & Hone & Hrun).
  apply M_bind_inv in Hrun as (bs0 & w2 & Hrest & Hrun).
  run_in Hrun. injection Hrun as _ <-.
  assert (H01 : log w `prefix_of` log w1).
  { pose proof (Hf a0 w) as Hp. by rewrite Hone in Hp. }
  assert (H12 : log w1 `prefix_of` log w2).
  { pose proof (kept_map_M (fun w w' => log w `prefix_of` log w')
                  log_grows_refl log_grows_trans func l w1 Hf) as Hp.
    by rewrite Hrest in Hp. }
  apply elem_of_cons in Ha as [->|Ha].
  - by exists w, b0, w1.
  - destruct (IH _ _ Hrest a Ha) as (wa & b & wb & Hrun & Hpre & Hpost).
    exists wa, b, wb. split; [done|]. split; [by etrans|done].
Qed.

(** X19: when [main] returns, every slide it was to process has been
    finished or skipped: among the records [main] has logged there is,
    for each of these samples, "Finished processing slide <slide_id>" or
    "Skipping <root_output_dir/slide_id> - already processed". *)
Theorem main_finishes_or_skips_every_slide (slides_dataset : list sample)
    (root_output_dir : path) (level tile_size margin : Z)
    (foreground_threshold : option float) (occupancy_threshold : float)
    (overwrite : bool) (n_slides : option Z) (w : world) :
  let run := main slides_dataset root_output_dir level tile_size margin
               foreground_threshold occupancy_threshold overwrite n_slides w in
  run.1 = Ok tt ->
  exists new,
    log run.2 = (log w ++ new)%list
    /\ forall sample, sample ∈ slice_to slides_dataset n_slides ->
         exists sid,
           getitem_str sample "slide_id" = Ok sid
           /\ (Info (Msg_finished sid) ∈ new
               \/ Info (Msg_skipping (root_output_dir </> Path sid)) ∈ new).
Proof.
  intros run Hrun%run_returned. fold run in Hrun.
  pose proof (main_log_grows slides_dataset root_output_dir level tile_size margin
                foreground_threshold occupancy_threshold overwrite n_slides w)
    as [new Hnew].
  fold run in Hnew. set (w' := run.2) in *. clearbody w'.
  exists new. split; [done|]. intros sample Hin.
  apply main_inv in Hrun
    as (w0 & dirs_done & w1 & merged & fs' & Hpre & _ & _ & Hmap & _ & Hw').
  destruct (map_M_each _ _ _ _ _
              (fun s w => process_one_slide_log_grows s level margin tile_size
                            foreground_threshold occupancy_threshold root_output_dir
                            (root_output_dir </> ["thumbnails"]) w)
              Hmap sample Hin)
    as (wa & d & wb & Hone & [ka Hka] & [kb Hkb]).
  apply process_one_slide_log in Hone as (sid & new1 & Hsid & Hlog & Hrec).
  exists sid. split; [done|].
  destruct Hpre as [k0 Hk0].
  assert (Hall : new = (k0 ++ ka ++ new1 ++ kb ++ [Info Msg_merging])%list).
  { apply (app_inv_head (log w)). rewrite <- Hnew, Hw'. cbn [log].
    rewrite Hkb, Hlog, Hka, Hk0. by rewrite <- !(assoc_L (++)). }
  rewrite Hall, !elem_of_app. tauto.
Qed.

End Behind.

Lemma process_one_slide_leaves_pictures_witness :
  let C := Demo.collaborators Demo.slide4 (float_of_int 2) (0, 0) true in
  let w := Demo.world0 ["a.svs"] in
  let run := process_one_slide (H := C) (Demo.slide_sample "a.svs") 0 0 256 None
               float_0_1 ["out"] ["out"; "thumbnails"] w in
  exists file,
    getitem_str (Demo.slide_sample "a.svs") "image" = Ok file
    /\ Forall (fun suffix =>
                 is_file (fs run.2)
                   (["out"; "thumbnails"] </> [name (Path file) +:+ suffix])
                 = true)
              ["_original.png"; "_roi.png"; "_roi_tiles.png"].
Proof.
  intros C w.
  apply (process_one_slide_leaves_pictures (H := C) (Demo.slide_sample "a.svs")
           0 0 256 None float_0_1 ["out"] ["out"; "thumbnails"] w "a.svs"
           ["out"; "a.svs"]);
    vm_compute; reflexivity.
Defined.

Lemma main_leaves_merged_dataset_witness :
  let C := Demo.collaborators Demo.slide4 (float_of_int 2) (0, 0) true in
  let w := Demo.world0 ["a.svs"] in
  let run := main (H := C) [Demo.slide_sample2 "a.svs" "a.svs"] ["out"] 0 256 0
               None float_0_1 false None w in
  is_dir (fs run.2) ["out"] = true
  /\ is_dir (fs run.2) (["out"] </> ["thumbnails"]) = true
  /\ is_file (fs run.2) (["out"] </> ["dataset.csv"]) = true
  /\ last (calls run.2) = Some (Call_merge ["out"]).
Proof.
  intros C w.
  apply (main_leaves_merged_dataset (H := C) [Demo.slide_sample2 "a.svs" "a.svs"]
           ["out"] 0 256 0 None float_0_1 false None w).
  vm_compute. reflexivity.
Defined.

Lemma main_finishes_or_skips_every_slide_witness :
  let C := Demo.collaborators Demo.slide4 (float_of_int 2) (0, 0) true in
  let w := Demo.world0 ["a.svs"] in
  let dataset := [Demo.slide_sample2 "a.svs" "a.svs"] in
  let run := main (H := C) dataset ["out"] 0 256 0 None float_0_1 false None w in
  exists new,
    log run.2 = (log w ++ new)%list
    /\ forall sample, sample ∈ slice_to dataset None ->
         exists sid,
           getitem_str sample "slide_id" = Ok sid
           /\ (Info (Msg_finished sid) ∈ new
               \/ Info (Msg_skipping (["out"] </> Path sid)) ∈ new).
Proof.
  intros C w dataset.
  apply (main_finishes_or_skips_every_slide (H := C) dataset ["out"] 0 256 0 None
           float_0_1 false None w).
  vm_compute. reflexivity.
Defined.

(** ** The order of the calls *)

Ltac no_call :=
  exists []; cbn [snd]; rewrite app_nil_r; split; [done|split; [done|simpl; lia]].

Section CallOrder.
Context `{Collaborators}.

Lemma on_fs_calls f w : calls (on_fs f w).2 = calls w.
Proof. unfold on_fs. by destruct (f (fs w)). Qed.

Lemma saving_calls c render out w : calls (saving c render out w).2 = (calls w ++ [c])%list.
Proof.
  destruct (saving c render out w) as [r w'] eqn:Hs.
  by apply saving_frame in Hs as (Hc & _).
Qed.

(** The [try] body makes at most one call, and that one saves a tile. *)
Lemma save_tile_try_calls loaded occupancies locations tiles rel_dir output_dir i w :
  exists new,
    calls (save_tile_try loaded occupancies locations tiles rel_dir output_dir i w).2
    = (calls w ++ new)%list
    /\ forallb saves_tile new = true /\ (length new <= 1)%nat.
Proof.
  unfold save_tile_try. run.
  destruct (Py.index occupancies _) as [occupancy|e];
    [|no_call].
  destruct (Py.index locations _) as [location|e];
    [|no_call].
  destruct (get_tile_info_dict _ _ _ _) as [info|e];
    [|no_call].
  destruct (Py.index tiles _) as [this_tile|e];
    [|no_call].
  destruct (tile_info_image info) as [image|e];
    [|no_call].
  pose proof (saving_calls (Call_save_image (output_dir </> image))
                (fun _ => save_image this_tile) (output_dir </> image) w) as Hc.
  exists [Call_save_image (output_dir </> image)].
  split; [|split; [done|simpl; lia]].
  by destruct (saving _ _ _ w) as [[u|e] w1].
Qed.

Lemma save_tiles_calls loaded occupancies locations tiles sid rel_dir output_dir keys
    range st w :
  exists new,
    calls (save_tiles loaded occupancies locations tiles sid rel_dir output_dir keys
                      range st w).2 = (calls w ++ new)%list
    /\ forallb saves_tile new = true /\ (length new <= length range)%nat.
Proof.
  revert st w. induction range as [|i range IH]; intros st w.
  { cbn [save_tiles]. no_call. }
  cbn [save_tiles].
  destruct (save_tile_try_calls loaded occupancies locations tiles rel_dir output_dir
              i w) as (new1 & Hc1 & Hs1 & Hl1).
  assert (Hturn : forall st1 w1,
            save_tile loaded occupancies locations tiles sid rel_dir output_dir keys
                      st i w = (Ok st1, w1) ->
            calls w1 = (calls w ++ new1)%list).
  { intros st1 w1. unfold save_tile. run.
    destruct (save_tile_try _ _ _ _ _ _ _ w) as [[info|e] w0]; cbn [snd] in Hc1.
    - by intros [= <- <-].
    - destruct (Py.index locations _) as [location|e']; [|done].
      by intros [= <- <-]. }
  assert (Hraise : forall e w1,
            save_tile loaded occupancies locations tiles sid rel_dir output_dir keys
                      st i w = (Raise e, w1) ->
            calls w1 = (calls w ++ new1)%list).
  { intros e w1. unfold save_tile. run.
    destruct (save_tile_try _ _ _ _ _ _ _ w) as [[info|e0] w0]; cbn [snd] in Hc1.
    - done.
    - destruct (Py.index locations _) as [location|e']; [done|].
      by intros [= <- <-]. }
  unfold mbind, M_bind.
  destruct (save_tile _ _ _ _ _ _ _ _ st i w) as [[st1|e] w1] eqn:Hone.
  - destruct (IH st1 w1) as (new2 & Hc2 & Hs2 & Hl2).
    exists (new1 ++ new2)%list. rewrite Hc2, (Hturn _ _ eq_refl), (assoc_L (++)).
    split; [done|]. rewrite forallb_app, Hs1, Hs2, length_app. split; [done|].
    simpl. lia.
  - exists new1. cbn [snd]. rewrite (Hraise _ _ eq_refl).
    split; [done|]. split; [done|]. simpl. lia.
Qed.

Lemma save_thumbnails_calls l thumbnail_dir w u w' :
  save_thumbnails l thumbnail_dir w = (Ok u, w') ->
  calls w'
  = (calls w
     ++ [ Call_save_thumbnail
            (thumbnail_dir </> [name (slide_image_path l) +:+ "_original.png"]);
          Call_savefig
            (thumbnail_dir </> [name (slide_image_path l) +:+ "_roi.png"]) ])%list.
Proof.
  unfold save_thumbnails. intros Hrun.
  apply M_bind_inv in Hrun as (u1 & w1 & (c1 & fs1 & _ & _ & ->)%saving_inv & Hrun).
  apply M_bind_inv in Hrun as (u2 & w2 & (c2 & fs2 & _ & _ & ->)%saving_inv & Hrun).
  cbn [fs log calls] in *. run_in Hrun. injection Hrun as _ <-. cbn [calls].
  by rewrite <- (assoc_L (++)).
Qed.

Lemma finish_slide_calls l st tile_size thumbnail_dir w d w' :
  finish_slide l st tile_size thumbnail_dir w = (Ok d, w') ->
  calls w'
  = (calls w
     ++ [ Call_visualize
            (thumbnail_dir </> [name (slide_image_path l) +:+ "_roi_tiles.png"]) ])%list.
Proof.
  unfold finish_slide. intros Hrun.
  apply M_bind_inv in Hrun as (u1 & wa & (fs1 & _ & ->)%on_fs_inv & Hrun).
  apply M_bind_inv in Hrun as (u2 & wb & (fs2 & _ & ->)%on_fs_inv & Hrun).
  apply M_bind_inv in Hrun as (u3 & wc & (c & fs3 & _ & _ & ->)%saving_inv & Hrun).
  cbn [fs log calls] in Hrun.
  by destruct (0 <? n_failed_tiles st)%nat; run_in Hrun; injection Hrun as _ <-.
Qed.

(** X20: the order of the calls.  When [process_one_slide] returns for a
    slide that was not skipped, what it has called is, in this order: the
    loader, the thumbnail of the slide, the thumbnail of the ROI, the
    tiling, then calls that save a tile image and nothing else, and last
    the overlay. *)
Theorem process_one_slide_call_order (sample : sample)
    (level margin tile_size : Z) (foreground_threshold : option float)
    (occupancy_threshold : float) (output_dir thumbnail_dir : path) (w : world)
    (sid : string) (d : path) :
  let run := process_one_slide sample level margin tile_size foreground_threshold
               occupancy_threshold output_dir thumbnail_dir w in
  getitem_str sample "slide_id" = Ok sid ->
  is_already_processed
    (fs (set_up_slide_dir sample output_dir thumbnail_dir w).2)
    (output_dir </> Path sid) = false ->
  run.1 = Ok d ->
  exists file saves,
    getitem_str sample "image" = Ok file
    /\ forallb saves_tile saves = true
    /\ calls run.2
       = (calls w
          ++ [ Call_load sid;
               Call_save_thumbnail
                 (thumbnail_dir </> [name (Path file) +:+ "_original.png"]);
               Call_savefig (thumbnail_dir </> [name (Path file) +:+ "_roi.png"]);
               Call_tile_array_2d ]
          ++ saves
          ++ [ Call_visualize
                 (thumbnail_dir </> [name (Path file) +:+ "_roi_tiles.png"]) ])%list.
Proof.
  intros run Hsid Hnot Hrun0.
  destruct (process_one_slide_worked _ _ _ _ _ _ _ _ _ _ _ Hsid Hnot Hrun0)
    as (w1 & Hsetup & Hnot1 & Hrun).
  fold run in Hrun. set (w' := run.2) in *. clearbody w'.
  destruct (process_one_slide_inv _ _ _ _ _ _ _ _ _ _ _ _ _ _ Hsetup Hnot1 Hrun)
    as (l & w2 & w3 & tiles & w4 & st & w5 & Hprep & Hthumb & Hgen & Hloop & Hfin).
  destruct (prepare_slide_image _ _ _ _ _ _ _ _ _ Hprep) as (file & Hfile & Hpath).
  apply set_up_slide_dir_ok in Hsetup as (_ & _ & _ & _ & _ & _ & Hc1 & _).
  apply prepare_slide_ok in Hprep as (md & _ & _ & _ & _ & _ & _ & _ & _ & Hc2 & _).
  apply save_thumbnails_calls in Hthumb as Hc3.
  apply generate_tiles_inv in Hgen
    as (tl & locs & fg & thr' & sel & occ & mask & _ & _ & _ & _ & _ & _ & _ & _ & _
        & _ & Hc4 & _).
  cbn [calls] in Hc4.
  destruct (save_tiles_calls (loaded_WSI_sample l) (occupancies tiles)
              (level0_locations (wsi_scale (loaded_WSI_sample l))
                 (wsi_origin (loaded_WSI_sample l)) (tile_locations tiles))
              (image_tiles tiles) (slide_id l) (rel_slide_dir l) output_dir
              (metadata_keys l) (seq 0 (length (image_tiles tiles))) (logs l)
              {| fs := fs w4;
                 log := (log w4
                         ++ [Info (Msg_tiles_found (length (image_tiles tiles)))])
                        ++ [Info (Msg_saving_tiles (slide_id l))];
                 calls := calls w4 |}) as (saves & Hc5 & Hsaves & _).
  rewrite Hloop in Hc5. cbn [calls snd] in Hc5.
  apply finish_slide_calls in Hfin as Hc6.
  exists file, saves. split; [done|]. split; [done|].
  rewrite Hc6, Hc5, Hc4, Hc3, Hc2, Hc1, Hpath.
  by rewrite <- !(assoc_L (++)).
Qed.

End CallOrder.

Lemma process_one_slide_call_order_witness :
  let C := Demo.collaborators Demo.slide4 (float_of_int 2) (0, 0) true in
  let w := Demo.world0 ["a.svs"] in
  let run := process_one_slide (H := C) (Demo.slide_sample "a.svs") 0 0 256 None
               float_0_1 ["out"] ["out"; "thumbnails"] w in
  exists file saves,
    getitem_str (Demo.slide_sample "a.svs") "image" = Ok file
    /\ forallb saves_tile saves = true
    /\ calls run.2
       = (calls w
          ++ [ Call_load "a.svs";
               Call_save_thumbnail
                 (["out"; "thumbnails"] </> [name (Path file) +:+ "_original.png"]);
               Call_savefig
                 (["out"; "thumbnails"] </> [name (Path file) +:+ "_roi.png"]);
               Call_tile_array_2d ]
          ++ saves
          ++ [ Call_visualize
                 (["out"; "thumbnails"] </> [name (Path file) +:+ "_roi_tiles.png"]) ])%list.
Proof.
  intros C w.
  apply (process_one_slide_call_order (H := C) (Demo.slide_sample "a.svs")
           0 0 256 None float_0_1 ["out"] ["out"; "thumbnails"] w "a.svs"
           ["out"; "a.svs"]);
    vm_compute; reflexivity.
Defined.
